(** * Short-run MCMC training of an energy-based model

    A shallow embedding of the sampler and of the training loop of
    [train_data.py] and [train_toy.py].  Tensor elements and the numbers of
    the configuration are kept abstract (class [Scalar]); the calls into
    PyTorch (random generators, reverse-mode differentiation, optimizers) and
    into the modules [nets] and [utils] are operations of the classes
    [Torch] and [Nets], with their documented contracts in [TorchSpec].
    Tensors are values: indexing with a tensor of indices, [clone] and
    [detach] all yield a copy, and no two variables of the scripts share
    storage that is written later. *)

From stdpp Require Import base tactics option list strings.
From Stdlib Require Import ZArith Lia.

Local Open Scope string_scope.
Local Open Scope Z_scope.

(** ** Scalars *)

(** The arithmetic of Python floats and of tensor elements.  [sltb a b] is
    [a < b], [sleb a b] is [a <= b] and [seqb a b] is [a == b]; [sofZ] is
    the conversion of a Python integer that the mixed operations perform.
    The numbers of the configuration are floats.  On tensors no operation
    raises; on Python floats [a ** n] raises OverflowError when the result
    is out of range, which [spow_overflows a n] tells, and [a / b] raises
    ZeroDivisionError when [b == 0]. *)
Class Scalar (R : Type) := {
  sofZ : Z → R;
  sadd : R → R → R;
  ssub : R → R → R;
  smul : R → R → R;
  sdiv : R → R → R;
  sneg : R → R;
  spow : R → Z → R;
  ssqrt : R → R;
  sltb : R → R → bool;
  sleb : R → R → bool;
  seqb : R → R → bool;
  spow_overflows : R → Z → bool;
}.

Section scalar_ops.
Context {R : Type} `{!Scalar R}.

Definition szero : R := sofZ 0.

(** Python's [a > b]. *)
Definition sgtb (a b : R) : bool := sltb b a.

(** Python's built-in [max(a, b)]: the first argument is kept unless the
    second compares strictly greater. *)
Definition pymax (a b : R) : R := if sgtb b a then b else a.

(** [.sum()] and [.mean()] of a flat list of elements. *)
Definition ssum (l : list R) : R := foldl sadd szero l.
Definition smean (l : list R) : R := sdiv (ssum l) (sofZ (Z.of_nat (length l))).

(** L2 norm of a flat list of elements ([.norm()]). *)
Definition snorm (l : list R) : R := ssqrt (ssum ((λ v, smul v v) <$> l)).
End scalar_ops.

(** ** Tensors *)

(** A tensor of rank [n] is a list nested [n] deep, outermost dimension
    first.  Batches of both scripts have rank 4: [batch, channels, H, W]. *)
Fixpoint tensor (R : Type) (n : nat) : Type :=
  match n with
  | O => R
  | S k => list (tensor R k)
  end.

Section tensor_ops.
Context {R : Type}.

(** Elementwise map and elementwise binary operation of two tensors of
    the same shape (the operands of the scripts always have one shape). *)
Fixpoint tmap (f : R → R) (n : nat) : tensor R n → tensor R n :=
  match n with
  | O => f
  | S k => fmap (tmap f k)
  end.

Fixpoint tmap2 (f : R → R → R) (n : nat) : tensor R n → tensor R n → tensor R n :=
  match n with
  | O => f
  | S k => zip_with (tmap2 f k)
  end.

(** [t.view(-1)]: the elements in row-major order. *)
Fixpoint tflatten (n : nat) : tensor R n → list R :=
  match n with
  | O => λ v, [v]
  | S k => λ t, concat (tflatten k <$> t)
  end.

(** A tensor filled with one value. *)
Fixpoint tfull (v : R) (sh : list nat) : tensor R (length sh) :=
  match sh with
  | [] => v
  | d :: sh' => replicate d (tfull v sh')
  end.

Fixpoint has_shape (sh : list nat) (n : nat) {struct n} : tensor R n → Prop :=
  match n with
  | O => λ _, sh = []
  | S k => λ t,
      match sh with
      | [] => False
      | d :: sh' => length t = d ∧ Forall (has_shape sh' k) t
      end
  end.

Fixpoint same_shape (n : nat) : tensor R n → tensor R n → Prop :=
  match n with
  | O => λ _ _, True
  | S k => Forall2 (same_shape k)
  end.
End tensor_ops.

Abbreviation image R := (tensor R 3).
Abbreviation batch R := (list (tensor R 3)).

(** ** Exceptions *)

Inductive exn : Type :=
  | InvalidInitType      (* RuntimeError raised by [sample_s_t_0] *)
  | KeyError (k : string)
  | IndexError
  | ShapeError           (* RuntimeError of a shape mismatch or a negative dimension *)
  | ZeroDivisionError
  | OverflowError
  | NoneIndex            (* a write-back without indices; never reached *).

Inductive result (A : Type) : Type :=
  | Ok (a : A)
  | Raise (e : exn).
Arguments Ok {A} a.
Arguments Raise {A} e.

Definition is_ok {A} (r : result A) : bool :=
  match r with Ok _ => true | Raise _ => false end.

(** Python's slice [l[0:k]]: a negative [k] counts from the end, and the
    bounds are clipped to the list. *)
Definition py_slice_to {A} (k : Z) (l : list A) : list A :=
  take (Z.to_nat (if k <? 0 then Z.of_nat (length l) + k else k)) l.

(** [image_set[inds]] for a tensor of indices: the rows at these indices,
    copied; an index out of range raises. *)
Definition index_select {A} (image_set : list A) (inds : list nat) : result (list A) :=
  match mapM (λ i, image_set !! i) inds with
  | Some rows => Ok rows
  | None => Raise IndexError
  end.

(** [bank.data[inds] = values]: row [inds[k]] is overwritten by
    [values[k]].  An index out of range raises, and so does a value with
    another number of rows than there are indices (broadcasting a
    single-row value is left out: the scripts write one row per index). *)
Definition scatter {A} (bank : list A) (inds : list nat) (values : list A) : list A :=
  foldl (λ b iv, <[iv.1 := iv.2]> b) bank (zip inds values).

Definition index_put {A} (bank : list A) (inds : list nat) (values : list A)
  : result (list A) :=
  if negb (forallb (λ i, Nat.ltb i (length bank)) inds) then Raise IndexError
  else if negb (Nat.eqb (length inds) (length values)) then Raise ShapeError
  else Ok (scatter bank inds values).

(** ** PyTorch and the collaborating modules *)

(** The operations of [torch] that the scripts call.  The state of the
    random generators (CPU and CUDA) is threaded explicitly: every drawing
    operation takes the generator state and returns the next one. *)
Class Torch (R : Type) := {
  rng : Type;
  (** [t.manual_seed(s)], with [t.cuda.manual_seed_all(s)] *)
  manual_seed : Z → rng → rng;
  (** [t.randperm(n)] *)
  randperm : nat → rng → list nat * rng;
  (** [t.rand([b, c, h, w])] and [t.randn([b, c, h, w])] *)
  rand : nat → nat → nat → nat → rng → batch R * rng;
  randn : nat → nat → nat → nat → rng → batch R * rng;
  (** [t.rand_like(x)] and [t.randn_like(x)] *)
  rand_like : batch R → rng → batch R * rng;
  randn_like : batch R → rng → batch R * rng;
  (** [t.autograd.grad(F(x), [x])[0]] for a scalar-valued [F] *)
  autograd_grad : (batch R → R) → batch R → batch R;
}.

Inductive optimizer_kind : Type := Adam | SGD.

(** The energy networks of [nets] (with their parameters), the optimizers
    of [torch.optim] acting on them, and the toy dataset of [utils]. *)
Class Nets (R : Type) `{!Torch R} := {
  net : Type;
  VanillaNet : Z → rng → net * rng;
  NonlocalNet : Z → rng → net * rng;
  ToyNet : rng → net * rng;
  (** [f(x)]: one energy per element of the batch *)
  forward : net → batch R → list R;
  optim_state : Type;
  optim_new : optimizer_kind → net → optim_state;
  (** [optim.zero_grad(); loss.backward(); optim.step()]: the loss is given
      as a function of the network, the learning rates are those of the
      parameter groups *)
  optim_step : optimizer_kind → list R → optim_state → (net → R) → net → net * optim_state;
  toy_dataset : Type;
  (** [q.sample_toy_data(batch_size)] *)
  sample_toy_data : toy_dataset → Z → batch R * toy_dataset;
}.

(** The documented contracts of the PyTorch operations. *)
Class TorchSpec (R : Type) `{!Torch R} : Prop := {
  manual_seed_resets : ∀ s g g', manual_seed s g = manual_seed s g';
  randperm_perm : ∀ n g, (randperm n g).1 ≡ₚ seq 0 n;
  rand_shape : ∀ b c h w g, has_shape [b; c; h; w] 4 (rand b c h w g).1;
  randn_shape : ∀ b c h w g, has_shape [b; c; h; w] 4 (randn b c h w g).1;
  rand_like_shape : ∀ x g, same_shape 4 x (rand_like x g).1;
  randn_like_shape : ∀ x g, same_shape 4 x (randn_like x g).1;
  autograd_grad_shape : ∀ F x, same_shape 4 x (autograd_grad F x);
}.

(** A parameter group of an optimizer; only its learning rate is read or
    written by the scripts. *)
Record param_group (R : Type) := { lr : R }.
Arguments lr {R} _.

Record optimizer (R : Type) `{!Torch R, !Nets R} := {
  kind : optimizer_kind;
  param_groups : list (param_group R);
  state : optim_state;
}.
Arguments kind {R _ _} _.
Arguments param_groups {R _ _} _.
Arguments state {R _ _} _.

(** ** The code shared by the two scripts *)

Section shared.
Context {R : Type} `{!Scalar R, !Torch R, !Nets R}.

Definition tadd (x y : batch R) : batch R := tmap2 sadd 4 x y.
Definition tneg (x : batch R) : batch R := tmap sneg 4 x.
(** [c * x] for a Python number [c] *)
Definition tscale (c : R) (x : batch R) : batch R := tmap (smul c) 4 x.

(** [t.rand(dims)] and [t.randn(dims)] for Python integers: a negative
    dimension raises. *)
Definition torch_rand (b c h w : Z) (g : rng) : result (batch R * rng) :=
  if (b <? 0) || (c <? 0) || (h <? 0) || (w <? 0) then Raise ShapeError
  else Ok (rand (Z.to_nat b) (Z.to_nat c) (Z.to_nat h) (Z.to_nat w) g).
Definition torch_randn (b c h w : Z) (g : rng) : result (batch R * rng) :=
  if (b <? 0) || (c <? 0) || (h <? 0) || (w <? 0) then Raise ShapeError
  else Ok (randn (Z.to_nat b) (Z.to_nat c) (Z.to_nat h) (Z.to_nat w) g).

(** [optim_bank = {'adam': t.optim.Adam, 'sgd': t.optim.SGD}] *)
Definition optim_bank (k : string) : option optimizer_kind :=
  if String.eqb k "adam" then Some Adam
  else if String.eqb k "sgd" then Some SGD
  else None.

(** Python's [a ** n] and [a / b] on floats. *)
Definition py_pow (a : R) (n : Z) : result R :=
  if spow_overflows a n then Raise OverflowError else Ok (spow a n).
Definition py_truediv (a b : R) : result R :=
  if seqb b (sofZ 0) then Raise ZeroDivisionError else Ok (sdiv a b).

(** The rescaling of the two learning rates before the optimizer is made
    (train_data.py 64-67, train_toy.py 62-65).  [py_prescale] is the code:
    the factor [(epsilon ** 2) / 2] is Python arithmetic, whose power can
    raise (the division by the literal 2 cannot); both lines evaluate the
    same expression.  [prescale] is the new [(lr_init, lr_min)] that it
    gives when it raises nothing. *)
Definition prescale (optimizer_type : string) (epsilon lr_init lr_min : R) : R * R :=
  if String.eqb optimizer_type "sgd" && sgtb epsilon (sofZ 0) then
    (smul lr_init (sdiv (spow epsilon 2) (sofZ 2)),
     smul lr_min (sdiv (spow epsilon 2) (sofZ 2)))
  else (lr_init, lr_min).

Definition py_prescale (optimizer_type : string) (epsilon lr_init lr_min : R)
  : result (R * R) :=
  if String.eqb optimizer_type "sgd" && sgtb epsilon (sofZ 0) then
    match py_pow epsilon 2 with
    | Raise e => Raise e
    | Ok sq => Ok (smul lr_init (sdiv sq (sofZ 2)), smul lr_min (sdiv sq (sofZ 2)))
    end
  else Ok (lr_init, lr_min).

(** [optim_bank[optimizer_type](f.parameters(), lr=lr_init)]: one
    parameter group (train_data.py 68, train_toy.py 66). *)
Definition make_optim (optimizer_type : string) (f : net) (lr_init : R)
  : result (optimizer R) :=
  match optim_bank optimizer_type with
  | Some k => Ok {| kind := k; param_groups := [{| lr := lr_init |}];
                    state := optim_new k f |}
  | None => Raise (KeyError optimizer_type)
  end.

(** The per-sample gradient magnitude averaged over the batch:
    [f_prime.view(f_prime.shape[0], -1).norm(dim=1).mean()]. *)
Definition grad_norm_mean (f_prime : batch R) : R :=
  smean ((λ row, snorm (tflatten 3 row)) <$> f_prime).

(** One pass of the body of the Langevin loop (train_data.py 126-128,
    train_toy.py 112-114) on the chain [x_s_t], the accumulator [r_s_t]
    and the generator state. *)
Definition langevin_step (f : net) (epsilon : R) (s : batch R * R * rng)
  : batch R * R * rng :=
  let '(x_s_t, r_s_t, g) := s in
  let f_prime := autograd_grad (λ x, ssum (forward f x)) x_s_t in
  let '(noise, g') := randn_like x_s_t g in
  (tadd x_s_t (tadd (tneg f_prime) (tscale epsilon noise)),
   sadd r_s_t (grad_norm_mean f_prime),
   g').

(** [for ell in range(L)]: a non-positive [L] runs the body no time. *)
Definition langevin (f : net) (epsilon : R) (L : Z) (x_s_t_0 : batch R) (g : rng)
  : batch R * R * rng :=
  Nat.iter (Z.to_nat L) (langevin_step f epsilon) (x_s_t_0, szero, g).

(** The loss of an iteration (train_data.py 152-155, train_toy.py
    138-141) for the network [f].  Both samples are detached: the loss
    depends on the network through the two forward passes only.
    [py_loss] is the code: the factor [2 / (epsilon ** 2)] is Python
    arithmetic, evaluated before the tensor is scaled, and raises when the
    power is out of range or is zero.  [loss] is the loss that it gives
    when it raises nothing. *)
Definition loss (epsilon : R) (x_q x_s_t : batch R) (f : net) : R :=
  let d_s_t := ssub (smean (forward f x_q)) (smean (forward f x_s_t)) in
  if sgtb epsilon (sofZ 0) then smul d_s_t (sdiv (sofZ 2) (spow epsilon 2))
  else d_s_t.

Definition loss_factor (epsilon : R) : result R :=
  match py_pow epsilon 2 with
  | Raise e => Raise e
  | Ok sq => py_truediv (sofZ 2) sq
  end.

Definition py_loss (epsilon : R) (x_q x_s_t : batch R) : result (net → R) :=
  let d_s_t := λ f, ssub (smean (forward f x_q)) (smean (forward f x_s_t)) in
  if sgtb epsilon (sofZ 0) then
    match loss_factor epsilon with
    | Raise e => Raise e
    | Ok c => Ok (λ f, smul (d_s_t f) c)
    end
  else Ok d_s_t.

(** The annealing of one parameter group (train_data.py 167,
    train_toy.py 153). *)
Definition anneal (lr_min lr_decay : R) (lr_gp : param_group R) : param_group R :=
  {| lr := pymax lr_min (smul (lr lr_gp) lr_decay) |}.

(** [optim.zero_grad(); d_s_t.backward(); optim.step()], the loss being a
    function of the network's parameters. *)
Definition backward_step (o : optimizer R) (d_s_t : net → R) (f : net)
  : net * optimizer R :=
  let '(f', s') := optim_step (kind o) (lr <$> param_groups o) (state o) d_s_t f in
  (f', {| kind := kind o; param_groups := param_groups o; state := s' |}).

(** [t.zeros(n)] *)
Definition torch_zeros (n : Z) : result (list R) :=
  if n <? 0 then Raise ShapeError else Ok (replicate (Z.to_nat n) szero).

(** [a % b == 0] on Python integers *)
Definition divides (b a : Z) : result bool :=
  if b =? 0 then Raise ZeroDivisionError else Ok (a mod b =? 0).
End shared.

(** ** The Langevin dynamics in the words of the specification

    These definitions follow the specification, not the code: each step
    subtracts from the state the gradient of the summed energy and adds
    [epsilon] times a fresh draw of the shape of the state; the diagnostic
    is the sum over the steps of the batch mean of the per-sample gradient
    norm, divided by the number of steps. *)

Section specification.
Context {R : Type} `{!Scalar R, !Torch R, !Nets R}.




End specification.

(** ** Exceptions and global state *)

(** A computation over the module-level variables of a script: it returns
    a value and the new variables, or raises (nothing in the scripts
    catches an exception). *)
Definition M (S A : Type) : Type := S → result (A * S).

Definition M_ret {S A} (a : A) : M S A := λ st, Ok (a, st).
Definition M_bind {S A B} (k : A → M S B) (m : M S A) : M S B :=
  λ st, match m st with
        | Ok (a, st') => k a st'
        | Raise e => Raise e
        end.
Global Instance M_mret {S} : MRet (M S) := @M_ret S.
Global Instance M_mbind {S} : MBind (M S) := @M_bind S.

Definition raise {S A} (e : exn) : M S A := λ _, Raise e.
Definition gets {S A} (p : S → A) : M S A := λ st, Ok (p st, st).
Definition modify {S} (u : S → S) : M S unit := λ st, Ok (tt, u st).
Definition lift {S A} (r : result A) : M S A :=
  λ st, match r with Ok a => Ok (a, st) | Raise e => Raise e end.

(** The computation [m] leaves the component [p] of the variables as it
    found it. *)
Definition preserves {S A V} (p : S → V) (m : M S A) : Prop :=
  ∀ st a st', m st = Ok (a, st') → p st' = p st.

(** [for i in range(n): body(i)] *)
Fixpoint for_range {S} (body : Z → M S unit) (i : Z) (n : nat) : M S unit :=
  match n with
  | O => mret tt
  | S n' => body i ;; for_range body (i + 1) n'
  end.

(** * train_data.py *)

Module TrainData.
Section script.
Context {R : Type} `{!Scalar R, !Torch R, !Nets R}.

(** The keys of the JSON configuration that the script reads. *)
Record Config := {
  seed : Z;
  net_type : string;
  im_ch : Z;
  im_sz : Z;
  optimizer_type : string;
  epsilon : R;
  data_epsilon : R;
  lr_init : R;
  lr_min : R;
  lr_decay : R;
  batch_size : Z;
  num_train_iters : Z;
  num_shortrun_steps : Z;
  num_longrun_steps : Z;
  shortrun_init : string;
  longrun_init : string;
  log_freq : Z;
  log_longrun : bool;
  log_longrun_freq : Z;
}.

(** The module-level variables, with the state of the random generators. *)
Record Globals := {
  config : Config;
  generator : rng;
  f : net;
  optim : optimizer R;
  q : batch R;
  s_t_0 : batch R;
  d_s_t_record : list R;
  r_s_t_record : list R;
}.

Definition set_generator (g : rng) (st : Globals) : Globals :=
  {| config := config st; generator := g; f := f st; optim := optim st; q := q st;
     s_t_0 := s_t_0 st; d_s_t_record := d_s_t_record st;
     r_s_t_record := r_s_t_record st |}.
Definition set_s_t_0 (b : batch R) (st : Globals) : Globals :=
  {| config := config st; generator := generator st; f := f st; optim := optim st;
     q := q st; s_t_0 := b; d_s_t_record := d_s_t_record st;
     r_s_t_record := r_s_t_record st |}.
Definition set_f_optim (fo : net * optimizer R) (st : Globals) : Globals :=
  {| config := config st; generator := generator st; f := fo.1; optim := fo.2;
     q := q st; s_t_0 := s_t_0 st; d_s_t_record := d_s_t_record st;
     r_s_t_record := r_s_t_record st |}.
Definition set_records (d r : list R) (st : Globals) : Globals :=
  {| config := config st; generator := generator st; f := f st; optim := optim st;
     q := q st; s_t_0 := s_t_0 st; d_s_t_record := d; r_s_t_record := r |}.

(** A draw from the global generators. *)
Definition draw {A} (op : rng → A * rng) : M Globals A :=
  λ st, let '(a, g) := op (generator st) in Ok (a, set_generator g st).
Definition draw_or_raise {A} (op : rng → result (A * rng)) : M Globals A :=
  λ st, match op (generator st) with
        | Ok (a, g) => Ok (a, set_generator g st)
        | Raise e => Raise e
        end.

(** sample batch from given array of images *)
Definition sample_image_set (image_set : batch R) : M Globals (batch R * list nat) :=
  cfg ← gets config;
  perm ← draw (randperm (length image_set));
  let rand_inds := py_slice_to (batch_size cfg) perm in
  rows ← lift (index_select image_set rand_inds);
  mret (rows, rand_inds).

(** sample positive images from dataset distribution q *)
Definition sample_q : M Globals (batch R) :=
  cfg ← gets config;
  data ← gets q;
  ' (x_q, _) ← sample_image_set data;
  noise ← draw (randn_like x_q);
  mret (tadd x_q (tscale (data_epsilon cfg) noise)).

(** get initial mcmc states for langevin updates *)
Definition sample_s_t_0 (init_type : string) : M Globals (batch R * option (list nat)) :=
  cfg ← gets config;
  if String.eqb init_type "persistent" then
    bank ← gets s_t_0;
    ' (x, inds) ← sample_image_set bank;
    mret (x, Some inds)
  else if String.eqb init_type "data" then
    x ← sample_q;
    mret (x, None)
  else if String.eqb init_type "uniform" then
    u ← draw_or_raise (torch_rand (batch_size cfg) (im_ch cfg) (im_sz cfg) (im_sz cfg));
    mret (tmap (λ v, ssub (smul (sofZ 2) v) (sofZ 1)) 4 u, None)
  else if String.eqb init_type "gaussian" then
    n ← draw_or_raise (torch_randn (batch_size cfg) (im_ch cfg) (im_sz cfg) (im_sz cfg));
    mret (n, None)
  else raise InvalidInitType.

(** update persistent image bank: [s_t_0.data[s_t_0_inds] = x_s_t].  The
    guard of the call makes the initialization persistent, which always
    returns indices: the branch without indices is never taken. *)
Definition write_back (s_t_0_inds : option (list nat)) (x_s_t : batch R)
  : M Globals unit :=
  match s_t_0_inds with
  | Some inds =>
      bank ← gets s_t_0;
      bank' ← lift (index_put bank inds x_s_t);
      modify (set_s_t_0 bank')
  | None => raise NoneIndex
  end.

(** initialize and update images with langevin dynamics *)
Definition sample_s_t (L : Z) (init_type : string) (update_s_t_0 : bool)
  : M Globals (batch R * R) :=
  ' (x_s_t_0, s_t_0_inds) ← sample_s_t_0 init_type;
  cfg ← gets config;
  energy ← gets f;
  ' (x_s_t, r_s_t) ← draw (λ g, let '(x, r, g') := langevin energy (epsilon cfg) L x_s_t_0 g
                                 in ((x, r), g'));
  (if String.eqb init_type "persistent" && update_s_t_0
   then write_back s_t_0_inds x_s_t else mret tt) ;;
  mret (x_s_t, sdiv r_s_t (sofZ L)).

(** [record[i] = v] on a one-dimensional tensor *)
Definition setitem (record : list R) (i : Z) (v : R) : result (list R) :=
  if (i <? 0) || (Z.of_nat (length record) <=? i) then Raise IndexError
  else Ok (<[Z.to_nat i := v]> record).

(** One pass of the body of the training loop (lines 147-185).  Printing,
    plotting and saving read the variables and write none; of the logging
    block only the evaluation of its condition is kept. *)
Definition train_iter (i : Z) : M Globals unit :=
  cfg ← gets config;
  (* obtain positive and negative samples *)
  x_q ← sample_q;
  ' (x_s_t, r_s_t) ← sample_s_t (num_shortrun_steps cfg) (shortrun_init cfg) true;
  (* calculate ML computational loss d_s_t, stochastic gradient ML update *)
  energy ← gets f;
  o ← gets optim;
  d_s_t ← lift (py_loss (epsilon cfg) x_q x_s_t);
  modify (set_f_optim (backward_step o d_s_t energy)) ;;
  (* record diagnostics *)
  d ← gets d_s_t_record;
  r ← gets r_s_t_record;
  d' ← lift (setitem d i (d_s_t energy));
  r' ← lift (setitem r i r_s_t);
  modify (set_records d' r') ;;
  (* anneal learning rate *)
  modify (λ st, set_f_optim
    (f st, {| kind := kind (optim st);
              param_groups := anneal (lr_min cfg) (lr_decay cfg) <$> param_groups (optim st);
              state := state (optim st) |}) st) ;;
  (* print and save learning info *)
  (if i + 1 =? 1 then mret true else lift (divides (log_freq cfg) (i + 1))) ;;
  (* sample longrun chains to diagnose model steady-state *)
  if log_longrun cfg then
    due ← lift (divides (log_longrun_freq cfg) (i + 1));
    if due : bool then
      sample_s_t (num_longrun_steps cfg) (longrun_init cfg) false ;; mret tt
    else mret tt
  else mret tt.

(** [net_bank = {'vanilla': VanillaNet, 'nonlocal': NonlocalNet}] *)
Definition net_bank (k : string) : option (Z → rng → net * rng) :=
  if String.eqb k "vanilla" then Some VanillaNet
  else if String.eqb k "nonlocal" then Some NonlocalNet
  else None.

Definition set_rates (cfg : Config) (rates : R * R) : Config :=
  {| seed := seed cfg; net_type := net_type cfg; im_ch := im_ch cfg; im_sz := im_sz cfg;
     optimizer_type := optimizer_type cfg; epsilon := epsilon cfg;
     data_epsilon := data_epsilon cfg; lr_init := rates.1; lr_min := rates.2;
     lr_decay := lr_decay cfg; batch_size := batch_size cfg;
     num_train_iters := num_train_iters cfg;
     num_shortrun_steps := num_shortrun_steps cfg;
     num_longrun_steps := num_longrun_steps cfg; shortrun_init := shortrun_init cfg;
     longrun_init := longrun_init cfg; log_freq := log_freq cfg;
     log_longrun := log_longrun cfg; log_longrun_freq := log_longrun_freq cfg |}.

(** Lines 48-85 and 142-143: seeding, network, optimizer, image bank and
    records.  [cfg] is the loaded configuration, [data] the tensor of
    training images that line 81 builds, [g0] the state of the generators
    when the script starts. *)
Definition setup (cfg : Config) (data : batch R) (g0 : rng) : result Globals :=
  let g := manual_seed (seed cfg) g0 in
  match net_bank (net_type cfg) with
  | None => Raise (KeyError (net_type cfg))
  | Some make_net =>
      let '(energy, g) := make_net (im_ch cfg) g in
      match py_prescale (optimizer_type cfg) (epsilon cfg) (lr_init cfg) (lr_min cfg) with
      | Raise e => Raise e
      | Ok rates =>
          let cfg := set_rates cfg rates in
          match make_optim (optimizer_type cfg) energy (lr_init cfg) with
          | Raise e => Raise e
          | Ok o =>
              let '(u, g) := rand_like data g in
              let bank := tmap (λ v, ssub (smul (sofZ 2) v) (sofZ 1)) 4 u in
              match torch_zeros (num_train_iters cfg) with
              | Raise e => Raise e
              | Ok zeros =>
                  Ok {| config := cfg; generator := g; f := energy; optim := o;
                        q := data; s_t_0 := bank; d_s_t_record := zeros;
                        r_s_t_record := zeros |}
              end
          end
      end
  end.

(** [for i in range(config['num_train_iters'])] *)
Definition training (iters : nat) : M Globals unit := for_range train_iter 0 iters.

(** The whole script, from the seeding on. *)
Definition main (cfg : Config) (data : batch R) (g0 : rng) : result (unit * Globals) :=
  match setup cfg data g0 with
  | Raise e => Raise e
  | Ok st => training (Z.to_nat (num_train_iters (config st))) st
  end.
End script.
End TrainData.

(** * train_toy.py *)

Module TrainToy.
Section script.
Context {R : Type} `{!Scalar R, !Torch R, !Nets R}.

Record Config := {
  seed : Z;
  net_type : string;
  optimizer_type : string;
  epsilon : R;
  lr_init : R;
  lr_min : R;
  lr_decay : R;
  s_t_0_size : Z;
  batch_size : Z;
  batch_size_kde : Z;
  num_mcmc_steps : Z;
  init_type : string;
  noise_init_factor : R;
  num_train_iters : Z;
  log_info_freq : Z;
  log_viz_freq : Z;
}.

Record Globals := {
  config : Config;
  generator : rng;
  f : net;
  optim : optimizer R;
  q : toy_dataset;
  s_t_0 : batch R;
  d_s_t_record : list R;
  r_s_t_record : list R;
}.

Definition set_generator (g : rng) (st : Globals) : Globals :=
  {| config := config st; generator := g; f := f st; optim := optim st; q := q st;
     s_t_0 := s_t_0 st; d_s_t_record := d_s_t_record st;
     r_s_t_record := r_s_t_record st |}.
Definition set_q (d : toy_dataset) (st : Globals) : Globals :=
  {| config := config st; generator := generator st; f := f st; optim := optim st;
     q := d; s_t_0 := s_t_0 st; d_s_t_record := d_s_t_record st;
     r_s_t_record := r_s_t_record st |}.
Definition set_s_t_0 (b : batch R) (st : Globals) : Globals :=
  {| config := config st; generator := generator st; f := f st; optim := optim st;
     q := q st; s_t_0 := b; d_s_t_record := d_s_t_record st;
     r_s_t_record := r_s_t_record st |}.
Definition set_f_optim (fo : net * optimizer R) (st : Globals) : Globals :=
  {| config := config st; generator := generator st; f := fo.1; optim := fo.2;
     q := q st; s_t_0 := s_t_0 st; d_s_t_record := d_s_t_record st;
     r_s_t_record := r_s_t_record st |}.
Definition set_records (d r : list R) (st : Globals) : Globals :=
  {| config := config st; generator := generator st; f := f st; optim := optim st;
     q := q st; s_t_0 := s_t_0 st; d_s_t_record := d; r_s_t_record := r |}.

Definition draw {A} (op : rng → A * rng) : M Globals A :=
  λ st, let '(a, g) := op (generator st) in Ok (a, set_generator g st).
Definition draw_or_raise {A} (op : rng → result (A * rng)) : M Globals A :=
  λ st, match op (generator st) with
        | Ok (a, g) => Ok (a, set_generator g st)
        | Raise e => Raise e
        end.

(** sample batch from given array of images *)
Definition sample_image_set (image_set : batch R) (batch_size : Z)
  : M Globals (batch R * list nat) :=
  perm ← draw (randperm (length image_set));
  let rand_inds := py_slice_to batch_size perm in
  rows ← lift (index_select image_set rand_inds);
  mret (rows, rand_inds).

(** sample positive images from dataset distribution q *)
Definition sample_q (batch_size : Z) : M Globals (batch R) :=
  λ st, let '(x, d) := sample_toy_data (q st) batch_size in Ok (x, set_q d st).

(** get initial mcmc states for langevin updates *)
Definition sample_s_t_0 (batch_size : Z) (init_type : string)
  : M Globals (batch R * option (list nat)) :=
  cfg ← gets config;
  if String.eqb init_type "persistent" then
    bank ← gets s_t_0;
    ' (x, inds) ← sample_image_set bank batch_size;
    mret (x, Some inds)
  else if String.eqb init_type "data" then
    x ← sample_q batch_size;
    mret (x, None)
  else if String.eqb init_type "uniform" then
    u ← draw_or_raise (torch_rand batch_size 2 1 1);
    mret (tscale (noise_init_factor cfg)
                 (tmap (λ v, ssub (smul (sofZ 2) v) (sofZ 1)) 4 u), None)
  else if String.eqb init_type "gaussian" then
    n ← draw_or_raise (torch_randn batch_size 2 1 1);
    mret (tscale (noise_init_factor cfg) n, None)
  else raise InvalidInitType.

(** update persistent image bank: [s_t_0.data[s_t_0_inds] = x_s_t].  The
    guard of the call makes the initialization persistent, which always
    returns indices: the branch without indices is never taken. *)
Definition write_back (s_t_0_inds : option (list nat)) (x_s_t : batch R)
  : M Globals unit :=
  match s_t_0_inds with
  | Some inds =>
      bank ← gets s_t_0;
      bank' ← lift (index_put bank inds x_s_t);
      modify (set_s_t_0 bank')
  | None => raise NoneIndex
  end.

(** initialize and update images with langevin dynamics *)
Definition sample_s_t (batch_size L : Z) (init_type : string) (update_s_t_0 : bool)
  : M Globals (batch R * R) :=
  ' (x_s_t_0, s_t_0_inds) ← sample_s_t_0 batch_size init_type;
  cfg ← gets config;
  energy ← gets f;
  ' (x_s_t, r_s_t) ← draw (λ g, let '(x, r, g') := langevin energy (epsilon cfg) L x_s_t_0 g
                                in ((x, r), g'));
  (if String.eqb init_type "persistent" && update_s_t_0
   then write_back s_t_0_inds x_s_t else mret tt) ;;
  mret (x_s_t, sdiv r_s_t (sofZ L)).

Definition setitem (record : list R) (i : Z) (v : R) : result (list R) :=
  if (i <? 0) || (Z.of_nat (length record) <=? i) then Raise IndexError
  else Ok (<[Z.to_nat i := v]> record).

(** One pass of the body of the training loop (lines 133-169); of the
    logging and the plotting only what can raise or change a variable is
    kept. *)
Definition train_iter (i : Z) : M Globals unit :=
  cfg ← gets config;
  x_q ← sample_q (batch_size cfg);
  ' (x_s_t, r_s_t) ← sample_s_t (batch_size cfg) (num_mcmc_steps cfg) (init_type cfg) true;
  energy ← gets f;
  o ← gets optim;
  d_s_t ← lift (py_loss (epsilon cfg) x_q x_s_t);
  modify (set_f_optim (backward_step o d_s_t energy)) ;;
  d ← gets d_s_t_record;
  r ← gets r_s_t_record;
  d' ← lift (setitem d i (d_s_t energy));
  r' ← lift (setitem r i r_s_t);
  modify (set_records d' r') ;;
  modify (λ st, set_f_optim
    (f st, {| kind := kind (optim st);
              param_groups := anneal (lr_min cfg) (lr_decay cfg) <$> param_groups (optim st);
              state := state (optim st) |}) st) ;;
  (if i + 1 =? 1 then mret true else lift (divides (log_info_freq cfg) (i + 1))) ;;
  due ← lift (divides (log_viz_freq cfg) (i + 1));
  if due : bool then
    sample_s_t (batch_size_kde cfg) (num_mcmc_steps cfg) (init_type cfg) false ;; mret tt
  else mret tt.

(** [net_bank = {'toy': ToyNet}] *)
Definition net_bank (k : string) : option (rng → net * rng) :=
  if String.eqb k "toy" then Some ToyNet else None.

Definition set_rates (cfg : Config) (rates : R * R) : Config :=
  {| seed := seed cfg; net_type := net_type cfg; optimizer_type := optimizer_type cfg;
     epsilon := epsilon cfg; lr_init := rates.1; lr_min := rates.2;
     lr_decay := lr_decay cfg; s_t_0_size := s_t_0_size cfg;
     batch_size := batch_size cfg; batch_size_kde := batch_size_kde cfg;
     num_mcmc_steps := num_mcmc_steps cfg; init_type := init_type cfg;
     noise_init_factor := noise_init_factor cfg;
     num_train_iters := num_train_iters cfg; log_info_freq := log_info_freq cfg;
     log_viz_freq := log_viz_freq cfg |}.

(** Lines 46-75 and 128-129.  [toys] is the dataset object that line 70
    builds. *)
Definition setup (cfg : Config) (toys : toy_dataset) (g0 : rng) : result Globals :=
  let g := manual_seed (seed cfg) g0 in
  match net_bank (net_type cfg) with
  | None => Raise (KeyError (net_type cfg))
  | Some make_net =>
      let '(energy, g) := make_net g in
      match py_prescale (optimizer_type cfg) (epsilon cfg) (lr_init cfg) (lr_min cfg) with
      | Raise e => Raise e
      | Ok rates =>
          let cfg := set_rates cfg rates in
          match make_optim (optimizer_type cfg) energy (lr_init cfg) with
          | Raise e => Raise e
          | Ok o =>
              match torch_rand (s_t_0_size cfg) 2 1 1 g with
              | Raise e => Raise e
              | Ok (u, g) =>
                  let bank := tmap (λ v, ssub (smul (sofZ 2) v) (sofZ 1)) 4 u in
                  match torch_zeros (num_train_iters cfg) with
                  | Raise e => Raise e
                  | Ok zeros =>
                      Ok {| config := cfg; generator := g; f := energy; optim := o;
                            q := toys; s_t_0 := bank; d_s_t_record := zeros;
                            r_s_t_record := zeros |}
                  end
              end
          end
      end
  end.

Definition training (iters : nat) : M Globals unit := for_range train_iter 0 iters.

Definition main (cfg : Config) (toys : toy_dataset) (g0 : rng) : result (unit * Globals) :=
  match setup cfg toys g0 with
  | Raise e => Raise e
  | Ok st => training (Z.to_nat (num_train_iters (config st))) st
  end.
End script.
End TrainToy.

(** * A small instance for running the model

    Integers for scalars, a counter for the generator state, and fixed
    shape-preserving stand-ins for the network and the differentiation. *)

Module Example.
Definition Z_scalar : Scalar Z :=
  {| sofZ := id; sadd := Z.add; ssub := Z.sub; smul := Z.mul; sdiv := Z.div;
     sneg := Z.opp; spow := Z.pow; ssqrt := Z.sqrt; sltb := Z.ltb; sleb := Z.leb;
     seqb := Z.eqb; spow_overflows := λ a n, 1000000 <? Z.abs (a ^ n) |}.
#[global] Existing Instance Z_scalar.

(** The [n] indices, rotated by the generator state. *)
Definition rotation (n g : nat) : list nat :=
  drop (g `mod` n)%nat (seq 0 n) ++ take (g `mod` n)%nat (seq 0 n).

Definition counter_torch : Torch Z :=
  {| rng := nat;
     manual_seed := λ s _, Z.to_nat s;
     randperm := λ n g, (rotation n g, S g);
     rand := λ b c h w g, (tfull (Z.of_nat g `mod` 2) [b; c; h; w], S g);
     randn := λ b c h w g, (tfull (Z.of_nat g `mod` 3 - 1) [b; c; h; w], S g);
     rand_like := λ x g, (tmap (λ v, (v + Z.of_nat g) `mod` 2) 4 x, S g);
     randn_like := λ x g, (tmap (λ v, (v + Z.of_nat g) `mod` 3 - 1) 4 x, S g);
     autograd_grad := λ F x, tmap (λ v, 2 * v) 4 x |}.
#[global] Existing Instance counter_torch.

(** Two states in which a run may find the generators. *)
Definition fresh : @rng Z counter_torch := O.
Definition used : @rng Z counter_torch := 5%nat.

(** The network is one integer weight [w] with energy [w * sum v^2]; the
    optimizers subtract the learning rate from it. *)
Definition weight_nets : Nets Z :=
  {| net := Z;
     VanillaNet := λ n_c g, (1 + n_c, S g);
     NonlocalNet := λ n_c g, (2 + n_c, S g);
     ToyNet := λ g, (1, S g);
     forward := λ w x, (λ row, w * ssum ((λ v, v * v) <$> tflatten 3 row)) <$> x;
     optim_state := nat;
     optim_new := λ _ _, O;
     optim_step := λ _ lrs s d_s_t w, (w - ssum lrs, S s);
     toy_dataset := nat;
     sample_toy_data := λ d n, (tfull (Z.of_nat d) [Z.to_nat n; 2; 1; 1]%nat, S d) |}.
#[global] Existing Instance weight_nets.

(** A configuration of train_data.py for a given batch size. *)
Definition cfg (bs : Z) : TrainData.Config :=
  {| TrainData.seed := 7; TrainData.net_type := "vanilla"; TrainData.im_ch := 1;
     TrainData.im_sz := 2; TrainData.optimizer_type := "sgd";
     TrainData.epsilon := 2; TrainData.data_epsilon := 1;
     TrainData.lr_init := 8; TrainData.lr_min := 3; TrainData.lr_decay := 1;
     TrainData.batch_size := bs; TrainData.num_train_iters := 2;
     TrainData.num_shortrun_steps := 2; TrainData.num_longrun_steps := 3;
     TrainData.shortrun_init := "persistent"; TrainData.longrun_init := "uniform";
     TrainData.log_freq := 1; TrainData.log_longrun := true;
     TrainData.log_longrun_freq := 2 |}.

(** Three training images of shape [1, 2, 2], and a bank of three chains. *)
Definition images : batch Z :=
  [ [[[1; 2]; [3; 4]]]; [[[5; 6]; [7; 8]]]; [[[9; 10]; [11; 12]]] ].
Definition bank : batch Z :=
  [ [[[1; 0]; [0; 1]]]; [[[2; 1]; [1; 2]]]; [[[3; 2]; [2; 3]]] ].

(** The variables of train_data.py in the middle of a run. *)
Definition globals (bs : Z) : TrainData.Globals :=
  {| TrainData.config := cfg bs; TrainData.generator := 1%nat; TrainData.f := 1;
     TrainData.optim := {| kind := SGD; param_groups := [{| lr := 16 |}];
                           state := O |};
     TrainData.q := images; TrainData.s_t_0 := bank;
     TrainData.d_s_t_record := [0; 0]; TrainData.r_s_t_record := [0; 0] |}.

Definition toy_cfg (bs : Z) : TrainToy.Config :=
  {| TrainToy.seed := 7; TrainToy.net_type := "toy"; TrainToy.optimizer_type := "sgd";
     TrainToy.epsilon := 2; TrainToy.lr_init := 8; TrainToy.lr_min := 3;
     TrainToy.lr_decay := 1; TrainToy.s_t_0_size := 3; TrainToy.batch_size := bs;
     TrainToy.batch_size_kde := 1; TrainToy.num_mcmc_steps := 2;
     TrainToy.init_type := "persistent"; TrainToy.noise_init_factor := 2;
     TrainToy.num_train_iters := 2; TrainToy.log_info_freq := 1;
     TrainToy.log_viz_freq := 2 |}.

(** A bank of three chains of shape [2, 1, 1]. *)
Definition toy_bank : batch Z := [ [[[1]]; [[0]]]; [[[2]]; [[1]]]; [[[3]]; [[2]]] ].

Definition toy_globals (bs : Z) : TrainToy.Globals :=
  {| TrainToy.config := toy_cfg bs; TrainToy.generator := 1%nat; TrainToy.f := 1;
     TrainToy.optim := {| kind := SGD; param_groups := [{| lr := 16 |}];
                          state := O |};
     TrainToy.q := O; TrainToy.s_t_0 := toy_bank;
     TrainToy.d_s_t_record := [0; 0]; TrainToy.r_s_t_record := [0; 0] |}.
End Example.

(** ** When a call of the sampler returns

    The initialization methods that [sample_s_t_0] knows (train_data.py
    106-115, train_toy.py 94-101), and the condition under which a call
    with the method [init] and the tensor dimensions [dims] returns: the
    methods that draw a tensor of noise need dimensions that are not
    negative, the two others need nothing. *)

Definition draws_noise (init : string) : bool :=
  String.eqb init "uniform" || String.eqb init "gaussian".

Definition sampler_accepts (init : string) (dims : list Z) : bool :=
  String.eqb init "persistent" || String.eqb init "data"
  || (draws_noise init && forallb (Z.leb 0) dims).

(** ** When a training iteration returns

    What an iteration with index [i] needs of the configuration to return,
    read off the calls that can raise in the body of the loop
    (train_data.py 147-185, train_toy.py 133-169): the short-run call of
    the sampler, the Python arithmetic of the loss, the modulus of the
    logging condition (not evaluated in the first iteration, where
    [(i + 1) == 1] holds), and the modulus and the call of the long-run
    sampling.  For the setup it is the Python arithmetic of the
    rescaling. *)

Section iteration_conditions.
Context {R : Type} `{!Scalar R, !Torch R, !Nets R}.

(** [(epsilon ** 2) / 2] of the setup and [2 / (epsilon ** 2)] of the loop,
    each behind its guard, raise nothing. *)
Definition prescale_returns (optimizer_type : string) (epsilon : R) : bool :=
  negb (String.eqb optimizer_type "sgd" && sgtb epsilon (sofZ 0))
  || negb (spow_overflows epsilon 2).

Definition loss_returns (epsilon : R) : bool :=
  negb (sgtb epsilon (sofZ 0))
  || (negb (spow_overflows epsilon 2) && negb (seqb (spow epsilon 2) (sofZ 0))).

Definition logging_returns (freq i : Z) : bool := (i + 1 =? 1) || negb (freq =? 0).

Definition data_longrun_returns (cfg : TrainData.Config (R:=R)) (i : Z) : bool :=
  let dims := [TrainData.batch_size cfg; TrainData.im_ch cfg;
               TrainData.im_sz cfg; TrainData.im_sz cfg] in
  negb (TrainData.log_longrun cfg)
  || (negb (TrainData.log_longrun_freq cfg =? 0)
      && (negb ((i + 1) mod TrainData.log_longrun_freq cfg =? 0)
          || sampler_accepts (TrainData.longrun_init cfg) dims)).

Definition data_iteration_returns (cfg : TrainData.Config (R:=R)) (i : Z) : bool :=
  let dims := [TrainData.batch_size cfg; TrainData.im_ch cfg;
               TrainData.im_sz cfg; TrainData.im_sz cfg] in
  sampler_accepts (TrainData.shortrun_init cfg) dims
  && loss_returns (TrainData.epsilon cfg)
  && logging_returns (TrainData.log_freq cfg) i
  && data_longrun_returns cfg i.

Definition toy_viz_returns (cfg : TrainToy.Config (R:=R)) (i : Z) : bool :=
  negb (TrainToy.log_viz_freq cfg =? 0)
  && (negb ((i + 1) mod TrainToy.log_viz_freq cfg =? 0)
      || sampler_accepts (TrainToy.init_type cfg) [TrainToy.batch_size_kde cfg; 2; 1; 1]).

Definition toy_iteration_returns (cfg : TrainToy.Config (R:=R)) (i : Z) : bool :=
  sampler_accepts (TrainToy.init_type cfg) [TrainToy.batch_size cfg; 2; 1; 1]
  && loss_returns (TrainToy.epsilon cfg)
  && logging_returns (TrainToy.log_info_freq cfg) i
  && toy_viz_returns cfg i.
End iteration_conditions.

(** ** Further configurations on the example instance *)

Module Cases.
(** A configuration of train_data.py with batch size 2, for a given
    network type, short-run initialization and logging frequency. *)
Definition cfg (net_type shortrun_init : string) (log_freq : Z) : TrainData.Config :=
  {| TrainData.seed := 7; TrainData.net_type := net_type; TrainData.im_ch := 1;
     TrainData.im_sz := 2; TrainData.optimizer_type := "adam";
     TrainData.epsilon := 2; TrainData.data_epsilon := 1;
     TrainData.lr_init := 8; TrainData.lr_min := 3; TrainData.lr_decay := 1;
     TrainData.batch_size := 2; TrainData.num_train_iters := 2;
     TrainData.num_shortrun_steps := 2; TrainData.num_longrun_steps := 3;
     TrainData.shortrun_init := shortrun_init; TrainData.longrun_init := "persistent";
     TrainData.log_freq := log_freq; TrainData.log_longrun := true;
     TrainData.log_longrun_freq := 1 |}.

(** A configuration of train_data.py with the optimizer type 'sgd', for a
    given [epsilon] and number of iterations. *)
Definition sgd_cfg (epsilon num_train_iters : Z) : TrainData.Config :=
  {| TrainData.seed := 7; TrainData.net_type := "vanilla"; TrainData.im_ch := 1;
     TrainData.im_sz := 2; TrainData.optimizer_type := "sgd";
     TrainData.epsilon := epsilon; TrainData.data_epsilon := 1;
     TrainData.lr_init := 8; TrainData.lr_min := 3; TrainData.lr_decay := 1;
     TrainData.batch_size := 2; TrainData.num_train_iters := num_train_iters;
     TrainData.num_shortrun_steps := 2; TrainData.num_longrun_steps := 3;
     TrainData.shortrun_init := "persistent"; TrainData.longrun_init := "uniform";
     TrainData.log_freq := 1; TrainData.log_longrun := true;
     TrainData.log_longrun_freq := 2 |}.

(** The variables of train_data.py in the middle of a run with this
    configuration. *)
Definition globals (shortrun_init : string) (log_freq : Z) : TrainData.Globals :=
  {| TrainData.config := cfg "vanilla" shortrun_init log_freq;
     TrainData.generator := 1%nat; TrainData.f := 1;
     TrainData.optim := {| kind := Adam; param_groups := [{| lr := 8 |}]; state := O |};
     TrainData.q := Example.images; TrainData.s_t_0 := Example.bank;
     TrainData.d_s_t_record := [0; 0]; TrainData.r_s_t_record := [0; 0] |}.
End Cases.

(** ** The model at work *)

Example py_slice_to_clips : py_slice_to 5 [1; 2; 3] = [1; 2; 3].
Proof. reflexivity. Qed.

Example py_slice_to_from_the_end : py_slice_to (-1) [1; 2; 3] = [1; 2].
Proof. reflexivity. Qed.

Example index_put_overwrites_rows :
  index_put [10; 20; 30; 40] [3; 1]%nat [33; 11] = Ok [10; 11; 30; 33].
Proof. reflexivity. Qed.

Example index_put_out_of_range :
  index_put [10; 20] [2]%nat [33] = Raise IndexError.
Proof. reflexivity. Qed.

Example pymax_keeps_the_floor : pymax (3 : Z) 2 = 3 ∧ pymax (3 : Z) 4 = 4.
Proof. split; reflexivity. Qed.

(** A persistent call of one step with batch size 2 rewrites the two
    selected chains, here those at the indices 1 and 2. *)
Example persistent_call_on_the_example :
  (λ r, match r with
        | Ok ((x, _), st') => Some (x, TrainData.s_t_0 st')
        | Raise _ => None
        end) (TrainData.sample_s_t 1 "persistent" true (Example.globals 2))
  = Some ([ [[[-2; -3]; [-3; -2]]]; [[[-1; -2]; [-2; -1]]] ],
          [ [[[1; 0]; [0; 1]]]; [[[-2; -3]; [-3; -2]]]; [[[-1; -2]; [-2; -1]]] ]).
Proof. reflexivity. Qed.

Example unknown_init_type_raises :
  TrainData.sample_s_t 1 "noise" true (Example.globals 2) = Raise InvalidInitType.
Proof. reflexivity. Qed.

Example negative_batch_size_raises_for_uniform :
  TrainData.sample_s_t 1 "uniform" true (Example.globals (-1)) = Raise ShapeError.
Proof. reflexivity. Qed.

Example negative_batch_size_slices_for_persistent :
  (λ r, match r with Ok ((x, _), _) => Some (length x) | Raise _ => None end)
    (TrainData.sample_s_t 1 "persistent" true (Example.globals (-1)))
  = Some 2%nat.
Proof. reflexivity. Qed.

(** * Properties *)

(** ** Tensors and shapes *)

Section tensor_facts.
Context {R : Type}.

Lemma same_shape_refl n (x : tensor R n) : same_shape n x x.
Proof.
  revert x. induction n as [|n IH]; intros x; simpl; [done|].
  apply Forall_Forall2_diag, Forall_forall. auto.
Qed.

Lemma same_shape_trans n (x y z : tensor R n) :
  same_shape n x y → same_shape n y z → same_shape n x z.
Proof.
  revert x y z. induction n as [|n IH]; simpl; [done|].
  intros x y z Hxy. revert z.
  induction Hxy as [|a b x y Hab _ IHxy]; intros z Hyz; inversion Hyz; subst;
    constructor; eauto.
Qed.

Lemma same_shape_sym n (x y : tensor R n) : same_shape n x y → same_shape n y x.
Proof.
  revert x y. induction n as [|n IH]; simpl; [done|].
  intros x y Hxy. induction Hxy; constructor; auto.
Qed.

Lemma same_shape_length n (x y : tensor R (S n)) :
  same_shape (S n) x y → length x = length y.
Proof. apply Forall2_length. Qed.

Lemma tmap_same_shape f n (x : tensor R n) : same_shape n x (tmap f n x).
Proof.
  revert x. induction n as [|n IH]; intros x; simpl; [done|].
  apply Forall2_fmap_r, Forall_Forall2_diag, Forall_forall. auto.
Qed.

Lemma tmap2_same_shape f n (x y : tensor R n) :
  same_shape n x y → same_shape n x (tmap2 f n x y).
Proof.
  revert x y. induction n as [|n IH]; simpl; [done|].
  intros x y Hxy. induction Hxy; simpl; constructor; auto.
Qed.

Lemma same_shape_has_shape sh n (x y : tensor R n) :
  has_shape sh n x → same_shape n x y → has_shape sh n y.
Proof.
  revert sh x y. induction n as [|n IH]; simpl; [done|].
  intros [|d sh] x y; [done|]. intros [Hlen Hall] Hxy. split.
  - etrans; [symmetry; eapply Forall2_length, Hxy|exact Hlen].
  - clear Hlen. induction Hxy; inversion Hall; subst; constructor; eauto.
Qed.

Lemma has_shape_tfull (v : R) sh : has_shape sh (length sh) (tfull v sh).
Proof.
  induction sh as [|d sh IH]; simpl; [done|].
  split; [apply length_replicate|]. by apply Forall_replicate.
Qed.

Lemma has_shape_length sh n (x : tensor R (S n)) d :
  has_shape (d :: sh) (S n) x → length x = d.
Proof. by intros [? _]. Qed.
End tensor_facts.

Global Arguments has_shape : simpl never.
Global Arguments same_shape : simpl never.
Global Arguments tmap : simpl never.
Global Arguments tmap2 : simpl never.

(** ** Index selection and the indexed write *)

Section index_facts.
Context {A : Type}.
Implicit Types (bank rows values : list A) (inds : list nat).

Lemma index_select_ok bank inds :
  Forall (λ i, i < length bank)%nat inds →
  ∃ rows, index_select bank inds = Ok rows
          ∧ Forall2 (λ i row, bank !! i = Some row) inds rows.
Proof.
  intros Hin. unfold index_select.
  destruct (mapM _ inds) as [rows|] eqn:E.
  - exists rows. split; [done|]. by apply mapM_Some.
  - assert (is_Some (mapM (λ i, bank !! i) inds)) as [? ?]; [|congruence].
    apply mapM_is_Some_2. eapply Forall_impl; [exact Hin|].
    intros i Hi. by apply lookup_lt_is_Some_2.
Qed.

Lemma length_scatter bank inds values :
  length (scatter bank inds values) = length bank.
Proof.
  unfold scatter. revert bank values.
  induction inds as [|i inds IH]; intros bank [|v values]; simpl; try done.
  by rewrite IH, length_insert.
Qed.

Lemma scatter_lookup_other bank inds values j :
  j ∉ inds → scatter bank inds values !! j = bank !! j.
Proof.
  unfold scatter. revert bank values.
  induction inds as [|i inds IH]; intros bank [|v values] Hj; simpl; try done.
  apply not_elem_of_cons in Hj as [Hne Hj].
  rewrite IH by done. by apply list_lookup_insert_ne.
Qed.

Lemma scatter_lookup_written bank inds values k i v :
  NoDup inds → Forall (λ i, i < length bank)%nat inds →
  inds !! k = Some i → values !! k = Some v →
  scatter bank inds values !! i = Some v.
Proof.
  revert bank values k.
  induction inds as [|i0 inds IH]; intros bank [|v0 values] k Hnd Hin Hk Hv;
    try done.
  apply NoDup_cons in Hnd as [Hfresh Hnd].
  apply Forall_cons in Hin as [Hi0 Hin].
  change (scatter (<[i0:=v0]> bank) inds values !! i = Some v).
  destruct k as [|k]; simpl in *.
  - simplify_eq. rewrite scatter_lookup_other by done.
    by apply list_lookup_insert_eq.
  - eapply IH; eauto. eapply Forall_impl; [exact Hin|].
    intros ?. by rewrite length_insert.
Qed.

Lemma scatter_same bank inds values :
  Forall2 (λ i row, bank !! i = Some row) inds values →
  scatter bank inds values = bank.
Proof.
  unfold scatter. intros H. induction H as [|i v inds values Hi _ IH]; simpl; [done|].
  by rewrite list_insert_id.
Qed.

Lemma index_put_ok bank inds values :
  Forall (λ i, i < length bank)%nat inds → length inds = length values →
  index_put bank inds values = Ok (scatter bank inds values).
Proof.
  intros Hin Hlen. unfold index_put.
  replace (forallb _ inds) with true; simpl.
  - by rewrite Hlen, Nat.eqb_refl.
  - symmetry. apply forallb_forall. intros i Hi. apply Nat.ltb_lt.
    rewrite Forall_forall in Hin. by apply Hin, list_elem_of_In.
Qed.

Lemma py_slice_to_sublist k (l : list A) : py_slice_to k l `sublist_of` l.
Proof. apply sublist_take. Qed.

Lemma length_py_slice_to k (l : list A) :
  0 ≤ k → length (py_slice_to k l) = (Z.to_nat k `min` length l)%nat.
Proof.
  intros Hk. unfold py_slice_to.
  destruct (Z.ltb_spec k 0); [lia|]. apply length_take.
Qed.
End index_facts.

(** ** Computations over the global variables *)

Section monad_facts.
Context {S : Type}.

Lemma bind_ok {A B} (m : M S A) (k : A → M S B) st b st2 :
  (m ≫= k) st = Ok (b, st2) ↔ ∃ a st1, m st = Ok (a, st1) ∧ k a st1 = Ok (b, st2).
Proof.
  unfold mbind, M_mbind, M_bind. split.
  - destruct (m st) as [[a st1]|e]; [eauto|done].
  - by intros (a & st1 & -> & ?).
Qed.

Lemma lift_ok {A} (r : result A) (st : S) a st' :
  lift r st = Ok (a, st') → r = Ok a ∧ st' = st.
Proof. unfold lift. destruct r; [|done]. by intros [= -> ->]. Qed.

Lemma preserves_bind {A B V} (p : S → V) (m : M S A) (k : A → M S B) :
  preserves p m → (∀ a, preserves p (k a)) → preserves p (m ≫= k).
Proof.
  intros Hm Hk st b st2 (a & st1 & H1 & H2)%bind_ok.
  rewrite (Hk _ _ _ _ H2). eauto.
Qed.

Lemma preserves_ret {A V} (p : S → V) (a : A) : preserves p (mret a).
Proof. intros st b st' [= _ <-]. done. Qed.

Lemma preserves_gets {A V} (p : S → V) (r : S → A) : preserves p (gets r).
Proof. intros st b st' [= _ <-]. done. Qed.

Lemma preserves_raise {A V} (p : S → V) e : preserves p (raise (A:=A) e).
Proof. intros st b st' [=]. Qed.

Lemma preserves_lift {A V} (p : S → V) (r : result A) : preserves p (lift r).
Proof. intros st b st'. unfold lift. destruct r; intros [=]. by subst. Qed.

Lemma preserves_modify {V} (p : S → V) (u : S → S) :
  (∀ st, p (u st) = p st) → preserves p (modify u).
Proof. intros Hu st b st' [= _ <-]. apply Hu. Qed.

Lemma preserves_for_range {V} (p : S → V) (body : Z → M S unit) i n :
  (∀ j, preserves p (body j)) → preserves p (for_range body i n).
Proof.
  intros Hbody. revert i. induction n as [|n IH]; intros i; simpl.
  - apply preserves_ret.
  - apply preserves_bind; auto.
Qed.
End monad_facts.

(** Decomposes a goal [preserves p m] along the structure of [m]. *)
Ltac preserves_step :=
  lazymatch goal with
  | |- preserves _ (mbind _ _) => apply preserves_bind; [|intros ?]
  | |- preserves _ (mret _) => apply preserves_ret
  | |- preserves _ (gets _) => apply preserves_gets
  | |- preserves _ (lift _) => apply preserves_lift
  | |- preserves _ (raise _) => apply preserves_raise
  | |- preserves _ (modify _) => apply preserves_modify; intros ?; auto
  | |- preserves _ (if ?b then _ else _) => destruct b eqn:?
  | |- preserves _ (match ?x with _ => _ end) => destruct x eqn:?
  end.

(** ** Index selection and Langevin updates keep the shapes *)

Section shared_facts.
Context {R : Type} `{!Scalar R, !Torch R, !Nets R}.
Context `{!TorchSpec R}.

Lemma selected_indices (k : Z) (n : nat) (g : rng) :
  let inds := py_slice_to k (randperm n g).1 in
  NoDup inds ∧ Forall (λ i, i < n)%nat inds
  ∧ (0 ≤ k → length inds = (Z.to_nat k `min` n)%nat).
Proof.
  intros inds. pose proof (randperm_perm n g) as Hperm.
  assert (inds `sublist_of` (randperm n g).1) as Hsub by apply py_slice_to_sublist.
  split_and!.
  - eapply sublist_NoDup; [|exact Hsub]. rewrite Hperm. apply NoDup_seq.
  - eapply Forall_forall. intros i Hi.
    assert (i ∈ seq 0 n) as Hs.
    { rewrite <-Hperm. apply elem_of_take in Hi as (j & Hj & _).
      by eapply list_elem_of_lookup_2. }
    apply elem_of_seq in Hs. lia.
  - intros Hk. unfold inds. rewrite length_py_slice_to by done.
    by rewrite Hperm, length_seq.
Qed.

Lemma langevin_step_same_shape (e : net) eps x r g :
  same_shape 4 x (langevin_step e eps (x, r, g)).1.1.
Proof.
  unfold langevin_step. pose proof (randn_like_shape x g) as Hn.
  destruct (randn_like x g) as [noise g'].
  change (same_shape 4 x noise) in Hn.
  set (f_prime := autograd_grad _ x).
  assert (same_shape 4 x (tneg f_prime)) as H1.
  { eapply same_shape_trans; [apply autograd_grad_shape|apply tmap_same_shape]. }
  assert (same_shape 4 x (tscale eps noise)) as H2.
  { eapply same_shape_trans; [exact Hn|apply tmap_same_shape]. }
  apply tmap2_same_shape. eapply same_shape_trans; [exact H1|].
  apply tmap2_same_shape. eapply same_shape_trans; [apply same_shape_sym, H1|exact H2].
Qed.

Lemma langevin_same_shape (e : net) eps L x g :
  same_shape 4 x (langevin e eps L x g).1.1.
Proof.
  unfold langevin. induction (Z.to_nat L) as [|n IH].
  - apply same_shape_refl.
  - rewrite Nat.iter_succ. destruct (Nat.iter n _ _) as [[x' r'] g'].
    eapply same_shape_trans; [exact IH|]. apply langevin_step_same_shape.
Qed.


End shared_facts.

(** ** The sampler of train_data.py *)

Section data_sampler.
Context {R : Type} `{!Scalar R, !Torch R, !Nets R}.
Context `{!TorchSpec R}.
Import TrainData.
Implicit Types (st : Globals) (x : batch R) (inds : list nat).

Lemma sample_image_set_run bank st :
  let p := randperm (length bank) (generator st) in
  let inds := py_slice_to (batch_size (config st)) p.1 in
  ∃ rows, sample_image_set bank st = Ok ((rows, inds), set_generator p.2 st)
          ∧ Forall2 (λ i row, bank !! i = Some row) inds rows.
Proof.
  intros p inds.
  destruct (selected_indices (batch_size (config st)) (length bank) (generator st))
    as (_ & Hin & _).
  destruct (index_select_ok bank inds Hin) as (rows & Hsel & Hrows).
  exists rows. split; [|done].
  unfold sample_image_set, mbind, M_mbind, M_bind, gets, draw, lift, mret, M_mret, M_ret.
  subst inds p. destruct (randperm _ _) as [perm g']. simpl in *. by rewrite Hsel.
Qed.

(** The unfolding of [sample_s_t] after its initialization. *)
Lemma sample_s_t_unfold L init upd st x0 s_t_0_inds st0 :
  sample_s_t_0 init st = Ok ((x0, s_t_0_inds), st0) →
  sample_s_t L init upd st =
    let '(x, r, g) := langevin (f st0) (epsilon (config st0)) L x0 (generator st0) in
    match (if String.eqb init "persistent" && upd
           then write_back s_t_0_inds x else mret tt) (set_generator g st0) with
    | Ok (_, st') => Ok ((x, sdiv r (sofZ L)), st')
    | Raise e => Raise e
    end.
Proof.
  intros H0. unfold sample_s_t, mbind, M_mbind, M_bind at 1. rewrite H0.
  unfold M_bind, gets, draw, mret, M_mret, M_ret.
  destruct (langevin _ _ _ _ _) as [[x r] g]. done.
Qed.

Lemma sample_s_t_0_persistent st :
  let p := randperm (length (s_t_0 st)) (generator st) in
  let inds := py_slice_to (batch_size (config st)) p.1 in
  ∃ x0, sample_s_t_0 "persistent" st = Ok ((x0, Some inds), set_generator p.2 st)
        ∧ Forall2 (λ i row, s_t_0 st !! i = Some row) inds x0.
Proof.
  intros p inds. destruct (sample_image_set_run (s_t_0 st) st) as (x0 & Hrun & Hrows).
  exists x0. split; [|done].
  unfold sample_s_t_0, mbind, M_mbind, M_bind, gets. simpl. by rewrite Hrun.
Qed.

(** What a call with persistent initialization computes. *)
Lemma sample_s_t_persistent_run L upd st :
  let p := randperm (length (s_t_0 st)) (generator st) in
  let inds := py_slice_to (batch_size (config st)) p.1 in
  ∃ x0 x r g,
    sample_s_t_0 "persistent" st = Ok ((x0, Some inds), set_generator p.2 st)
    ∧ Forall2 (λ i row, s_t_0 st !! i = Some row) inds x0
    ∧ langevin (f st) (epsilon (config st)) L x0 p.2 = (x, r, g)
    ∧ length x = length inds
    ∧ sample_s_t L "persistent" upd st =
        Ok ((x, sdiv r (sofZ L)),
            if upd then set_s_t_0 (scatter (s_t_0 st) inds x) (set_generator g st)
            else set_generator g st).
Proof.
  intros p inds. destruct (sample_s_t_0_persistent st) as (x0 & H0 & Hrows).
  fold p inds in H0, Hrows.
  destruct (langevin (f st) (epsilon (config st)) L x0 p.2) as [[x r] g] eqn:El.
  exists x0, x, r, g.
  assert (length x = length inds) as Hlen.
  { pose proof (langevin_same_shape (f st) (epsilon (config st)) L x0 p.2) as Hs.
    rewrite El in Hs. apply same_shape_length in Hs.
    apply Forall2_length in Hrows.
    etrans; [symmetry; exact Hs|symmetry; exact Hrows]. }
  split_and!; try done.
  rewrite (sample_s_t_unfold _ _ _ _ _ _ _ H0). simpl. rewrite El.
  destruct upd; simpl; [|done].
  unfold write_back, mbind, M_mbind, M_bind, gets, lift, modify. simpl.
  destruct (selected_indices (batch_size (config st)) (length (s_t_0 st)) (generator st))
    as (_ & Hin & _).
  by rewrite index_put_ok.
Qed.
Lemma nonneg_dims (b c h w : Z) :
  0 ≤ b → 0 ≤ c → 0 ≤ h → 0 ≤ w →
  (b <? 0) || (c <? 0) || (h <? 0) || (w <? 0) = false.
Proof. intros. repeat (rewrite (proj2 (Z.ltb_ge _ 0)) by lia). done. Qed.

Lemma sample_s_t_0_uniform st :
  let cfg := config st in
  0 ≤ batch_size cfg → 0 ≤ im_ch cfg → 0 ≤ im_sz cfg →
  ∃ x0 st0, sample_s_t_0 "uniform" st = Ok ((x0, None), st0)
    ∧ has_shape [Z.to_nat (batch_size cfg); Z.to_nat (im_ch cfg);
                 Z.to_nat (im_sz cfg); Z.to_nat (im_sz cfg)] 4 x0.
Proof.
  intros cfg Hb Hc Hs.
  unfold sample_s_t_0, mbind, M_mbind, M_bind, gets, draw_or_raise, torch_rand. simpl.
  fold cfg. rewrite nonneg_dims by done.
  pose proof (rand_shape (Z.to_nat (batch_size cfg)) (Z.to_nat (im_ch cfg))
                (Z.to_nat (im_sz cfg)) (Z.to_nat (im_sz cfg)) (generator st)) as Hsh.
  destruct (rand _ _ _ _ _) as [u g]. eexists _, _. split; [reflexivity|].
  apply (same_shape_has_shape _ 4 u); [exact Hsh|apply tmap_same_shape].
Qed.

Lemma sample_s_t_0_gaussian st :
  let cfg := config st in
  0 ≤ batch_size cfg → 0 ≤ im_ch cfg → 0 ≤ im_sz cfg →
  ∃ x0 st0, sample_s_t_0 "gaussian" st = Ok ((x0, None), st0)
    ∧ has_shape [Z.to_nat (batch_size cfg); Z.to_nat (im_ch cfg);
                 Z.to_nat (im_sz cfg); Z.to_nat (im_sz cfg)] 4 x0.
Proof.
  intros cfg Hb Hc Hs.
  unfold sample_s_t_0, mbind, M_mbind, M_bind, gets, draw_or_raise, torch_randn. simpl.
  fold cfg. rewrite nonneg_dims by done.
  pose proof (randn_shape (Z.to_nat (batch_size cfg)) (Z.to_nat (im_ch cfg))
                (Z.to_nat (im_sz cfg)) (Z.to_nat (im_sz cfg)) (generator st)) as Hsh.
  destruct (randn _ _ _ _ _) as [u g]. eexists _, _. split; [reflexivity|]. exact Hsh.
Qed.

(** What a call computes once its initialization has returned without
    indices. *)
Lemma sample_s_t_nonpersistent_run L init upd st x0 st0 :
  sample_s_t_0 init st = Ok ((x0, None), st0) →
  String.eqb init "persistent" = false →
  ∃ x r g,
    langevin (f st0) (epsilon (config st0)) L x0 (generator st0) = (x, r, g)
    ∧ same_shape 4 x0 x
    ∧ sample_s_t L init upd st = Ok ((x, sdiv r (sofZ L)), set_generator g st0).
Proof.
  intros H0 Hinit.
  pose proof (langevin_same_shape (f st0) (epsilon (config st0)) L x0 (generator st0)) as Hs.
  destruct (langevin _ _ _ _ _) as [[x r] g] eqn:El. exists x, r, g.
  split_and!; try done.
  rewrite (sample_s_t_unfold _ _ _ _ _ _ _ H0), El, Hinit. done.
Qed.

(** What a call computes once its initialization has returned: the
    Langevin updates from [x0], then the write-back if it is due. *)
Lemma sample_s_t_after_init L init upd st x0 s_t_0_inds st0 x r g :
  sample_s_t_0 init st = Ok ((x0, s_t_0_inds), st0) →
  langevin (f st0) (epsilon (config st0)) L x0 (generator st0) = (x, r, g) →
  ∃ st', sample_s_t L init upd st = Ok ((x, sdiv r (sofZ L)), st')
    ∧ (st' = set_generator g st0
       ∨ ∃ inds, s_t_0_inds = Some inds
           ∧ Forall2 (λ i row, s_t_0 st0 !! i = Some row) inds x0
           ∧ write_back (Some inds) x (set_generator g st0) = Ok (tt, st')
           ∧ st' = set_s_t_0 (scatter (s_t_0 st0) inds x) (set_generator g st0)).
Proof.
  intros H0 El. destruct (String.eqb init "persistent" && upd) eqn:Hc.
  - apply andb_true_iff in Hc as [->%String.eqb_eq ->].
    destruct (sample_s_t_persistent_run L true st)
      as (x0' & x' & r' & g' & H0' & Hrows & El' & Hlen & Hrun).
    rewrite H0 in H0'. injection H0' as <- -> ->.
    assert ((x', r', g') = (x, r, g)) as [= -> -> ->] by (rewrite <-El'; exact El).
    eexists. split; [exact Hrun|]. right. eexists. split_and!; try done.
    unfold write_back, mbind, M_mbind, M_bind, gets, lift, modify. simpl.
    destruct (selected_indices (batch_size (config st)) (length (s_t_0 st)) (generator st))
      as (_ & Hin & _).
    by rewrite index_put_ok.
  - eexists. split; [|by left].
    by rewrite (sample_s_t_unfold _ _ _ _ _ _ _ H0), El, Hc.
Qed.

(** *** What a call leaves unchanged *)

Section frame.
Context {V : Type} (p : Globals → V).
Hypothesis p_generator : ∀ g st, p (set_generator g st) = p st.

Lemma draw_preserves {A} (op : rng → A * rng) : preserves p (draw op).
Proof.
  intros st a st'. unfold draw. destruct (op _) as [a' g]. by intros [= _ <-].
Qed.

Lemma draw_or_raise_preserves {A} (op : rng → result (A * rng)) :
  preserves p (draw_or_raise op).
Proof.
  intros st a st'. unfold draw_or_raise. destruct (op _) as [[a' g]|e]; [|done].
  by intros [= _ <-].
Qed.

Lemma sample_image_set_preserves bank : preserves p (sample_image_set bank).
Proof.
  unfold sample_image_set.
  repeat first [apply draw_preserves | preserves_step].
Qed.

Lemma sample_q_preserves : preserves p sample_q.
Proof.
  unfold sample_q.
  repeat first [apply draw_preserves | apply sample_image_set_preserves | preserves_step].
Qed.

Lemma sample_s_t_0_preserves init : preserves p (sample_s_t_0 init).
Proof.
  unfold sample_s_t_0.
  repeat first [apply draw_or_raise_preserves | apply sample_image_set_preserves
               | apply sample_q_preserves | preserves_step].
Qed.

Lemma sample_s_t_preserves L init upd :
  (String.eqb init "persistent" && upd = true → ∀ b st, p (set_s_t_0 b st) = p st) →
  preserves p (sample_s_t L init upd).
Proof.
  intros Hbank. unfold sample_s_t, write_back.
  repeat first [apply draw_preserves | apply sample_s_t_0_preserves | preserves_step].
Qed.
End frame.
End data_sampler.

(** ** The sampler of train_toy.py *)

Section toy_sampler.
Context {R : Type} `{!Scalar R, !Torch R, !Nets R}.
Context `{!TorchSpec R}.
Import TrainToy.
Implicit Types (st : Globals) (x : batch R) (inds : list nat).

Lemma toy_sample_image_set_run bank bs st :
  let p := randperm (length bank) (generator st) in
  let inds := py_slice_to bs p.1 in
  ∃ rows, sample_image_set bank bs st = Ok ((rows, inds), set_generator p.2 st)
          ∧ Forall2 (λ i row, bank !! i = Some row) inds rows.
Proof.
  intros p inds.
  destruct (selected_indices bs (length bank) (generator st))
    as (_ & Hin & _).
  destruct (index_select_ok bank inds Hin) as (rows & Hsel & Hrows).
  exists rows. split; [|done].
  unfold sample_image_set, mbind, M_mbind, M_bind, gets, draw, lift, mret, M_mret, M_ret.
  subst inds p. destruct (randperm _ _) as [perm g']. simpl in *. by rewrite Hsel.
Qed.

(** The unfolding of [sample_s_t] after its initialization. *)
Lemma toy_sample_s_t_unfold bs L init upd st x0 s_t_0_inds st0 :
  sample_s_t_0 bs init st = Ok ((x0, s_t_0_inds), st0) →
  sample_s_t bs L init upd st =
    let '(x, r, g) := langevin (f st0) (epsilon (config st0)) L x0 (generator st0) in
    match (if String.eqb init "persistent" && upd
           then write_back s_t_0_inds x else mret tt) (set_generator g st0) with
    | Ok (_, st') => Ok ((x, sdiv r (sofZ L)), st')
    | Raise e => Raise e
    end.
Proof.
  intros H0. unfold sample_s_t, mbind, M_mbind, M_bind at 1. rewrite H0.
  unfold M_bind, gets, draw, mret, M_mret, M_ret.
  destruct (langevin _ _ _ _ _) as [[x r] g]. done.
Qed.

Lemma toy_sample_s_t_0_persistent bs st :
  let p := randperm (length (s_t_0 st)) (generator st) in
  let inds := py_slice_to bs p.1 in
  ∃ x0, sample_s_t_0 bs "persistent" st = Ok ((x0, Some inds), set_generator p.2 st)
        ∧ Forall2 (λ i row, s_t_0 st !! i = Some row) inds x0.
Proof.
  intros p inds. destruct (toy_sample_image_set_run (s_t_0 st) bs st) as (x0 & Hrun & Hrows).
  exists x0. split; [|done].
  unfold sample_s_t_0, mbind, M_mbind, M_bind, gets. simpl. by rewrite Hrun.
Qed.

(** What a call with persistent initialization computes. *)
Lemma toy_sample_s_t_persistent_run bs L upd st :
  let p := randperm (length (s_t_0 st)) (generator st) in
  let inds := py_slice_to bs p.1 in
  ∃ x0 x r g,
    sample_s_t_0 bs "persistent" st = Ok ((x0, Some inds), set_generator p.2 st)
    ∧ Forall2 (λ i row, s_t_0 st !! i = Some row) inds x0
    ∧ langevin (f st) (epsilon (config st)) L x0 p.2 = (x, r, g)
    ∧ length x = length inds
    ∧ sample_s_t bs L "persistent" upd st =
        Ok ((x, sdiv r (sofZ L)),
            if upd then set_s_t_0 (scatter (s_t_0 st) inds x) (set_generator g st)
            else set_generator g st).
Proof.
  intros p inds. destruct (toy_sample_s_t_0_persistent bs st) as (x0 & H0 & Hrows).
  fold p inds in H0, Hrows.
  destruct (langevin (f st) (epsilon (config st)) L x0 p.2) as [[x r] g] eqn:El.
  exists x0, x, r, g.
  assert (length x = length inds) as Hlen.
  { pose proof (langevin_same_shape (f st) (epsilon (config st)) L x0 p.2) as Hs.
    rewrite El in Hs. apply same_shape_length in Hs.
    apply Forall2_length in Hrows.
    etrans; [symmetry; exact Hs|symmetry; exact Hrows]. }
  split_and!; try done.
  rewrite (toy_sample_s_t_unfold _ _ _ _ _ _ _ _ H0). simpl. rewrite El.
  destruct upd; simpl; [|done].
  unfold write_back, mbind, M_mbind, M_bind, gets, lift, modify. simpl.
  destruct (selected_indices bs (length (s_t_0 st)) (generator st))
    as (_ & Hin & _).
  by rewrite index_put_ok.
Qed.
Lemma toy_sample_s_t_0_uniform bs st :
  0 ≤ bs →
  ∃ x0 st0, sample_s_t_0 bs "uniform" st = Ok ((x0, None), st0)
    ∧ has_shape [Z.to_nat bs; 2; 1; 1]%nat 4 x0.
Proof.
  intros Hb.
  unfold sample_s_t_0, mbind, M_mbind, M_bind, gets, draw_or_raise, torch_rand. simpl.
  rewrite (proj2 (Z.ltb_ge bs 0)) by done. simpl.
  pose proof (rand_shape (Z.to_nat bs) 2 1 1 (generator st)) as Hsh.
  destruct (rand _ _ _ _ _) as [u g]. eexists _, _. split; [reflexivity|].
  apply (same_shape_has_shape _ 4 u); [exact Hsh|].
  eapply same_shape_trans; apply tmap_same_shape.
Qed.

Lemma toy_sample_s_t_0_gaussian bs st :
  0 ≤ bs →
  ∃ x0 st0, sample_s_t_0 bs "gaussian" st = Ok ((x0, None), st0)
    ∧ has_shape [Z.to_nat bs; 2; 1; 1]%nat 4 x0.
Proof.
  intros Hb.
  unfold sample_s_t_0, mbind, M_mbind, M_bind, gets, draw_or_raise, torch_randn. simpl.
  rewrite (proj2 (Z.ltb_ge bs 0)) by done. simpl.
  pose proof (randn_shape (Z.to_nat bs) 2 1 1 (generator st)) as Hsh.
  destruct (randn _ _ _ _ _) as [u g]. eexists _, _. split; [reflexivity|].
  apply (same_shape_has_shape _ 4 u); [exact Hsh|apply tmap_same_shape].
Qed.

Lemma toy_sample_s_t_nonpersistent_run bs L init upd st x0 st0 :
  sample_s_t_0 bs init st = Ok ((x0, None), st0) →
  String.eqb init "persistent" = false →
  ∃ x r g,
    langevin (f st0) (epsilon (config st0)) L x0 (generator st0) = (x, r, g)
    ∧ same_shape 4 x0 x
    ∧ sample_s_t bs L init upd st = Ok ((x, sdiv r (sofZ L)), set_generator g st0).
Proof.
  intros H0 Hinit.
  pose proof (langevin_same_shape (f st0) (epsilon (config st0)) L x0 (generator st0)) as Hs.
  destruct (langevin _ _ _ _ _) as [[x r] g] eqn:El. exists x, r, g.
  split_and!; try done.
  rewrite (toy_sample_s_t_unfold _ _ _ _ _ _ _ _ H0), El, Hinit. done.
Qed.

(** What a call computes once its initialization has returned: the
    Langevin updates from [x0], then the write-back if it is due. *)
Lemma toy_sample_s_t_after_init bs L init upd st x0 s_t_0_inds st0 x r g :
  sample_s_t_0 bs init st = Ok ((x0, s_t_0_inds), st0) →
  langevin (f st0) (epsilon (config st0)) L x0 (generator st0) = (x, r, g) →
  ∃ st', sample_s_t bs L init upd st = Ok ((x, sdiv r (sofZ L)), st')
    ∧ (st' = set_generator g st0
       ∨ ∃ inds, s_t_0_inds = Some inds
           ∧ Forall2 (λ i row, s_t_0 st0 !! i = Some row) inds x0
           ∧ write_back (Some inds) x (set_generator g st0) = Ok (tt, st')
           ∧ st' = set_s_t_0 (scatter (s_t_0 st0) inds x) (set_generator g st0)).
Proof.
  intros H0 El. destruct (String.eqb init "persistent" && upd) eqn:Hc.
  - apply andb_true_iff in Hc as [->%String.eqb_eq ->].
    destruct (toy_sample_s_t_persistent_run bs L true st)
      as (x0' & x' & r' & g' & H0' & Hrows & El' & Hlen & Hrun).
    rewrite H0 in H0'. injection H0' as <- -> ->.
    assert ((x', r', g') = (x, r, g)) as [= -> -> ->] by (rewrite <-El'; exact El).
    eexists. split; [exact Hrun|]. right. eexists. split_and!; try done.
    unfold write_back, mbind, M_mbind, M_bind, gets, lift, modify. simpl.
    destruct (selected_indices bs (length (s_t_0 st)) (generator st))
      as (_ & Hin & _).
    by rewrite index_put_ok.
  - eexists. split; [|by left].
    by rewrite (toy_sample_s_t_unfold _ _ _ _ _ _ _ _ H0), El, Hc.
Qed.

(** *** What a call leaves unchanged *)

Section frame.
Context {V : Type} (p : Globals → V).
Hypothesis p_generator : ∀ g st, p (set_generator g st) = p st.
Hypothesis p_q : ∀ d st, p (set_q d st) = p st.

Lemma toy_draw_preserves {A} (op : rng → A * rng) : preserves p (draw op).
Proof.
  intros st a st'. unfold draw. destruct (op _) as [a' g]. by intros [= _ <-].
Qed.

Lemma toy_draw_or_raise_preserves {A} (op : rng → result (A * rng)) :
  preserves p (draw_or_raise op).
Proof.
  intros st a st'. unfold draw_or_raise. destruct (op _) as [[a' g]|e]; [|done].
  by intros [= _ <-].
Qed.

Lemma toy_sample_image_set_preserves bank bs : preserves p (sample_image_set bank bs).
Proof.
  unfold sample_image_set.
  repeat first [apply toy_draw_preserves | preserves_step].
Qed.

Lemma toy_sample_q_preserves bs : preserves p (sample_q bs).
Proof.
  intros st a st'. unfold sample_q. destruct (sample_toy_data _ _) as [x d].
  by intros [= _ <-].
Qed.

Lemma toy_sample_s_t_0_preserves bs init : preserves p (sample_s_t_0 bs init).
Proof.
  unfold sample_s_t_0.
  repeat first [apply toy_draw_or_raise_preserves | apply toy_sample_image_set_preserves
               | apply toy_sample_q_preserves | preserves_step].
Qed.

Lemma toy_sample_s_t_preserves bs L init upd :
  (String.eqb init "persistent" && upd = true → ∀ b st, p (set_s_t_0 b st) = p st) →
  preserves p (sample_s_t bs L init upd).
Proof.
  intros Hbank. unfold sample_s_t, write_back.
  repeat first [apply toy_draw_preserves | apply toy_sample_s_t_0_preserves
               | preserves_step].
Qed.
End frame.
End toy_sampler.

(** * The Python arithmetic that can raise *)

Section python_arithmetic.
Context {R : Type} `{!Scalar R, !Torch R, !Nets R}.

Lemma py_prescale_value optimizer_type (eps lr_init lr_min : R) rates :
  py_prescale optimizer_type eps lr_init lr_min = Ok rates →
  rates = prescale optimizer_type eps lr_init lr_min.
Proof.
  unfold py_prescale, prescale, py_pow.
  destruct (_ && _); [|by intros [= <-]].
  destruct (spow_overflows eps 2); [done|]. by intros [= <-].
Qed.

Lemma py_prescale_is_ok optimizer_type (eps lr_init lr_min : R) :
  is_ok (py_prescale optimizer_type eps lr_init lr_min)
  = prescale_returns optimizer_type eps.
Proof.
  unfold py_prescale, prescale_returns, py_pow.
  destruct (_ && _); [|done]. by destruct (spow_overflows eps 2).
Qed.

Lemma py_prescale_ok optimizer_type (eps lr_init lr_min : R) :
  (optimizer_type = "sgd" → sgtb eps (sofZ 0) = true → spow_overflows eps 2 = false) →
  py_prescale optimizer_type eps lr_init lr_min
  = Ok (prescale optimizer_type eps lr_init lr_min).
Proof.
  intros Hin. unfold py_prescale, prescale, py_pow.
  destruct (String.eqb_spec optimizer_type "sgd") as [Ho|]; [|done]. simpl.
  destruct (sgtb eps (sofZ 0)); [|done]. by rewrite Hin.
Qed.

Lemma py_prescale_returns optimizer_type (eps lr_init lr_min : R) :
  prescale_returns optimizer_type eps = true →
  py_prescale optimizer_type eps lr_init lr_min
  = Ok (prescale optimizer_type eps lr_init lr_min).
Proof.
  intros Hret. apply py_prescale_ok. intros -> Heps.
  unfold prescale_returns in Hret. rewrite Heps in Hret. simpl in Hret.
  by destruct (spow_overflows eps 2).
Qed.

Lemma py_prescale_other optimizer_type (eps lr_init lr_min : R) :
  optimizer_type ≠ "sgd" →
  py_prescale optimizer_type eps lr_init lr_min = Ok (lr_init, lr_min).
Proof. intros Hne%String.eqb_neq. unfold py_prescale. by rewrite Hne. Qed.

Lemma py_prescale_overflow (eps lr_init lr_min : R) :
  sgtb eps (sofZ 0) = true → spow_overflows eps 2 = true →
  py_prescale "sgd" eps lr_init lr_min = Raise OverflowError.
Proof. intros Heps Hover. unfold py_prescale, py_pow. simpl. by rewrite Heps, Hover. Qed.

Lemma py_loss_value (eps : R) (x_q x_s_t : batch R) d_s_t :
  py_loss eps x_q x_s_t = Ok d_s_t → d_s_t = loss eps x_q x_s_t.
Proof.
  unfold py_loss, loss, loss_factor, py_pow, py_truediv.
  destruct (sgtb eps (sofZ 0)); [|by intros [= <-]].
  destruct (spow_overflows eps 2); [done|].
  destruct (seqb (spow eps 2) (sofZ 0)); [done|]. by intros [= <-].
Qed.

Lemma py_loss_is_ok (eps : R) (x_q x_s_t : batch R) :
  is_ok (py_loss eps x_q x_s_t) = loss_returns eps.
Proof.
  unfold py_loss, loss_returns, loss_factor, py_pow, py_truediv.
  destruct (sgtb eps (sofZ 0)); [|done]. simpl.
  destruct (spow_overflows eps 2); [done|]. simpl.
  by destruct (seqb (spow eps 2) (sofZ 0)).
Qed.
End python_arithmetic.

(** * The training loop of train_data.py *)

Section data_loop.
Context {R : Type} `{!Scalar R, !Torch R, !Nets R}.
Import TrainData.
Implicit Types (st : Globals).

(** The first half of a training iteration, read back from its result:
    the two samples, the two records, the optimizer step with the
    annealing, and the long-run sampling when it is due. *)
Lemma train_iter_inv i st u st' :
  train_iter i st = Ok (u, st') →
  let cfg := config st in
  ∃ x_q st1 x_s_t r_s_t st2 d' r',
    sample_q st = Ok (x_q, st1)
    ∧ sample_s_t (num_shortrun_steps cfg) (shortrun_init cfg) true st1
      = Ok ((x_s_t, r_s_t), st2)
    ∧ setitem (d_s_t_record st2) i (loss (epsilon cfg) x_q x_s_t (f st2)) = Ok d'
    ∧ setitem (r_s_t_record st2) i r_s_t = Ok r'
    ∧ let fo := backward_step (optim st2) (loss (epsilon cfg) x_q x_s_t) (f st2) in
      let st3 :=
        set_f_optim (fo.1, {| kind := kind fo.2;
                              param_groups := anneal (lr_min cfg) (lr_decay cfg)
                                                <$> param_groups fo.2;
                              state := state fo.2 |})
          (set_records d' r' (set_f_optim fo st2)) in
      (st' = st3
       ∨ ∃ a, sample_s_t (num_longrun_steps cfg) (longrun_init cfg) false st3
              = Ok (a, st')).
Proof.
  intros Hrun cfg. destruct u. unfold train_iter in Hrun.
  apply bind_ok in Hrun as (cfg' & ? & [= <- <-] & Hrun). fold cfg in Hrun.
  apply bind_ok in Hrun as (x_q & st1 & Hq & Hrun).
  apply bind_ok in Hrun as ([x_s_t r_s_t] & st2 & Hs & Hrun).
  apply bind_ok in Hrun as (e & ? & [= <- <-] & Hrun).
  apply bind_ok in Hrun as (o & ? & [= <- <-] & Hrun).
  apply bind_ok in Hrun as (d_s_t & ? & [Hloss ->]%lift_ok & Hrun).
  apply py_loss_value in Hloss as ->.
  apply bind_ok in Hrun as ([] & ? & [= <-] & Hrun).
  apply bind_ok in Hrun as (d & ? & [= <- <-] & Hrun).
  apply bind_ok in Hrun as (r & ? & [= <- <-] & Hrun).
  apply bind_ok in Hrun as (d' & ? & Hd & Hrun).
  apply bind_ok in Hrun as (r' & ? & Hr & Hrun).
  apply lift_ok in Hd as [Hd ->]. apply lift_ok in Hr as [Hr ->].
  apply bind_ok in Hrun as ([] & ? & [= <-] & Hrun).
  apply bind_ok in Hrun as ([] & ? & [= <-] & Hrun).
  apply bind_ok in Hrun as (logged & st3 & Hlog & Hrun).
  exists x_q, st1, x_s_t, r_s_t, st2, d', r'. split_and!; try done.
  destruct (i + 1 =? 1);
    [injection Hlog as _ <-|apply lift_ok in Hlog as [_ ->]];
    (destruct (log_longrun cfg); [|left; by injection Hrun as <-]);
    apply bind_ok in Hrun as (due & ? & [_ ->]%lift_ok & Hrun);
    (destruct due; [|left; by injection Hrun as <-]);
    apply bind_ok in Hrun as (a & ? & Hlong & [= <-]); right; by exists a.
Qed.

Lemma backward_step_param_groups (o : optimizer R) d (e : net) :
  param_groups (backward_step o d e).2 = param_groups o.
Proof. unfold backward_step. by destruct (optim_step _ _ _ _ _). Qed.

Lemma train_iter_preserves_config i : preserves config (train_iter i).
Proof.
  unfold train_iter.
  repeat first [apply (sample_q_preserves config (λ _ _, eq_refl))
               | apply (sample_s_t_preserves config (λ _ _, eq_refl)); done
               | preserves_step].
Qed.

Lemma train_iter_param_groups i st u st' :
  train_iter i st = Ok (u, st') →
  param_groups (optim st')
  = anneal (lr_min (config st)) (lr_decay (config st)) <$> param_groups (optim st).
Proof.
  intros (x_q & st1 & x_s_t & r_s_t & st2 & d' & r' & Hq & Hs & _ & _ & Hend)
    %train_iter_inv.
  assert (optim st2 = optim st) as Ho.
  { rewrite (sample_s_t_preserves optim (λ _ _, eq_refl) _ _ _ (λ _ _ _, eq_refl)
               _ _ _ Hs).
    apply (sample_q_preserves optim (λ _ _, eq_refl) _ _ _ Hq). }
  simpl in Hend. rewrite backward_step_param_groups, Ho in Hend.
  destruct Hend as [-> | [a Hlong]]; [done|].
  by rewrite (sample_s_t_preserves optim (λ _ _, eq_refl) _ _ _ (λ _ _ _, eq_refl)
                _ _ _ Hlong).
Qed.

Lemma setitem_lookup (record : list R) i v record' :
  setitem record i v = Ok record' → record' !! Z.to_nat i = Some v.
Proof.
  unfold setitem. destruct (Z.ltb_spec i 0); [done|].
  destruct (Z.leb_spec (Z.of_nat (length record)) i); [done|]. simpl.
  intros [= <-]. apply list_lookup_insert_eq. lia.
Qed.

(** The loss that an iteration records is the loss of its two samples
    for the network as the iteration found it. *)
Lemma train_iter_recorded_loss i st u st' :
  train_iter i st = Ok (u, st') →
  ∃ x_q st1 x_s_t r_s_t st2,
    sample_q st = Ok (x_q, st1)
    ∧ sample_s_t (num_shortrun_steps (config st)) (shortrun_init (config st)) true st1
      = Ok ((x_s_t, r_s_t), st2)
    ∧ d_s_t_record st' !! Z.to_nat i
      = Some (loss (epsilon (config st)) x_q x_s_t (f st))
    ∧ r_s_t_record st' !! Z.to_nat i = Some r_s_t.
Proof.
  intros (x_q & st1 & x_s_t & r_s_t & st2 & d' & r' & Hq & Hs & Hd & Hr & Hend)
    %train_iter_inv.
  exists x_q, st1, x_s_t, r_s_t, st2. split_and!; [done|done|..].
  - assert (f st2 = f st) as Hf.
    { rewrite (sample_s_t_preserves f (λ _ _, eq_refl) _ _ _ (λ _ _ _, eq_refl)
                 _ _ _ Hs).
      apply (sample_q_preserves f (λ _ _, eq_refl) _ _ _ Hq). }
    rewrite Hf in Hd. apply setitem_lookup in Hd.
    destruct Hend as [-> | [a Hlong]]; [done|].
    by rewrite (sample_s_t_preserves d_s_t_record (λ _ _, eq_refl) _ _ _
                  (λ _ _ _, eq_refl) _ _ _ Hlong).
  - apply setitem_lookup in Hr.
    destruct Hend as [-> | [a Hlong]]; [done|].
    by rewrite (sample_s_t_preserves r_s_t_record (λ _ _, eq_refl) _ _ _
                  (λ _ _ _, eq_refl) _ _ _ Hlong).
Qed.
End data_loop.

(** * The training loop of train_toy.py *)

Section toy_loop.
Context {R : Type} `{!Scalar R, !Torch R, !Nets R}.
Import TrainToy.
Implicit Types (st : Globals).

(** The first half of a training iteration, read back from its result:
    the two samples, the two records, the optimizer step with the
    annealing, and the long-run sampling when it is due. *)
Lemma toy_train_iter_inv i st u st' :
  train_iter i st = Ok (u, st') →
  let cfg := config st in
  ∃ x_q st1 x_s_t r_s_t st2 d' r',
    sample_q (batch_size cfg) st = Ok (x_q, st1)
    ∧ sample_s_t (batch_size cfg) (num_mcmc_steps cfg) (init_type cfg) true st1
      = Ok ((x_s_t, r_s_t), st2)
    ∧ setitem (d_s_t_record st2) i (loss (epsilon cfg) x_q x_s_t (f st2)) = Ok d'
    ∧ setitem (r_s_t_record st2) i r_s_t = Ok r'
    ∧ let fo := backward_step (optim st2) (loss (epsilon cfg) x_q x_s_t) (f st2) in
      let st3 :=
        set_f_optim (fo.1, {| kind := kind fo.2;
                              param_groups := anneal (lr_min cfg) (lr_decay cfg)
                                                <$> param_groups fo.2;
                              state := state fo.2 |})
          (set_records d' r' (set_f_optim fo st2)) in
      (st' = st3
       ∨ ∃ a, sample_s_t (batch_size_kde cfg) (num_mcmc_steps cfg) (init_type cfg) false st3
              = Ok (a, st')).
Proof.
  intros Hrun cfg. destruct u. unfold train_iter in Hrun.
  apply bind_ok in Hrun as (cfg' & ? & [= <- <-] & Hrun). fold cfg in Hrun.
  apply bind_ok in Hrun as (x_q & st1 & Hq & Hrun).
  apply bind_ok in Hrun as ([x_s_t r_s_t] & st2 & Hs & Hrun).
  apply bind_ok in Hrun as (e & ? & [= <- <-] & Hrun).
  apply bind_ok in Hrun as (o & ? & [= <- <-] & Hrun).
  apply bind_ok in Hrun as (d_s_t & ? & [Hloss ->]%lift_ok & Hrun).
  apply py_loss_value in Hloss as ->.
  apply bind_ok in Hrun as ([] & ? & [= <-] & Hrun).
  apply bind_ok in Hrun as (d & ? & [= <- <-] & Hrun).
  apply bind_ok in Hrun as (r & ? & [= <- <-] & Hrun).
  apply bind_ok in Hrun as (d' & ? & Hd & Hrun).
  apply bind_ok in Hrun as (r' & ? & Hr & Hrun).
  apply lift_ok in Hd as [Hd ->]. apply lift_ok in Hr as [Hr ->].
  apply bind_ok in Hrun as ([] & ? & [= <-] & Hrun).
  apply bind_ok in Hrun as ([] & ? & [= <-] & Hrun).
  apply bind_ok in Hrun as (logged & st3 & Hlog & Hrun).
  exists x_q, st1, x_s_t, r_s_t, st2, d', r'. split_and!; try done.
  destruct (i + 1 =? 1);
    [injection Hlog as _ <-|apply lift_ok in Hlog as [_ ->]];
    apply bind_ok in Hrun as (due & ? & [_ ->]%lift_ok & Hrun);
    (destruct due; [|left; by injection Hrun as <-]);
    apply bind_ok in Hrun as (a & ? & Hlong & [= <-]); right; by exists a.
Qed.

Lemma toy_backward_step_param_groups (o : optimizer R) d (e : net) :
  param_groups (backward_step o d e).2 = param_groups o.
Proof. unfold backward_step. by destruct (optim_step _ _ _ _ _). Qed.

Lemma toy_train_iter_preserves_config i : preserves config (train_iter i).
Proof.
  unfold train_iter.
  repeat first [apply (toy_sample_q_preserves config (λ _ _, eq_refl))
               | apply (toy_sample_s_t_preserves config (λ _ _, eq_refl) (λ _ _, eq_refl)); done
               | preserves_step].
Qed.

Lemma toy_train_iter_param_groups i st u st' :
  train_iter i st = Ok (u, st') →
  param_groups (optim st')
  = anneal (lr_min (config st)) (lr_decay (config st)) <$> param_groups (optim st).
Proof.
  intros (x_q & st1 & x_s_t & r_s_t & st2 & d' & r' & Hq & Hs & _ & _ & Hend)
    %toy_train_iter_inv.
  assert (optim st2 = optim st) as Ho.
  { rewrite (toy_sample_s_t_preserves optim (λ _ _, eq_refl) (λ _ _, eq_refl) _ _ _ _
               (λ _ _ _, eq_refl) _ _ _ Hs).
    apply (toy_sample_q_preserves optim (λ _ _, eq_refl) _ _ _ _ Hq). }
  simpl in Hend. rewrite toy_backward_step_param_groups, Ho in Hend.
  destruct Hend as [-> | [a Hlong]]; [done|].
  by rewrite (toy_sample_s_t_preserves optim (λ _ _, eq_refl) (λ _ _, eq_refl) _ _ _ _
               (λ _ _ _, eq_refl) _ _ _ Hlong).
Qed.

Lemma toy_setitem_lookup (record : list R) i v record' :
  setitem record i v = Ok record' → record' !! Z.to_nat i = Some v.
Proof.
  unfold setitem. destruct (Z.ltb_spec i 0); [done|].
  destruct (Z.leb_spec (Z.of_nat (length record)) i); [done|]. simpl.
  intros [= <-]. apply list_lookup_insert_eq. lia.
Qed.

(** The loss that an iteration records is the loss of its two samples
    for the network as the iteration found it. *)
Lemma toy_train_iter_recorded_loss i st u st' :
  train_iter i st = Ok (u, st') →
  ∃ x_q st1 x_s_t r_s_t st2,
    sample_q (batch_size (config st)) st = Ok (x_q, st1)
    ∧ sample_s_t (batch_size (config st)) (num_mcmc_steps (config st))
        (init_type (config st)) true st1
      = Ok ((x_s_t, r_s_t), st2)
    ∧ d_s_t_record st' !! Z.to_nat i
      = Some (loss (epsilon (config st)) x_q x_s_t (f st))
    ∧ r_s_t_record st' !! Z.to_nat i = Some r_s_t.
Proof.
  intros (x_q & st1 & x_s_t & r_s_t & st2 & d' & r' & Hq & Hs & Hd & Hr & Hend)
    %toy_train_iter_inv.
  exists x_q, st1, x_s_t, r_s_t, st2. split_and!; [done|done|..].
  - assert (f st2 = f st) as Hf.
    { rewrite (toy_sample_s_t_preserves f (λ _ _, eq_refl) (λ _ _, eq_refl) _ _ _ _
               (λ _ _ _, eq_refl) _ _ _ Hs).
      apply (toy_sample_q_preserves f (λ _ _, eq_refl) _ _ _ _ Hq). }
    rewrite Hf in Hd. apply toy_setitem_lookup in Hd.
    destruct Hend as [-> | [a Hlong]]; [done|].
    by rewrite (toy_sample_s_t_preserves d_s_t_record (λ _ _, eq_refl) (λ _ _, eq_refl) _ _ _ _
                  (λ _ _ _, eq_refl) _ _ _ Hlong).
  - apply toy_setitem_lookup in Hr.
    destruct Hend as [-> | [a Hlong]]; [done|].
    by rewrite (toy_sample_s_t_preserves r_s_t_record (λ _ _, eq_refl) (λ _ _, eq_refl) _ _ _ _
                  (λ _ _ _, eq_refl) _ _ _ Hlong).
Qed.
End toy_loop.

(** ** The example instance meets the contracts *)

Lemma rotation_perm n g : Example.rotation n g ≡ₚ seq 0 n.
Proof.
  unfold Example.rotation. rewrite Permutation_app_comm. by rewrite take_drop.
Qed.

Lemma counter_torch_spec : TorchSpec Z.
Proof.
  split; simpl.
  - done.
  - apply rotation_perm.
  - intros b c h w g. apply (has_shape_tfull _ [b; c; h; w]).
  - intros b c h w g. apply (has_shape_tfull _ [b; c; h; w]).
  - intros x g. apply tmap_same_shape.
  - intros x g. apply tmap_same_shape.
  - intros F x. apply tmap_same_shape.
Qed.

(** * The claims about the sampler *)

Section sampler_claims.
Context {R : Type} `{!Scalar R, !Torch R, !Nets R}.
Context `{!TorchSpec R}.

(** C1.  A call with persistent initialization and the update flag set
    returns, and afterwards the bank holds the returned state at exactly
    the indices selected by the initialization ([inds !! k] holds row [k]
    of the result) and its old value everywhere else.  Both scripts. *)
Theorem persistent_write_back_frame :
  (∀ L (st : TrainData.Globals),
     ∃ x0 inds st0 x r st',
       TrainData.sample_s_t_0 "persistent" st = Ok ((x0, Some inds), st0)
       ∧ TrainData.sample_s_t L "persistent" true st = Ok ((x, r), st')
       ∧ length x = length inds
       ∧ (∀ k i, inds !! k = Some i → TrainData.s_t_0 st' !! i = x !! k)
       ∧ (∀ j, j ∉ inds → TrainData.s_t_0 st' !! j = TrainData.s_t_0 st !! j))
  ∧ (∀ bs L (st : TrainToy.Globals),
     ∃ x0 inds st0 x r st',
       TrainToy.sample_s_t_0 bs "persistent" st = Ok ((x0, Some inds), st0)
       ∧ TrainToy.sample_s_t bs L "persistent" true st = Ok ((x, r), st')
       ∧ length x = length inds
       ∧ (∀ k i, inds !! k = Some i → TrainToy.s_t_0 st' !! i = x !! k)
       ∧ (∀ j, j ∉ inds → TrainToy.s_t_0 st' !! j = TrainToy.s_t_0 st !! j)).
Proof.
  split.
  - intros L st.
    destruct (sample_s_t_persistent_run L true st)
      as (x0 & x & r & g & H0 & _ & _ & Hlen & Hrun).
    destruct (selected_indices (TrainData.batch_size (TrainData.config st))
                (length (TrainData.s_t_0 st)) (TrainData.generator st))
      as (Hnd & Hin & _).
    eexists x0, _, _, x, _, _. split_and!; [exact H0|exact Hrun|exact Hlen|..].
    + intros k i Hk. simpl.
      destruct (lookup_lt_is_Some_2 x k) as [v Hv].
      { rewrite Hlen. by eapply lookup_lt_Some. }
      etrans; [|symmetry; exact Hv]. by eapply scatter_lookup_written.
    + intros j Hj. simpl. by apply scatter_lookup_other.
  - intros bs L st.
    destruct (toy_sample_s_t_persistent_run bs L true st)
      as (x0 & x & r & g & H0 & _ & _ & Hlen & Hrun).
    destruct (selected_indices bs (length (TrainToy.s_t_0 st)) (TrainToy.generator st))
      as (Hnd & Hin & _).
    eexists x0, _, _, x, _, _. split_and!; [exact H0|exact Hrun|exact Hlen|..].
    + intros k i Hk. simpl.
      destruct (lookup_lt_is_Some_2 x k) as [v Hv].
      { rewrite Hlen. by eapply lookup_lt_Some. }
      etrans; [|symmetry; exact Hv]. by eapply scatter_lookup_written.
    + intros j Hj. simpl. by apply scatter_lookup_other.
Qed.

(** C2, as the code has it.  A call with persistent initialization never
    raises: the selected indices are pairwise distinct and lie in
    [0, capacity); for a batch size from 0 to the capacity there are
    exactly [batch_size] of them, and a larger batch size is clipped to
    the capacity, one sample per slot.  Both scripts. *)
Theorem persistent_selection_clipped :
  (∀ L upd (st : TrainData.Globals),
     let capacity := length (TrainData.s_t_0 st) in
     let bs := TrainData.batch_size (TrainData.config st) in
     ∃ x0 inds st0 x r st',
       TrainData.sample_s_t_0 "persistent" st = Ok ((x0, Some inds), st0)
       ∧ TrainData.sample_s_t L "persistent" upd st = Ok ((x, r), st')
       ∧ NoDup inds ∧ Forall (λ i, i < capacity)%nat inds
       ∧ length x = length inds
       ∧ (0 ≤ bs → length inds = (Z.to_nat bs `min` capacity)%nat))
  ∧ (∀ bs L upd (st : TrainToy.Globals),
     let capacity := length (TrainToy.s_t_0 st) in
     ∃ x0 inds st0 x r st',
       TrainToy.sample_s_t_0 bs "persistent" st = Ok ((x0, Some inds), st0)
       ∧ TrainToy.sample_s_t bs L "persistent" upd st = Ok ((x, r), st')
       ∧ NoDup inds ∧ Forall (λ i, i < capacity)%nat inds
       ∧ length x = length inds
       ∧ (0 ≤ bs → length inds = (Z.to_nat bs `min` capacity)%nat)).
Proof.
  split.
  - intros L upd st capacity bs.
    destruct (sample_s_t_persistent_run L upd st)
      as (x0 & x & r & g & H0 & _ & _ & Hlen & Hrun).
    destruct (selected_indices bs capacity (TrainData.generator st))
      as (Hnd & Hin & Hn).
    eexists x0, _, _, x, _, _. split_and!; eauto.
  - intros bs L upd st capacity.
    destruct (toy_sample_s_t_persistent_run bs L upd st)
      as (x0 & x & r & g & H0 & _ & _ & Hlen & Hrun).
    destruct (selected_indices bs capacity (TrainToy.generator st))
      as (Hnd & Hin & Hn).
    eexists x0, _, _, x, _, _. split_and!; eauto.
Qed.
(** C5.  Only the write-back of a persistent call with the update flag
    writes the bank: a call with another initialization, or with the flag
    unset, leaves every entry of the bank as it found it; and a call with
    uniform or gaussian initialization (and dimensions that are not
    negative) returns a tensor of exactly the configured shape.  Both
    scripts. *)
Theorem bank_written_only_by_write_back :
  (∀ L init upd (st : TrainData.Globals) x r st',
     init ≠ "persistent" ∨ upd = false →
     TrainData.sample_s_t L init upd st = Ok ((x, r), st') →
     TrainData.s_t_0 st' = TrainData.s_t_0 st)
  ∧ (∀ L init upd (st : TrainData.Globals),
     let cfg := TrainData.config st in
     init = "uniform" ∨ init = "gaussian" →
     0 ≤ TrainData.batch_size cfg → 0 ≤ TrainData.im_ch cfg → 0 ≤ TrainData.im_sz cfg →
     ∃ x r st',
       TrainData.sample_s_t L init upd st = Ok ((x, r), st')
       ∧ has_shape [Z.to_nat (TrainData.batch_size cfg); Z.to_nat (TrainData.im_ch cfg);
                    Z.to_nat (TrainData.im_sz cfg); Z.to_nat (TrainData.im_sz cfg)] 4 x
       ∧ TrainData.s_t_0 st' = TrainData.s_t_0 st)
  ∧ (∀ bs L init upd (st : TrainToy.Globals) x r st',
     init ≠ "persistent" ∨ upd = false →
     TrainToy.sample_s_t bs L init upd st = Ok ((x, r), st') →
     TrainToy.s_t_0 st' = TrainToy.s_t_0 st)
  ∧ (∀ bs L init upd (st : TrainToy.Globals),
     init = "uniform" ∨ init = "gaussian" →
     0 ≤ bs →
     ∃ x r st',
       TrainToy.sample_s_t bs L init upd st = Ok ((x, r), st')
       ∧ has_shape [Z.to_nat bs; 2; 1; 1]%nat 4 x
       ∧ TrainToy.s_t_0 st' = TrainToy.s_t_0 st).
Proof.
  assert (∀ init upd, init ≠ "persistent" ∨ upd = false →
                      String.eqb init "persistent" && upd = false) as Hcond.
  { intros init upd [Hne| ->]; [|apply andb_false_r].
    apply String.eqb_neq in Hne. by rewrite Hne. }
  split_and!.
  - intros L init upd st x r st' Hc Hrun.
    eapply (sample_s_t_preserves TrainData.s_t_0 (λ _ _, eq_refl) L init upd);
      [|exact Hrun].
    rewrite (Hcond _ _ Hc). done.
  - intros L init upd st cfg Hinit Hb Hc Hs.
    assert (∃ x0 st0, TrainData.sample_s_t_0 init st = Ok ((x0, None), st0)
              ∧ has_shape [Z.to_nat (TrainData.batch_size cfg);
                           Z.to_nat (TrainData.im_ch cfg);
                           Z.to_nat (TrainData.im_sz cfg);
                           Z.to_nat (TrainData.im_sz cfg)] 4 x0)
      as (x0 & st0 & H0 & Hsh).
    { destruct Hinit as [-> | ->];
        [by apply sample_s_t_0_uniform|by apply sample_s_t_0_gaussian]. }
    assert (String.eqb init "persistent" = false) as Hnp
      by (by destruct Hinit as [-> | ->]).
    destruct (sample_s_t_nonpersistent_run L init upd st x0 st0 H0 Hnp)
      as (x & r & g & _ & Hsame & Hrun).
    exists x, (sdiv r (sofZ L)), (TrainData.set_generator g st0).
    split_and!; [exact Hrun|..].
    + by eapply same_shape_has_shape.
    + eapply (sample_s_t_preserves TrainData.s_t_0 (λ _ _, eq_refl) L init upd);
      [|exact Hrun].
      rewrite Hnp. done.
  - intros bs L init upd st x r st' Hc Hrun.
    eapply (toy_sample_s_t_preserves TrainToy.s_t_0 (λ _ _, eq_refl) (λ _ _, eq_refl)
              bs L init upd); [|exact Hrun].
    rewrite (Hcond _ _ Hc). done.
  - intros bs L init upd st Hinit Hb.
    assert (∃ x0 st0, TrainToy.sample_s_t_0 bs init st = Ok ((x0, None), st0)
              ∧ has_shape [Z.to_nat bs; 2; 1; 1]%nat 4 x0)
      as (x0 & st0 & H0 & Hsh).
    { destruct Hinit as [-> | ->];
        [by apply toy_sample_s_t_0_uniform|by apply toy_sample_s_t_0_gaussian]. }
    assert (String.eqb init "persistent" = false) as Hnp
      by (by destruct Hinit as [-> | ->]).
    destruct (toy_sample_s_t_nonpersistent_run bs L init upd st x0 st0 H0 Hnp)
      as (x & r & g & _ & Hsame & Hrun).
    exists x, (sdiv r (sofZ L)), (TrainToy.set_generator g st0).
    split_and!; [exact Hrun|..].
    + by eapply same_shape_has_shape.
    + eapply (toy_sample_s_t_preserves TrainToy.s_t_0 (λ _ _, eq_refl) (λ _ _, eq_refl)
              bs L init upd); [|exact Hrun].
      rewrite Hnp. done.
Qed.

(** C10.  With [L = 0] the loop body never runs and nothing checks [L]:
    once the initialization has returned the state [x0], the call raises
    nothing, returns [x0] itself and the zero accumulator divided by
    [0], and leaves the variables as the initialization left them; under
    persistent initialization with the update flag the write-back is
    performed and stores what the bank already holds.  Both scripts. *)
Theorem zero_steps_unguarded :
  (∀ init upd (st : TrainData.Globals) x0 s_t_0_inds st0,
     TrainData.sample_s_t_0 init st = Ok ((x0, s_t_0_inds), st0) →
     TrainData.sample_s_t 0 init upd st = Ok ((x0, sdiv szero (sofZ 0)), st0)
     ∧ (init = "persistent" → upd = true →
        ∃ inds, s_t_0_inds = Some inds
                ∧ TrainData.write_back (Some inds) x0 st0 = Ok (tt, st0)))
  ∧ (∀ bs init upd (st : TrainToy.Globals) x0 s_t_0_inds st0,
     TrainToy.sample_s_t_0 bs init st = Ok ((x0, s_t_0_inds), st0) →
     TrainToy.sample_s_t bs 0 init upd st = Ok ((x0, sdiv szero (sofZ 0)), st0)
     ∧ (init = "persistent" → upd = true →
        ∃ inds, s_t_0_inds = Some inds
                ∧ TrainToy.write_back (Some inds) x0 st0 = Ok (tt, st0))).
Proof.
  split.
  - intros init upd st x0 s_t_0_inds st0 H0.
    assert (TrainData.set_generator (TrainData.generator st0) st0 = st0) as Hst0
      by by destruct st0.
    destruct (sample_s_t_after_init 0 init upd st x0 s_t_0_inds st0
                x0 szero (TrainData.generator st0) H0 eq_refl)
      as (st' & Hrun & [-> | (inds & -> & Hrows & Hwb & ->)]).
    + rewrite Hst0 in Hrun. split; [done|]. intros -> ->.
      rewrite (sample_s_t_unfold _ _ _ _ _ _ _ H0) in Hrun. simpl in Hrun.
      destruct s_t_0_inds as [inds|]; [|done]. exists inds. split; [done|].
      rewrite Hst0 in Hrun.
      destruct (TrainData.write_back _ _ _) as [[[] st1]|]; [|done].
      by injection Hrun as ->.
    + rewrite (scatter_same _ _ _ Hrows), Hst0 in Hrun, Hwb.
      assert (TrainData.set_s_t_0 (TrainData.s_t_0 st0) st0 = st0) as Hb
        by by destruct st0.
      rewrite Hb in Hrun, Hwb. split; [done|]. intros _ _. by exists inds.
  - intros bs init upd st x0 s_t_0_inds st0 H0.
    assert (TrainToy.set_generator (TrainToy.generator st0) st0 = st0) as Hst0
      by by destruct st0.
    destruct (toy_sample_s_t_after_init bs 0 init upd st x0 s_t_0_inds st0
                x0 szero (TrainToy.generator st0) H0 eq_refl)
      as (st' & Hrun & [-> | (inds & -> & Hrows & Hwb & ->)]).
    + rewrite Hst0 in Hrun. split; [done|]. intros -> ->.
      rewrite (toy_sample_s_t_unfold _ _ _ _ _ _ _ _ H0) in Hrun. simpl in Hrun.
      destruct s_t_0_inds as [inds|]; [|done]. exists inds. split; [done|].
      rewrite Hst0 in Hrun.
      destruct (TrainToy.write_back _ _ _) as [[[] st1]|]; [|done].
      by injection Hrun as ->.
    + rewrite (scatter_same _ _ _ Hrows), Hst0 in Hrun, Hwb.
      assert (TrainToy.set_s_t_0 (TrainToy.s_t_0 st0) st0 = st0) as Hb
        by by destruct st0.
      rewrite Hb in Hrun, Hwb. split; [done|]. intros _ _. by exists inds.
Qed.

End sampler_claims.

(** C1 on the example: a bank of three chains, two of them selected. *)
Lemma persistent_write_back_frame_witness :
  TorchSpec Z
  ∧ ∃ x0 inds st0 x r st',
      TrainData.sample_s_t_0 "persistent" (Example.globals 2) = Ok ((x0, Some inds), st0)
      ∧ TrainData.sample_s_t 1 "persistent" true (Example.globals 2) = Ok ((x, r), st')
      ∧ length x = length inds
      ∧ (∀ k i, inds !! k = Some i → TrainData.s_t_0 st' !! i = x !! k)
      ∧ (∀ j, j ∉ inds →
           TrainData.s_t_0 st' !! j = TrainData.s_t_0 (Example.globals 2) !! j).
Proof.
  split; [exact counter_torch_spec|].
  exact (proj1 (persistent_write_back_frame (TorchSpec0 := counter_torch_spec))
           1 (Example.globals 2)).
Defined.

(** C2 as it was stated fails: with a bank of three chains and a batch size
    of five the call raises nothing and returns three samples. *)
Lemma oversized_batch_is_clipped :
  let st := Example.globals 5 in
  Z.of_nat (length (TrainData.s_t_0 st)) < TrainData.batch_size (TrainData.config st)
  ∧ is_ok (TrainData.sample_s_t 1 "persistent" true st) = true
  ∧ ∃ x r st', TrainData.sample_s_t 1 "persistent" true st = Ok ((x, r), st')
               ∧ length x = 3%nat.
Proof.
  split_and!; [done|by vm_compute|].
  eexists _, _, _. split; [by vm_compute|done].
Qed.

(** C2 as the code has it, on the example with the oversized batch. *)
Lemma persistent_selection_clipped_witness :
  TorchSpec Z
  ∧ ∃ x0 inds st0 x r st',
      TrainData.sample_s_t_0 "persistent" (Example.globals 5) = Ok ((x0, Some inds), st0)
      ∧ TrainData.sample_s_t 1 "persistent" true (Example.globals 5) = Ok ((x, r), st')
      ∧ NoDup inds ∧ Forall (λ i, i < 3)%nat inds
      ∧ length x = length inds
      ∧ (0 ≤ 5 → length inds = 3%nat).
Proof.
  split; [exact counter_torch_spec|].
  exact (proj1 (persistent_selection_clipped (TorchSpec0 := counter_torch_spec))
           1 true (Example.globals 5)).
Defined.

(** * The claims about the training loop *)

Section loop_facts.
Context {R : Type} `{!Scalar R, !Torch R, !Nets R}.

Lemma pymax_floor (a b : R) :
  (∀ u v : R, sltb u v = true → sleb u v = true) →
  (∀ u : R, sleb u u = true) →
  sleb a (pymax a b) = true.
Proof.
  intros lt_le le_refl. unfold pymax, sgtb.
  destruct (sltb a b) eqn:E; auto.
Qed.

Lemma setup_inv cfg data g0 st :
  TrainData.setup cfg data g0 = Ok st →
  TrainData.config st
  = TrainData.set_rates cfg
      (prescale (TrainData.optimizer_type cfg) (TrainData.epsilon cfg)
         (TrainData.lr_init cfg) (TrainData.lr_min cfg))
  ∧ param_groups (TrainData.optim st) = [{| lr := TrainData.lr_init (TrainData.config st) |}].
Proof.
  unfold TrainData.setup. destruct (TrainData.net_bank _) as [make_net|]; [|done].
  destruct (make_net _ _) as [e g].
  destruct (py_prescale _ _ _ _) as [rates|] eqn:Hrates; [|done].
  apply py_prescale_value in Hrates as ->. unfold make_optim. simpl.
  destruct (optim_bank _); [|done]. destruct (rand_like _ _) as [u g'].
  destruct (torch_zeros _); [|done]. by intros [= <-].
Qed.

Lemma toy_setup_inv cfg toys g0 st :
  TrainToy.setup cfg toys g0 = Ok st →
  TrainToy.config st
  = TrainToy.set_rates cfg
      (prescale (TrainToy.optimizer_type cfg) (TrainToy.epsilon cfg)
         (TrainToy.lr_init cfg) (TrainToy.lr_min cfg))
  ∧ param_groups (TrainToy.optim st) = [{| lr := TrainToy.lr_init (TrainToy.config st) |}].
Proof.
  unfold TrainToy.setup. destruct (TrainToy.net_bank _) as [make_net|]; [|done].
  destruct (make_net _) as [e g].
  destruct (py_prescale _ _ _ _) as [rates|] eqn:Hrates; [|done].
  apply py_prescale_value in Hrates as ->. unfold make_optim. simpl.
  destruct (optim_bank _); [|done]. destruct (torch_rand _ _ _ _ _) as [[u g']|]; [|done].
  destruct (torch_zeros _); [|done]. by intros [= <-].
Qed.

Lemma training_floor k i (st : TrainData.Globals) u st' :
  (∀ u v : R, sltb u v = true → sleb u v = true) →
  (∀ u : R, sleb u u = true) →
  for_range TrainData.train_iter i (S k) st = Ok (u, st') →
  Forall (λ gp, sleb (TrainData.lr_min (TrainData.config st)) (lr gp) = true)
    (param_groups (TrainData.optim st')).
Proof.
  intros lt_le le_refl. revert i st.
  induction k as [|k IH]; intros i st Hrun;
    apply bind_ok in Hrun as ([] & st1 & Hiter & Hrun).
  - injection Hrun as _ <-. rewrite (train_iter_param_groups _ _ _ _ Hiter).
    apply Forall_fmap, Forall_forall. intros gp _. by apply pymax_floor.
  - rewrite <-(train_iter_preserves_config _ _ _ _ Hiter). by eapply IH.
Qed.

Lemma toy_training_floor k i (st : TrainToy.Globals) u st' :
  (∀ u v : R, sltb u v = true → sleb u v = true) →
  (∀ u : R, sleb u u = true) →
  for_range TrainToy.train_iter i (S k) st = Ok (u, st') →
  Forall (λ gp, sleb (TrainToy.lr_min (TrainToy.config st)) (lr gp) = true)
    (param_groups (TrainToy.optim st')).
Proof.
  intros lt_le le_refl. revert i st.
  induction k as [|k IH]; intros i st Hrun;
    apply bind_ok in Hrun as ([] & st1 & Hiter & Hrun).
  - injection Hrun as _ <-. rewrite (toy_train_iter_param_groups _ _ _ _ Hiter).
    apply Forall_fmap, Forall_forall. intros gp _. by apply pymax_floor.
  - rewrite <-(toy_train_iter_preserves_config _ _ _ _ Hiter). by eapply IH.
Qed.
End loop_facts.

Section loop_claims.
Context {R : Type} `{!Scalar R, !Torch R, !Nets R}.

Lemma loss_cases (eps : R) (x_q x_s_t : batch R) (e : net) :
  (∀ a b : R, sleb a b = true → sltb b a = false) →
  let diff := ssub (smean (forward e x_q)) (smean (forward e x_s_t)) in
  (sgtb eps (sofZ 0) = true →
   loss eps x_q x_s_t e = smul diff (sdiv (sofZ 2) (spow eps 2)))
  ∧ (sleb eps (sofZ 0) = true → loss eps x_q x_s_t e = diff).
Proof.
  intros le_not_gt diff. unfold loss. fold diff. split.
  - by intros ->.
  - intros Hle. unfold sgtb. by rewrite (le_not_gt _ _ Hle).
Qed.

(** C4.  In every training iteration that completes, the loss recorded at
    the index of the iteration is the difference of the mean energies of
    the positive and of the negative sample of that iteration, multiplied
    by [2 / epsilon^2] when [epsilon > 0] and left as it is when
    [epsilon <= 0].  The order of the scalars is taken to make [a <= b]
    exclude [b < a].  Both scripts. *)
Theorem recorded_loss_scaled :
  (∀ a b : R, sleb a b = true → sltb b a = false) →
  (∀ i (st : TrainData.Globals) u st',
     TrainData.train_iter i st = Ok (u, st') →
     let cfg := TrainData.config st in
     let eps := TrainData.epsilon cfg in
     ∃ x_q st1 x_s_t r_s_t st2 d_s_t,
       TrainData.sample_q st = Ok (x_q, st1)
       ∧ TrainData.sample_s_t (TrainData.num_shortrun_steps cfg)
           (TrainData.shortrun_init cfg) true st1 = Ok ((x_s_t, r_s_t), st2)
       ∧ TrainData.d_s_t_record st' !! Z.to_nat i = Some d_s_t
       ∧ let diff := ssub (smean (forward (TrainData.f st) x_q))
                          (smean (forward (TrainData.f st) x_s_t)) in
         (sgtb eps (sofZ 0) = true → d_s_t = smul diff (sdiv (sofZ 2) (spow eps 2)))
         ∧ (sleb eps (sofZ 0) = true → d_s_t = diff))
  ∧ (∀ i (st : TrainToy.Globals) u st',
     TrainToy.train_iter i st = Ok (u, st') →
     let cfg := TrainToy.config st in
     let eps := TrainToy.epsilon cfg in
     ∃ x_q st1 x_s_t r_s_t st2 d_s_t,
       TrainToy.sample_q (TrainToy.batch_size cfg) st = Ok (x_q, st1)
       ∧ TrainToy.sample_s_t (TrainToy.batch_size cfg) (TrainToy.num_mcmc_steps cfg)
           (TrainToy.init_type cfg) true st1 = Ok ((x_s_t, r_s_t), st2)
       ∧ TrainToy.d_s_t_record st' !! Z.to_nat i = Some d_s_t
       ∧ let diff := ssub (smean (forward (TrainToy.f st) x_q))
                          (smean (forward (TrainToy.f st) x_s_t)) in
         (sgtb eps (sofZ 0) = true → d_s_t = smul diff (sdiv (sofZ 2) (spow eps 2)))
         ∧ (sleb eps (sofZ 0) = true → d_s_t = diff)).
Proof.
  intros le_not_gt. split.
  - intros i st u st' Hrun cfg eps.
    destruct (train_iter_recorded_loss _ _ _ _ Hrun)
      as (x_q & st1 & x_s_t & r_s_t & st2 & Hq & Hs & Hd & _).
    exists x_q, st1, x_s_t, r_s_t, st2, (loss eps x_q x_s_t (TrainData.f st)).
    split_and!; try done; by apply loss_cases.
  - intros i st u st' Hrun cfg eps.
    destruct (toy_train_iter_recorded_loss _ _ _ _ Hrun)
      as (x_q & st1 & x_s_t & r_s_t & st2 & Hq & Hs & Hd & _).
    exists x_q, st1, x_s_t, r_s_t, st2, (loss eps x_q x_s_t (TrainToy.f st)).
    split_and!; try done; by apply loss_cases.
Qed.

(** C8.  For a fixed network and a fixed [epsilon], the loss with [a] as
    the positive and [b] as the negative batch is the negation of the
    loss with the two batches exchanged.  The arithmetic is taken to
    satisfy [u - v = -(v - u)] and [(-u) * c = -(u * c)]. *)
Theorem loss_antisymmetric :
  (∀ u v : R, ssub u v = sneg (ssub v u)) →
  (∀ u c : R, smul (sneg u) c = sneg (smul u c)) →
  ∀ (eps : R) (e : net) (a b : batch R),
    loss eps a b e = sneg (loss eps b a e).
Proof.
  intros sub_anti mul_neg eps e a b. unfold loss.
  destruct (sgtb eps (sofZ 0)).
  - by rewrite <-mul_neg, <-sub_anti.
  - apply sub_anti.
Qed.

(** C6.  Every training iteration that completes, whatever its index and
    the logging frequencies, replaces the learning rate of each parameter
    group by [max(lr_min, lr * lr_decay)]; so after [k >= 1] completed
    iterations every learning rate is at least [lr_min], which for a
    whole run is the minimum as the setup rescaled it.  The order of the
    scalars is taken to be reflexive and to make [a < b] imply [a <= b].
    Both scripts. *)
Theorem learning_rate_annealed_and_floored :
  (∀ u v : R, sltb u v = true → sleb u v = true) →
  (∀ u : R, sleb u u = true) →
  ((∀ i (st : TrainData.Globals) u st',
      TrainData.train_iter i st = Ok (u, st') →
      let cfg := TrainData.config st in
      Forall2 (λ old new, lr new = pymax (TrainData.lr_min cfg)
                                     (smul (lr old) (TrainData.lr_decay cfg)))
        (param_groups (TrainData.optim st)) (param_groups (TrainData.optim st')))
   ∧ (∀ k i (st : TrainData.Globals) u st',
      (1 ≤ k)%nat →
      for_range TrainData.train_iter i k st = Ok (u, st') →
      Forall (λ gp, sleb (TrainData.lr_min (TrainData.config st)) (lr gp) = true)
        (param_groups (TrainData.optim st')))
   ∧ (∀ cfg data g0 u st',
      1 ≤ TrainData.num_train_iters cfg →
      TrainData.main cfg data g0 = Ok (u, st') →
      Forall (λ gp, sleb (prescale (TrainData.optimizer_type cfg) (TrainData.epsilon cfg)
                            (TrainData.lr_init cfg) (TrainData.lr_min cfg)).2
                      (lr gp) = true)
        (param_groups (TrainData.optim st'))))
  ∧ ((∀ i (st : TrainToy.Globals) u st',
      TrainToy.train_iter i st = Ok (u, st') →
      let cfg := TrainToy.config st in
      Forall2 (λ old new, lr new = pymax (TrainToy.lr_min cfg)
                                     (smul (lr old) (TrainToy.lr_decay cfg)))
        (param_groups (TrainToy.optim st)) (param_groups (TrainToy.optim st')))
   ∧ (∀ k i (st : TrainToy.Globals) u st',
      (1 ≤ k)%nat →
      for_range TrainToy.train_iter i k st = Ok (u, st') →
      Forall (λ gp, sleb (TrainToy.lr_min (TrainToy.config st)) (lr gp) = true)
        (param_groups (TrainToy.optim st')))
   ∧ (∀ cfg toys g0 u st',
      1 ≤ TrainToy.num_train_iters cfg →
      TrainToy.main cfg toys g0 = Ok (u, st') →
      Forall (λ gp, sleb (prescale (TrainToy.optimizer_type cfg) (TrainToy.epsilon cfg)
                            (TrainToy.lr_init cfg) (TrainToy.lr_min cfg)).2
                      (lr gp) = true)
        (param_groups (TrainToy.optim st')))).
Proof.
  intros lt_le le_refl. split; split_and!.
  - intros i st u st' Hrun cfg. rewrite (train_iter_param_groups _ _ _ _ Hrun).
    apply Forall2_fmap_r, Forall_Forall2_diag, Forall_forall. done.
  - intros [|k] i st u st' Hk Hrun; [lia|]. by eapply training_floor.
  - intros cfg data g0 u st' Hn Hrun. unfold TrainData.main in Hrun.
    destruct (TrainData.setup cfg data g0) as [st|] eqn:Hsetup; [|done].
    apply setup_inv in Hsetup as [Hcfg _]. rewrite Hcfg in Hrun. simpl in Hrun.
    destruct (Z.to_nat (TrainData.num_train_iters cfg)) as [|k] eqn:Hk; [lia|].
    apply training_floor in Hrun; [|done..]. by rewrite Hcfg in Hrun.
  - intros i st u st' Hrun cfg. rewrite (toy_train_iter_param_groups _ _ _ _ Hrun).
    apply Forall2_fmap_r, Forall_Forall2_diag, Forall_forall. done.
  - intros [|k] i st u st' Hk Hrun; [lia|]. by eapply toy_training_floor.
  - intros cfg toys g0 u st' Hn Hrun. unfold TrainToy.main in Hrun.
    destruct (TrainToy.setup cfg toys g0) as [st|] eqn:Hsetup; [|done].
    apply toy_setup_inv in Hsetup as [Hcfg _]. rewrite Hcfg in Hrun. simpl in Hrun.
    destruct (Z.to_nat (TrainToy.num_train_iters cfg)) as [|k] eqn:Hk; [lia|].
    apply toy_training_floor in Hrun; [|done..]. by rewrite Hcfg in Hrun.
Qed.

Lemma prescale_cases (optimizer_type : string) (eps lr_init lr_min : R) :
  (∀ a b : R, sleb a b = true → sltb b a = false) →
  let c := sdiv (spow eps 2) (sofZ 2) in
  (optimizer_type = "sgd" → sgtb eps (sofZ 0) = true →
   prescale optimizer_type eps lr_init lr_min = (smul lr_init c, smul lr_min c))
  ∧ (optimizer_type ≠ "sgd" ∨ sleb eps (sofZ 0) = true →
     prescale optimizer_type eps lr_init lr_min = (lr_init, lr_min)).
Proof.
  intros le_not_gt c. unfold prescale. split.
  - by intros -> ->.
  - intros [Hne%String.eqb_neq | Hle]; [by rewrite Hne|].
    unfold sgtb. rewrite (le_not_gt _ _ Hle). by rewrite andb_false_r.
Qed.

(** C7.  The setup multiplies [lr_init] and [lr_min] by [epsilon^2 / 2]
    when the optimizer type is 'sgd' and [epsilon > 0], and leaves both as
    they are for another optimizer type or when [epsilon <= 0]; the
    optimizer is then made with the [lr_init] that results; the setup
    returns for a known network type, a known optimizer type, dimensions
    that are not negative and, where the rates are rescaled, an
    [epsilon ** 2] within the range of the floats; and the training loop
    does not change the two rates again.  The order of the scalars is taken to
    make [a <= b] exclude [b < a].  Both scripts. *)
Theorem rates_prescaled_at_setup :
  (∀ a b : R, sleb a b = true → sltb b a = false) →
  ((∀ cfg data g0 st,
      TrainData.setup cfg data g0 = Ok st →
      let eps := TrainData.epsilon cfg in
      let c := sdiv (spow eps 2) (sofZ 2) in
      (TrainData.optimizer_type cfg = "sgd" → sgtb eps (sofZ 0) = true →
       TrainData.lr_init (TrainData.config st) = smul (TrainData.lr_init cfg) c
       ∧ TrainData.lr_min (TrainData.config st) = smul (TrainData.lr_min cfg) c)
      ∧ (TrainData.optimizer_type cfg ≠ "sgd" ∨ sleb eps (sofZ 0) = true →
         TrainData.lr_init (TrainData.config st) = TrainData.lr_init cfg
         ∧ TrainData.lr_min (TrainData.config st) = TrainData.lr_min cfg)
      ∧ param_groups (TrainData.optim st)
        = [{| lr := TrainData.lr_init (TrainData.config st) |}])
   ∧ (∀ cfg data g0,
      TrainData.net_type cfg = "vanilla" ∨ TrainData.net_type cfg = "nonlocal" →
      TrainData.optimizer_type cfg = "adam" ∨ TrainData.optimizer_type cfg = "sgd" →
      (TrainData.optimizer_type cfg = "sgd" → sgtb (TrainData.epsilon cfg) (sofZ 0) = true →
       spow_overflows (TrainData.epsilon cfg) 2 = false) →
      0 ≤ TrainData.num_train_iters cfg →
      ∃ st, TrainData.setup cfg data g0 = Ok st)
   ∧ (∀ k i (st : TrainData.Globals) u st',
      for_range TrainData.train_iter i k st = Ok (u, st') →
      TrainData.lr_init (TrainData.config st') = TrainData.lr_init (TrainData.config st)
      ∧ TrainData.lr_min (TrainData.config st') = TrainData.lr_min (TrainData.config st)))
  ∧ ((∀ cfg toys g0 st,
      TrainToy.setup cfg toys g0 = Ok st →
      let eps := TrainToy.epsilon cfg in
      let c := sdiv (spow eps 2) (sofZ 2) in
      (TrainToy.optimizer_type cfg = "sgd" → sgtb eps (sofZ 0) = true →
       TrainToy.lr_init (TrainToy.config st) = smul (TrainToy.lr_init cfg) c
       ∧ TrainToy.lr_min (TrainToy.config st) = smul (TrainToy.lr_min cfg) c)
      ∧ (TrainToy.optimizer_type cfg ≠ "sgd" ∨ sleb eps (sofZ 0) = true →
         TrainToy.lr_init (TrainToy.config st) = TrainToy.lr_init cfg
         ∧ TrainToy.lr_min (TrainToy.config st) = TrainToy.lr_min cfg)
      ∧ param_groups (TrainToy.optim st)
        = [{| lr := TrainToy.lr_init (TrainToy.config st) |}])
   ∧ (∀ cfg toys g0,
      TrainToy.net_type cfg = "toy" →
      TrainToy.optimizer_type cfg = "adam" ∨ TrainToy.optimizer_type cfg = "sgd" →
      (TrainToy.optimizer_type cfg = "sgd" → sgtb (TrainToy.epsilon cfg) (sofZ 0) = true →
       spow_overflows (TrainToy.epsilon cfg) 2 = false) →
      0 ≤ TrainToy.s_t_0_size cfg → 0 ≤ TrainToy.num_train_iters cfg →
      ∃ st, TrainToy.setup cfg toys g0 = Ok st)
   ∧ (∀ k i (st : TrainToy.Globals) u st',
      for_range TrainToy.train_iter i k st = Ok (u, st') →
      TrainToy.lr_init (TrainToy.config st') = TrainToy.lr_init (TrainToy.config st)
      ∧ TrainToy.lr_min (TrainToy.config st') = TrainToy.lr_min (TrainToy.config st))).
Proof.
  intros le_not_gt. split; split_and!.
  - intros cfg data g0 st [Hcfg Hgroups]%setup_inv eps c. subst c eps.
    pose proof (prescale_cases (TrainData.optimizer_type cfg) (TrainData.epsilon cfg)
                  (TrainData.lr_init cfg) (TrainData.lr_min cfg) le_not_gt) as Hcases.
    cbv zeta in Hcases. destruct Hcases as [Hsgd Hother].
    split_and!; [| |done].
    + intros Ho Heps. rewrite Hcfg. simpl. by rewrite (Hsgd Ho Heps).
    + intros Hc. rewrite Hcfg. simpl. by rewrite (Hother Hc).
  - intros cfg data g0 Hnet Hopt Hrange Hn. unfold TrainData.setup, TrainData.net_bank.
    assert (∃ k, optim_bank (TrainData.optimizer_type cfg) = Some k) as [k Hk].
    { destruct Hopt as [-> | ->]; by eexists. }
    pose proof (py_prescale_ok _ _ (TrainData.lr_init cfg) (TrainData.lr_min cfg) Hrange)
      as Hrates.
    destruct Hnet as [-> | ->]; simpl;
      [destruct (VanillaNet _ _) as [e g]|destruct (NonlocalNet _ _) as [e g]];
      rewrite Hrates; unfold make_optim; simpl; rewrite Hk;
      destruct (rand_like _ _) as [u g'];
      unfold torch_zeros; rewrite (proj2 (Z.ltb_ge _ 0)) by done; by eexists.
  - intros k i st u st' Hrun.
    by rewrite (preserves_for_range TrainData.config _ _ _
                  train_iter_preserves_config _ _ _ Hrun).
  - intros cfg toys g0 st [Hcfg Hgroups]%toy_setup_inv eps c. subst c eps.
    pose proof (prescale_cases (TrainToy.optimizer_type cfg) (TrainToy.epsilon cfg)
                  (TrainToy.lr_init cfg) (TrainToy.lr_min cfg) le_not_gt) as Hcases.
    cbv zeta in Hcases. destruct Hcases as [Hsgd Hother].
    split_and!; [| |done].
    + intros Ho Heps. rewrite Hcfg. simpl. by rewrite (Hsgd Ho Heps).
    + intros Hc. rewrite Hcfg. simpl. by rewrite (Hother Hc).
  - intros cfg toys g0 Hnet Hopt Hrange Hs Hn. unfold TrainToy.setup, TrainToy.net_bank.
    assert (∃ k, optim_bank (TrainToy.optimizer_type cfg) = Some k) as [k Hk].
    { destruct Hopt as [-> | ->]; by eexists. }
    pose proof (py_prescale_ok _ _ (TrainToy.lr_init cfg) (TrainToy.lr_min cfg) Hrange)
      as Hrates.
    rewrite Hnet. simpl. destruct (ToyNet _) as [e g]. rewrite Hrates.
    unfold make_optim; simpl; rewrite Hk.
    unfold torch_rand. rewrite (proj2 (Z.ltb_ge _ 0)) by done. simpl.
    destruct (rand _ _ _ _ _) as [u g'].
    unfold torch_zeros; rewrite (proj2 (Z.ltb_ge _ 0)) by done; by eexists.
  - intros k i st u st' Hrun.
    by rewrite (preserves_for_range TrainToy.config _ _ _
                  toy_train_iter_preserves_config _ _ _ Hrun).
Qed.

(** C9.  Two runs of train_data.py with the same configuration and the
    same training images end alike, whatever the state of the generators
    each run started from: the seeding comes first, and every draw after
    it is taken from the seeded generators.  In particular the two
    sequences of diagnostics agree entry for entry. *)
Theorem seeded_runs_agree `{!TorchSpec R} :
  ∀ cfg data (g1 g2 : rng),
    TrainData.main cfg data g1 = TrainData.main cfg data g2
    ∧ ∀ u1 st1 u2 st2,
        TrainData.main cfg data g1 = Ok (u1, st1) →
        TrainData.main cfg data g2 = Ok (u2, st2) →
        TrainData.d_s_t_record st1 = TrainData.d_s_t_record st2
        ∧ TrainData.r_s_t_record st1 = TrainData.r_s_t_record st2.
Proof.
  intros cfg data g1 g2.
  assert (TrainData.main cfg data g1 = TrainData.main cfg data g2) as Heq.
  { unfold TrainData.main, TrainData.setup.
    by rewrite (manual_seed_resets (TrainData.seed cfg) g1 g2). }
  split; [done|]. intros u1 st1 u2 st2 H1 H2.
  rewrite Heq, H2 in H1. by injection H1 as _ <-.
Qed.
End loop_claims.

(** * The claims on the example instance *)


Lemma Z_sub_anti (u v : Z) : ssub u v = sneg (ssub v u).
Proof. simpl. lia. Qed.

Lemma Z_mul_neg (u c : Z) : smul (sneg u) c = sneg (smul u c).
Proof. simpl. lia. Qed.

Lemma Z_le_not_gt (a b : Z) : sleb a b = true → sltb b a = false.
Proof. simpl. intros H%Z.leb_le. apply Z.ltb_ge. lia. Qed.

Lemma Z_lt_le (a b : Z) : sltb a b = true → sleb a b = true.
Proof. simpl. intros H%Z.ltb_lt. apply Z.leb_le. lia. Qed.

Lemma Z_le_refl (a : Z) : sleb a a = true.
Proof. simpl. apply Z.leb_refl. Qed.


(** C4 on the example: the first training iteration. *)
Lemma recorded_loss_scaled_witness :
  ∃ st',
    TrainData.train_iter 0 (Example.globals 2) = Ok (tt, st')
    ∧ ∃ x_q st1 x_s_t r_s_t st2 d_s_t,
        TrainData.sample_q (Example.globals 2) = Ok (x_q, st1)
        ∧ TrainData.sample_s_t 2 "persistent" true st1 = Ok ((x_s_t, r_s_t), st2)
        ∧ TrainData.d_s_t_record st' !! 0%nat = Some d_s_t
        ∧ let diff := ssub (smean (forward 1 x_q)) (smean (forward 1 x_s_t)) in
          (sgtb 2 (sofZ 0) = true → d_s_t = smul diff (sdiv (sofZ 2) (spow 2 2)))
          ∧ (sleb 2 (sofZ 0) = true → d_s_t = diff).
Proof.
  eexists. split; [vm_compute; reflexivity|].
  apply (proj1 (recorded_loss_scaled Z_le_not_gt) 0 (Example.globals 2) tt).
  vm_compute; reflexivity.
Defined.

(** C5 on the example: a uniform initialization of shape [2, 1, 2, 2]. *)
Lemma bank_written_only_by_write_back_witness :
  TorchSpec Z
  ∧ ∃ x r st',
      TrainData.sample_s_t 2 "uniform" true (Example.globals 2) = Ok ((x, r), st')
      ∧ has_shape [2; 1; 2; 2]%nat 4 x
      ∧ TrainData.s_t_0 st' = TrainData.s_t_0 (Example.globals 2).
Proof.
  split; [exact counter_torch_spec|].
  apply (proj1 (proj2 (bank_written_only_by_write_back
                         (TorchSpec0 := counter_torch_spec)))
           2 "uniform" true (Example.globals 2)); simpl; [by left|lia..].
Defined.

(** C6 on the example: two iterations, with [lr_min = 3]. *)
Lemma learning_rate_annealed_and_floored_witness :
  ∃ st',
    for_range TrainData.train_iter 0 2 (Example.globals 2) = Ok (tt, st')
    ∧ Forall (λ gp, sleb 3 (lr gp) = true) (param_groups (TrainData.optim st')).
Proof.
  eexists. split; [vm_compute; reflexivity|].
  apply (proj1 (proj2 (proj1 (learning_rate_annealed_and_floored Z_lt_le Z_le_refl)))
           2%nat 0 (Example.globals 2) tt); [lia|vm_compute; reflexivity].
Defined.

(** C7 on the example: the optimizer type is 'sgd' and [epsilon = 2]. *)
Lemma rates_prescaled_at_setup_witness :
  ∃ st,
    TrainData.setup (Example.cfg 2) Example.images Example.fresh = Ok st
    ∧ TrainData.lr_init (TrainData.config st) = smul 8 (sdiv (spow 2 2) (sofZ 2))
    ∧ TrainData.lr_min (TrainData.config st) = smul 3 (sdiv (spow 2 2) (sofZ 2))
    ∧ param_groups (TrainData.optim st) = [{| lr := TrainData.lr_init (TrainData.config st) |}].
Proof.
  destruct (TrainData.setup (Example.cfg 2) Example.images Example.fresh) as [st|e] eqn:E;
    [|by vm_compute in E].
  exists st. split; [reflexivity|].
  destruct (proj1 (proj1 (rates_prescaled_at_setup Z_le_not_gt))
              (Example.cfg 2) Example.images Example.fresh st E) as (Hsgd & _ & Hgroups).
  destruct (Hsgd eq_refl eq_refl) as [Hinit Hmin].
  exact (conj Hinit (conj Hmin Hgroups)).
Defined.

(** C8 on the example: the first two training images as the batches. *)
Lemma loss_antisymmetric_witness :
  loss 2 (take 1 Example.images) (drop 1 Example.images) (1 : Z)
  = sneg (loss 2 (drop 1 Example.images) (take 1 Example.images) (1 : Z)).
Proof. exact (loss_antisymmetric Z_sub_anti Z_mul_neg 2 1 _ _). Defined.

(** C9 on the example: two runs from different generator states. *)
Lemma seeded_runs_agree_witness :
  TorchSpec Z
  ∧ TrainData.main (Example.cfg 2) Example.images Example.fresh
    = TrainData.main (Example.cfg 2) Example.images Example.used.
Proof.
  split; [exact counter_torch_spec|].
  exact (proj1 (seeded_runs_agree (TorchSpec0 := counter_torch_spec)
                  (Example.cfg 2) Example.images Example.fresh Example.used)).
Defined.

(** C10 on the example: no step from a persistent initialization. *)
Lemma zero_steps_unguarded_witness :
  ∃ x0 inds st0,
    TrainData.sample_s_t_0 "persistent" (Example.globals 2) = Ok ((x0, Some inds), st0)
    ∧ TrainData.sample_s_t 0 "persistent" true (Example.globals 2)
      = Ok ((x0, sdiv szero (sofZ 0)), st0)
    ∧ TrainData.write_back (Some inds) x0 st0 = Ok (tt, st0).
Proof.
  eexists _, _, _. split; [reflexivity|].
  destruct (proj1 (zero_steps_unguarded (TorchSpec0 := counter_torch_spec))
              "persistent" true (Example.globals 2) _ _ _ eq_refl) as [Hrun Hwb].
  split; [exact Hrun|reflexivity].
Defined.


(** * Further properties of the sampler of train_data.py *)

Section data_sampler_more.
Context {R : Type} `{!Scalar R, !Torch R, !Nets R}.
Context `{!TorchSpec R}.
Import TrainData.
Implicit Types (st : Globals) (x : batch R) (inds : list nat).

(** What [sample_q] computes: rows of the dataset at the selected indices,
    plus [data_epsilon] times a draw of their shape. *)
Lemma sample_q_run st :
  let p := randperm (length (q st)) (generator st) in
  let inds := py_slice_to (batch_size (config st)) p.1 in
  ∃ rows,
    Forall2 (λ i row, q st !! i = Some row) inds rows
    ∧ sample_q st =
        Ok (tadd rows (tscale (data_epsilon (config st)) (randn_like rows p.2).1),
            set_generator (randn_like rows p.2).2 st).
Proof.
  intros p inds. destruct (sample_image_set_run (q st) st) as (rows & Hrun & Hrows).
  exists rows. split; [done|].
  unfold sample_q, mbind, M_mbind, M_bind, gets. simpl. rewrite Hrun.
  unfold draw. simpl. subst p. by destruct (randn_like rows _) as [n g'].
Qed.

Lemma sample_s_t_0_data st :
  ∃ x0 st0, sample_s_t_0 "data" st = Ok ((x0, None), st0).
Proof.
  destruct (sample_q_run st) as (rows & _ & Hq).
  unfold sample_s_t_0, mbind, M_mbind, M_bind, gets. simpl. rewrite Hq. by eexists _, _.
Qed.

Lemma sample_s_t_0_unknown init st :
  String.eqb init "persistent" = false → String.eqb init "data" = false →
  draws_noise init = false →
  sample_s_t_0 init st = Raise InvalidInitType.
Proof.
  intros H1 H2 [H3 H4]%orb_false_iff.
  unfold sample_s_t_0, mbind, M_mbind, M_bind, gets. simpl.
  by rewrite H1, H2, H3, H4.
Qed.

Lemma sample_s_t_0_negative init st :
  let cfg := config st in
  draws_noise init = true →
  forallb (Z.leb 0) [batch_size cfg; im_ch cfg; im_sz cfg; im_sz cfg] = false →
  sample_s_t_0 init st = Raise ShapeError.
Proof.
  intros cfg Hn Hdims.
  assert ((batch_size cfg <? 0) || (im_ch cfg <? 0) || (im_sz cfg <? 0)
          || (im_sz cfg <? 0) = true) as Hneg.
  { simpl in Hdims. rewrite !Z.ltb_antisym.
    destruct (0 <=? batch_size cfg), (0 <=? im_ch cfg), (0 <=? im_sz cfg); done. }
  unfold sample_s_t_0, mbind, M_mbind, M_bind, gets, draw_or_raise,
    torch_rand, torch_randn. simpl. fold cfg. rewrite Hneg.
  apply orb_true_iff in Hn as [->%String.eqb_eq| ->%String.eqb_eq]; done.
Qed.

Lemma sample_s_t_raises L init upd st e :
  sample_s_t_0 init st = Raise e → sample_s_t L init upd st = Raise e.
Proof. intros H0. unfold sample_s_t, mbind, M_mbind, M_bind at 1. by rewrite H0. Qed.
End data_sampler_more.

(** * Further properties of the sampler of train_toy.py *)

Section toy_sampler_more.
Context {R : Type} `{!Scalar R, !Torch R, !Nets R}.
Context `{!TorchSpec R}.
Import TrainToy.
Implicit Types (st : Globals) (x : batch R) (inds : list nat).

Lemma toy_sample_s_t_0_data bs st :
  ∃ x0 st0, sample_s_t_0 bs "data" st = Ok ((x0, None), st0).
Proof.
  unfold sample_s_t_0, mbind, M_mbind, M_bind, gets, sample_q. simpl.
  destruct (sample_toy_data _ _) as [x d]. by eexists _, _.
Qed.

Lemma toy_sample_s_t_0_unknown bs init st :
  String.eqb init "persistent" = false → String.eqb init "data" = false →
  draws_noise init = false →
  sample_s_t_0 bs init st = Raise InvalidInitType.
Proof.
  intros H1 H2 [H3 H4]%orb_false_iff.
  unfold sample_s_t_0, mbind, M_mbind, M_bind, gets. simpl.
  by rewrite H1, H2, H3, H4.
Qed.

Lemma toy_sample_s_t_0_negative bs init st :
  draws_noise init = true → bs < 0 →
  sample_s_t_0 bs init st = Raise ShapeError.
Proof.
  intros Hn Hbs.
  unfold sample_s_t_0, mbind, M_mbind, M_bind, gets, draw_or_raise,
    torch_rand, torch_randn. simpl. rewrite (proj2 (Z.ltb_lt bs 0) Hbs). simpl.
  apply orb_true_iff in Hn as [->%String.eqb_eq| ->%String.eqb_eq]; done.
Qed.

Lemma toy_sample_s_t_raises bs L init upd st e :
  sample_s_t_0 bs init st = Raise e → sample_s_t bs L init upd st = Raise e.
Proof. intros H0. unfold sample_s_t, mbind, M_mbind, M_bind at 1. by rewrite H0. Qed.
End toy_sampler_more.

(** * Further properties of the sampler, both scripts *)

Section sampler_extras.
Context {R : Type} `{!Scalar R, !Torch R, !Nets R}.

(** X1.  A call with an initialization method other than 'persistent',
    'data', 'uniform' and 'gaussian' raises the error of [sample_s_t_0],
    whatever the other arguments and the variables are.  Both scripts. *)
Theorem unknown_init_type_is_refused (init : string) :
  init ≠ "persistent" → init ≠ "data" → init ≠ "uniform" → init ≠ "gaussian" →
  (∀ L upd (st : TrainData.Globals),
     TrainData.sample_s_t L init upd st = Raise InvalidInitType)
  ∧ (∀ bs L upd (st : TrainToy.Globals),
     TrainToy.sample_s_t bs L init upd st = Raise InvalidInitType).
Proof.
  intros H1%String.eqb_neq H2%String.eqb_neq H3%String.eqb_neq H4%String.eqb_neq.
  assert (draws_noise init = false) as Hn by (unfold draws_noise; by rewrite H3, H4).
  split; intros.
  - by apply sample_s_t_raises, sample_s_t_0_unknown.
  - by apply toy_sample_s_t_raises, toy_sample_s_t_0_unknown.
Qed.

Context `{!TorchSpec R}.

Lemma sampler_accepts_cases init dims :
  sampler_accepts init dims = true →
  init = "persistent" ∨ init = "data"
  ∨ ((init = "uniform" ∨ init = "gaussian") ∧ Forall (λ d, 0 ≤ d) dims).
Proof.
  unfold sampler_accepts, draws_noise.
  destruct (String.eqb_spec init "persistent"); [by left|].
  destruct (String.eqb_spec init "data"); [by (right; left)|].
  simpl. intros [Hn Hd]%andb_true_iff. right. right. split.
  - destruct (String.eqb_spec init "uniform"); [by left|].
    destruct (String.eqb_spec init "gaussian"); [by right|done].
  - apply Forall_forall. intros d Hd'.
    rewrite forallb_forall in Hd. apply Z.leb_le, Hd. by apply list_elem_of_In.
Qed.

Lemma sample_s_t_is_ok L init upd (st : TrainData.Globals) :
  let cfg := TrainData.config st in
  is_ok (TrainData.sample_s_t L init upd st)
  = sampler_accepts init [TrainData.batch_size cfg; TrainData.im_ch cfg;
                          TrainData.im_sz cfg; TrainData.im_sz cfg].
Proof.
  intros cfg.
  destruct (sampler_accepts _ _) eqn:Hacc.
  + assert (∃ x0 inds st0, TrainData.sample_s_t_0 init st = Ok ((x0, inds), st0))
      as (x0 & inds & st0 & H0).
    { apply sampler_accepts_cases in Hacc
        as [-> | [-> | [Hinit Hd]]].
      - destruct (sample_s_t_0_persistent st) as (x0 & H0 & _). by eexists _, _, _.
      - destruct (sample_s_t_0_data st) as (x0 & st0 & H0). by eexists _, _, _.
      - apply Forall_cons in Hd as [Hb Hd]. apply Forall_cons in Hd as [Hc Hd].
        apply Forall_cons in Hd as [Hs _].
        destruct Hinit as [-> | ->].
        + destruct (sample_s_t_0_uniform st Hb Hc Hs) as (x0 & st0 & H0 & _).
          by eexists _, _, _.
        + destruct (sample_s_t_0_gaussian st Hb Hc Hs) as (x0 & st0 & H0 & _).
          by eexists _, _, _. }
    destruct (langevin (TrainData.f st0) (TrainData.epsilon (TrainData.config st0))
                L x0 (TrainData.generator st0)) as [[x r] g] eqn:El.
    destruct (sample_s_t_after_init L init upd st x0 inds st0 x r g H0 El)
      as (st' & Hrun & _).
    by rewrite Hrun.
  + unfold sampler_accepts in Hacc.
    apply orb_false_iff in Hacc as [[H1 H2]%orb_false_iff Hnoise].
    destruct (draws_noise init) eqn:Hn; simpl in Hnoise.
    * by rewrite (sample_s_t_raises _ _ _ _ _ (sample_s_t_0_negative init st Hn Hnoise)).
    * by rewrite (sample_s_t_raises _ _ _ _ _ (sample_s_t_0_unknown init st H1 H2 Hn)).
Qed.

Lemma toy_sample_s_t_is_ok bs L init upd (st : TrainToy.Globals) :
  is_ok (TrainToy.sample_s_t bs L init upd st) = sampler_accepts init [bs; 2; 1; 1].
Proof.
  destruct (sampler_accepts _ _) eqn:Hacc.
  + assert (∃ x0 inds st0, TrainToy.sample_s_t_0 bs init st = Ok ((x0, inds), st0))
      as (x0 & inds & st0 & H0).
    { apply sampler_accepts_cases in Hacc
        as [-> | [-> | [Hinit [Hb _]%Forall_cons]]].
      - destruct (toy_sample_s_t_0_persistent bs st) as (x0 & H0 & _).
        by eexists _, _, _.
      - destruct (toy_sample_s_t_0_data bs st) as (x0 & st0 & H0). by eexists _, _, _.
      - destruct Hinit as [-> | ->].
        + destruct (toy_sample_s_t_0_uniform bs st Hb) as (x0 & st0 & H0 & _).
          by eexists _, _, _.
        + destruct (toy_sample_s_t_0_gaussian bs st Hb) as (x0 & st0 & H0 & _).
          by eexists _, _, _. }
    destruct (langevin (TrainToy.f st0) (TrainToy.epsilon (TrainToy.config st0))
                L x0 (TrainToy.generator st0)) as [[x r] g] eqn:El.
    destruct (toy_sample_s_t_after_init bs L init upd st x0 inds st0 x r g H0 El)
      as (st' & Hrun & _).
    by rewrite Hrun.
  + unfold sampler_accepts in Hacc.
    apply orb_false_iff in Hacc as [[H1 H2]%orb_false_iff Hnoise].
    destruct (draws_noise init) eqn:Hn; simpl in Hnoise.
    * rewrite (toy_sample_s_t_raises _ _ _ _ _ _
                 (toy_sample_s_t_0_negative bs init st Hn ltac:(
                    rewrite andb_true_r in Hnoise; apply Z.leb_gt; exact Hnoise))).
      done.
    * by rewrite (toy_sample_s_t_raises _ _ _ _ _ _
                    (toy_sample_s_t_0_unknown bs init st H1 H2 Hn)).
Qed.

(** X2.  A call of the sampler returns exactly when its initialization
    method is 'persistent' or 'data', or is 'uniform' or 'gaussian' with
    no negative dimension (the batch size, and for train_data.py the
    number of channels and the image size) in the configuration; it
    raises in every other case.  The length of the run [L], the update
    flag and the contents of the bank and dataset play no part.  The
    calls on the network, the gradient and the norm are taken to return,
    as the model has them.  Both scripts. *)
Theorem sampler_returns_iff_accepted :
  (∀ L init upd (st : TrainData.Globals),
     let cfg := TrainData.config st in
     is_ok (TrainData.sample_s_t L init upd st)
     = sampler_accepts init [TrainData.batch_size cfg; TrainData.im_ch cfg;
                             TrainData.im_sz cfg; TrainData.im_sz cfg])
  ∧ (∀ bs L init upd (st : TrainToy.Globals),
     is_ok (TrainToy.sample_s_t bs L init upd st) = sampler_accepts init [bs; 2; 1; 1]).
Proof.
  split; intros; [apply sample_s_t_is_ok|apply toy_sample_s_t_is_ok].
Qed.
End sampler_extras.

(** * Shapes and sizes through the sampler *)

Section shape_facts.
Context {R : Type}.

Lemma has_shape_rows d sh (t : batch R) :
  has_shape (d :: sh) 4 t ↔ length t = d ∧ Forall (has_shape sh 3) t.
Proof. done. Qed.

Lemma has_shape_scatter d sh (bank : batch R) inds (values : batch R) :
  has_shape (d :: sh) 4 bank → Forall (has_shape sh 3) values →
  has_shape (d :: sh) 4 (scatter bank inds values).
Proof.
  rewrite !has_shape_rows. intros [Hlen Hrows] Hvalues.
  split; [by rewrite length_scatter|]. clear Hlen. unfold scatter.
  revert bank values Hrows Hvalues.
  induction inds as [|i inds IH]; intros bank [|v values] Hrows Hvalues; simpl; try done.
  apply Forall_cons in Hvalues as [Hv Hvalues].
  apply IH; [|done]. by apply Forall_insert.
Qed.

Lemma selected_rows_shape sh (bank rows : batch R) inds :
  Forall (has_shape sh 3) bank →
  Forall2 (λ i row, bank !! i = Some row) inds rows →
  Forall (has_shape sh 3) rows.
Proof.
  intros Hbank Hsel. induction Hsel as [|i row inds rows Hi _ IH]; constructor; [|done].
  rewrite Forall_forall in Hbank. apply Hbank. by eapply list_elem_of_lookup_2.
Qed.

Lemma same_shape_rows sh (x y : batch R) :
  same_shape 4 x y → Forall (has_shape sh 3) x → Forall (has_shape sh 3) y.
Proof.
  intros Hxy. induction Hxy as [|a b x y Hab _ IH]; [done|].
  intros [Ha Hx]%Forall_cons. constructor; [by eapply same_shape_has_shape|auto].
Qed.

Lemma length_py_slice_to_negative {A} k (l : list A) :
  k < 0 → length (py_slice_to k l) = Z.to_nat (Z.of_nat (length l) + k).
Proof.
  intros Hk. unfold py_slice_to. rewrite (proj2 (Z.ltb_lt k 0) Hk), length_take. lia.
Qed.
End shape_facts.

Section data_sampler_extras.
Context {R : Type} `{!Scalar R, !Torch R, !Nets R}.
Context `{!TorchSpec R}.
Import TrainData.
Implicit Types (st : Globals).

(** X3.  [sample_q] of train_data.py never raises.  It selects pairwise
    distinct images of the dataset (as many as the batch size, at most all
    of them) and returns them with [data_epsilon] times a draw of noise of
    their shape added; of the variables only the generators change, the
    dataset itself is not written. *)
Theorem positive_batch_from_dataset st :
  let cfg := config st in
  ∃ inds rows noise g,
    sample_q st = Ok (tadd rows (tscale (data_epsilon cfg) noise), set_generator g st)
    ∧ NoDup inds
    ∧ Forall2 (λ i row, q st !! i = Some row) inds rows
    ∧ same_shape 4 rows noise
    ∧ same_shape 4 rows (tadd rows (tscale (data_epsilon cfg) noise))
    ∧ (0 ≤ batch_size cfg →
       length rows = (Z.to_nat (batch_size cfg) `min` length (q st))%nat).
Proof.
  intros cfg. destruct (sample_q_run st) as (rows & Hrows & Hrun).
  destruct (selected_indices (batch_size cfg) (length (q st)) (generator st))
    as (Hnd & _ & Hlen).
  set (p := randperm (length (q st)) (generator st)) in *.
  pose proof (randn_like_shape rows p.2) as Hn.
  eexists _, rows, _, _. split_and!; [exact Hrun|exact Hnd|exact Hrows|exact Hn|..].
  - apply tmap2_same_shape. eapply same_shape_trans; [exact Hn|apply tmap_same_shape].
  - intros Hb. rewrite <-(Forall2_length _ _ _ Hrows). by apply Hlen.
Qed.

(** The bank after a call: as it was, or with returned rows written over
    rows of the shape they were read with. *)
Lemma sample_s_t_bank_shape L init upd st a st' d sh :
  sample_s_t L init upd st = Ok (a, st') →
  has_shape (d :: sh) 4 (s_t_0 st) →
  has_shape (d :: sh) 4 (s_t_0 st').
Proof.
  intros Hrun Hbank. pose proof Hrun as Hrun'. unfold sample_s_t in Hrun'.
  apply bind_ok in Hrun' as ([x0 inds] & st0 & H0 & _).
  assert (s_t_0 st0 = s_t_0 st) as Hb0
    by apply (sample_s_t_0_preserves s_t_0 (λ _ _, eq_refl) _ _ _ _ H0).
  destruct (langevin (f st0) (epsilon (config st0)) L x0 (generator st0))
    as [[x r] g] eqn:El.
  destruct (sample_s_t_after_init L init upd st x0 inds st0 x r g H0 El)
    as (st1 & Hrun1 & Hst1).
  rewrite Hrun in Hrun1. injection Hrun1 as _ <-.
  destruct Hst1 as [-> | (sel & -> & Hrows & _ & ->)]; simpl; rewrite Hb0; [done|].
  apply has_shape_scatter; [done|].
  pose proof (langevin_same_shape (f st0) (epsilon (config st0)) L x0 (generator st0)) as Hs.
  rewrite El in Hs. apply (same_shape_rows _ x0); [exact Hs|].
  rewrite Hb0 in Hrows. apply has_shape_rows in Hbank as [_ Hbank].
  by eapply selected_rows_shape.
Qed.
End data_sampler_extras.

Section toy_sampler_extras.
Context {R : Type} `{!Scalar R, !Torch R, !Nets R}.
Context `{!TorchSpec R}.
Import TrainToy.
Implicit Types (st : Globals).

Lemma toy_sample_s_t_bank_shape bs L init upd st a st' d sh :
  sample_s_t bs L init upd st = Ok (a, st') →
  has_shape (d :: sh) 4 (s_t_0 st) →
  has_shape (d :: sh) 4 (s_t_0 st').
Proof.
  intros Hrun Hbank. pose proof Hrun as Hrun'. unfold sample_s_t in Hrun'.
  apply bind_ok in Hrun' as ([x0 inds] & st0 & H0 & _).
  assert (s_t_0 st0 = s_t_0 st) as Hb0
    by apply (toy_sample_s_t_0_preserves s_t_0 (λ _ _, eq_refl) (λ _ _, eq_refl)
                _ _ _ _ _ H0).
  destruct (langevin (f st0) (epsilon (config st0)) L x0 (generator st0))
    as [[x r] g] eqn:El.
  destruct (toy_sample_s_t_after_init bs L init upd st x0 inds st0 x r g H0 El)
    as (st1 & Hrun1 & Hst1).
  rewrite Hrun in Hrun1. injection Hrun1 as _ <-.
  destruct Hst1 as [-> | (sel & -> & Hrows & _ & ->)]; simpl; rewrite Hb0; [done|].
  apply has_shape_scatter; [done|].
  pose proof (langevin_same_shape (f st0) (epsilon (config st0)) L x0 (generator st0)) as Hs.
  rewrite El in Hs. apply (same_shape_rows _ x0); [exact Hs|].
  rewrite Hb0 in Hrows. apply has_shape_rows in Hbank as [_ Hbank].
  by eapply selected_rows_shape.
Qed.

(** A call that does not initialize from data leaves the toy dataset as it
    was. *)
Lemma toy_sample_s_t_keeps_dataset bs L init upd :
  String.eqb init "data" = false → preserves q (sample_s_t bs L init upd).
Proof.
  intros Hnd. unfold sample_s_t, sample_s_t_0, write_back. rewrite Hnd.
  repeat first [apply (toy_draw_preserves q (λ _ _, eq_refl))
               | apply (toy_draw_or_raise_preserves q (λ _ _, eq_refl))
               | apply (toy_sample_image_set_preserves q (λ _ _, eq_refl))
               | preserves_step].
Qed.
End toy_sampler_extras.

Section sampler_extras_shapes.
Context {R : Type} `{!Scalar R, !Torch R, !Nets R}.

(** X4.  Whatever its arguments, a call of the sampler that returns has
    written no variable but the generators and the bank: the
    configuration, the network, the optimizer and the two records are as
    before, and so is the dataset (for train_toy.py, whose dataset object
    is asked for samples by the method 'data', under every other
    method). *)
Theorem sampler_leaves_the_rest :
  (∀ L init upd (st : TrainData.Globals) a st',
     TrainData.sample_s_t L init upd st = Ok (a, st') →
     TrainData.config st' = TrainData.config st
     ∧ TrainData.f st' = TrainData.f st
     ∧ TrainData.optim st' = TrainData.optim st
     ∧ TrainData.q st' = TrainData.q st
     ∧ TrainData.d_s_t_record st' = TrainData.d_s_t_record st
     ∧ TrainData.r_s_t_record st' = TrainData.r_s_t_record st)
  ∧ (∀ bs L init upd (st : TrainToy.Globals) a st',
     TrainToy.sample_s_t bs L init upd st = Ok (a, st') →
     TrainToy.config st' = TrainToy.config st
     ∧ TrainToy.f st' = TrainToy.f st
     ∧ TrainToy.optim st' = TrainToy.optim st
     ∧ (init ≠ "data" → TrainToy.q st' = TrainToy.q st)
     ∧ TrainToy.d_s_t_record st' = TrainToy.d_s_t_record st
     ∧ TrainToy.r_s_t_record st' = TrainToy.r_s_t_record st).
Proof.
  split.
  - intros L init upd st a st' Hrun.
    split_and!;
      match goal with
      | |- ?p st' = ?p st =>
          by eapply (sample_s_t_preserves p (λ _ _, eq_refl) L init upd (λ _ _ _, eq_refl))
      end.
  - intros bs L init upd st a st' Hrun.
    split_and!;
      try match goal with
      | |- ?p st' = ?p st =>
          by eapply (toy_sample_s_t_preserves p (λ _ _, eq_refl) (λ _ _, eq_refl)
                       bs L init upd (λ _ _ _, eq_refl))
      end.
    intros Hnd%String.eqb_neq. by eapply toy_sample_s_t_keeps_dataset.
Qed.

Context `{!TorchSpec R}.

(** X5.  A negative batch size is not refused by the persistent
    initialization: the slice [randperm(n)[0:batch_size]] then drops
    [-batch_size] indices from the end, so with a bank of more than
    [-batch_size] chains the call returns [capacity + batch_size]
    samples.  Both scripts. *)
Theorem negative_batch_size_shortens_the_batch :
  (∀ L upd (st : TrainData.Globals),
     let bs := TrainData.batch_size (TrainData.config st) in
     let capacity := Z.of_nat (length (TrainData.s_t_0 st)) in
     bs < 0 → 0 < capacity + bs →
     ∃ x r st',
       TrainData.sample_s_t L "persistent" upd st = Ok ((x, r), st')
       ∧ Z.of_nat (length x) = capacity + bs)
  ∧ (∀ bs L upd (st : TrainToy.Globals),
     let capacity := Z.of_nat (length (TrainToy.s_t_0 st)) in
     bs < 0 → 0 < capacity + bs →
     ∃ x r st',
       TrainToy.sample_s_t bs L "persistent" upd st = Ok ((x, r), st')
       ∧ Z.of_nat (length x) = capacity + bs).
Proof.
  split.
  - intros L upd st bs capacity Hbs Hpos.
    destruct (sample_s_t_persistent_run L upd st)
      as (x0 & x & r & g & _ & _ & _ & Hlen & Hrun).
    eexists x, _, _. split; [exact Hrun|].
    rewrite Hlen, length_py_slice_to_negative by done.
    pose proof (randperm_perm (length (TrainData.s_t_0 st)) (TrainData.generator st)) as Hp.
    apply Permutation_length in Hp. rewrite Hp, length_seq.
    subst bs capacity. lia.
  - intros bs L upd st capacity Hbs Hpos.
    destruct (toy_sample_s_t_persistent_run bs L upd st)
      as (x0 & x & r & g & _ & _ & _ & Hlen & Hrun).
    eexists x, _, _. split; [exact Hrun|].
    rewrite Hlen, length_py_slice_to_negative by done.
    pose proof (randperm_perm (length (TrainToy.s_t_0 st)) (TrainToy.generator st)) as Hp.
    apply Permutation_length in Hp. rewrite Hp, length_seq.
    subst capacity. lia.
Qed.

(** X6.  The bank keeps its shape: when it is a tensor of shape
    [d, c, h, w] before a call of the sampler that returns, it is one
    after the call, whatever the arguments of the call; in particular its
    number of chains never changes.  Both scripts. *)
Theorem bank_keeps_its_shape (d : nat) (sh : list nat) :
  (∀ L init upd (st : TrainData.Globals) a st',
     has_shape (d :: sh) 4 (TrainData.s_t_0 st) →
     TrainData.sample_s_t L init upd st = Ok (a, st') →
     has_shape (d :: sh) 4 (TrainData.s_t_0 st')
     ∧ length (TrainData.s_t_0 st') = d)
  ∧ (∀ bs L init upd (st : TrainToy.Globals) a st',
     has_shape (d :: sh) 4 (TrainToy.s_t_0 st) →
     TrainToy.sample_s_t bs L init upd st = Ok (a, st') →
     has_shape (d :: sh) 4 (TrainToy.s_t_0 st')
     ∧ length (TrainToy.s_t_0 st') = d).
Proof.
  split.
  - intros L init upd st a st' Hbank Hrun.
    pose proof (sample_s_t_bank_shape _ _ _ _ _ _ _ _ Hrun Hbank) as Hsh.
    split; [done|]. by apply has_shape_rows in Hsh as [? _].
  - intros bs L init upd st a st' Hbank Hrun.
    pose proof (toy_sample_s_t_bank_shape _ _ _ _ _ _ _ _ _ Hrun Hbank) as Hsh.
    split; [done|]. by apply has_shape_rows in Hsh as [? _].
Qed.
End sampler_extras_shapes.


(** * Further properties of the training loop of train_data.py *)

Section data_loop_more.
Context {R : Type} `{!Scalar R, !Torch R, !Nets R}.
Import TrainData.
Implicit Types (st : Globals).

Lemma setitem_inv (record : list R) i v record' :
  setitem record i v = Ok record' →
  0 ≤ i < Z.of_nat (length record) ∧ record' = <[Z.to_nat i := v]> record.
Proof.
  unfold setitem. destruct (Z.ltb_spec i 0); [done|].
  destruct (Z.leb_spec (Z.of_nat (length record)) i); [done|]. simpl.
  intros [= <-]. split; [lia|done].
Qed.

Lemma setitem_ok (record : list R) i v :
  0 ≤ i < Z.of_nat (length record) →
  setitem record i v = Ok (<[Z.to_nat i := v]> record).
Proof.
  intros Hi. unfold setitem.
  rewrite (proj2 (Z.ltb_ge i 0)), (proj2 (Z.leb_gt _ i)) by lia. done.
Qed.

(** The records after an iteration: the two entries at its index are
    written, with the loss and with the diagnostic of its samples. *)
Lemma train_iter_records i st u st' :
  train_iter i st = Ok (u, st') →
  ∃ d_s_t r_s_t,
    0 ≤ i < Z.of_nat (length (d_s_t_record st))
    ∧ 0 ≤ i < Z.of_nat (length (r_s_t_record st))
    ∧ d_s_t_record st' = <[Z.to_nat i := d_s_t]> (d_s_t_record st)
    ∧ r_s_t_record st' = <[Z.to_nat i := r_s_t]> (r_s_t_record st).
Proof.
  intros (x_q & st1 & x_s_t & r_s_t & st2 & d' & r' & Hq & Hs & Hd & Hr & Hend)
    %train_iter_inv.
  assert (d_s_t_record st2 = d_s_t_record st ∧ r_s_t_record st2 = r_s_t_record st)
    as [Hd2 Hr2].
  { rewrite (sample_s_t_preserves d_s_t_record (λ _ _, eq_refl) _ _ _ (λ _ _ _, eq_refl)
               _ _ _ Hs),
            (sample_s_t_preserves r_s_t_record (λ _ _, eq_refl) _ _ _ (λ _ _ _, eq_refl)
               _ _ _ Hs).
    split; [apply (sample_q_preserves d_s_t_record (λ _ _, eq_refl) _ _ _ Hq)
           |apply (sample_q_preserves r_s_t_record (λ _ _, eq_refl) _ _ _ Hq)]. }
  rewrite Hd2 in Hd. rewrite Hr2 in Hr.
  apply setitem_inv in Hd as [Hdi ->]. apply setitem_inv in Hr as [Hri ->].
  eexists _, r_s_t. split_and!; try lia.
  - destruct Hend as [-> | [a Hlong]]; [done|].
    by rewrite (sample_s_t_preserves d_s_t_record (λ _ _, eq_refl) _ _ _
                  (λ _ _ _, eq_refl) _ _ _ Hlong).
  - destruct Hend as [-> | [a Hlong]]; [done|].
    by rewrite (sample_s_t_preserves r_s_t_record (λ _ _, eq_refl) _ _ _
                  (λ _ _ _, eq_refl) _ _ _ Hlong).
Qed.
End data_loop_more.

(** * When the training loop of train_data.py returns *)

Section data_loop_returns.
Context {R : Type} `{!Scalar R, !Torch R, !Nets R}.
Context `{!TorchSpec R}.
Import TrainData.
Implicit Types (st : Globals).

Lemma is_ok_bind {S A B} (m : M S A) (k : A → M S B) (s : S) :
  is_ok ((m ≫= k) s)
  = match m s with Ok (a, s1) => is_ok (k a s1) | Raise _ => false end.
Proof. unfold mbind, M_mbind, M_bind. by destruct (m s) as [[a s1]|e]. Qed.

Lemma train_iter_returns_iff i st :
  0 ≤ i < Z.of_nat (length (d_s_t_record st)) →
  0 ≤ i < Z.of_nat (length (r_s_t_record st)) →
  is_ok (train_iter i st) = data_iteration_returns (config st) i.
Proof.
  intros Hd Hr. destruct (sample_q_run st) as (rows & _ & Hq).
  unfold train_iter, data_iteration_returns.
  rewrite is_ok_bind. simpl. rewrite is_ok_bind, Hq. rewrite is_ok_bind.
  set (st1 := set_generator _ st) in *. set (x_q := tadd rows _) in *.
  pose proof (sample_s_t_is_ok (num_shortrun_steps (config st))
                (shortrun_init (config st)) true st1) as Hacc.
  simpl in Hacc.
  destruct (sample_s_t _ _ true st1) as [[[x_s_t r_s_t] st2]|e] eqn:Hs;
    simpl in Hacc; rewrite <-Hacc; [|done]. simpl.
  assert (config st2 = config st ∧ d_s_t_record st2 = d_s_t_record st
          ∧ r_s_t_record st2 = r_s_t_record st) as (Hc2 & Hd2 & Hr2).
  { split_and!;
      match goal with
      | |- ?p st2 = ?p st =>
          by rewrite (sample_s_t_preserves p (λ _ _, eq_refl) _ _ _ (λ _ _ _, eq_refl)
                        _ _ _ Hs)
      end. }
  do 3 (rewrite is_ok_bind; simpl).
  rewrite <-(py_loss_is_ok (epsilon (config st)) x_q x_s_t).
  destruct (py_loss _ _ _) as [d_s_t|e]; simpl; [|done].
  do 3 (rewrite is_ok_bind; simpl).
  rewrite Hd2, (setitem_ok _ _ _ Hd). simpl.
  rewrite is_ok_bind. simpl. rewrite Hr2, (setitem_ok _ _ _ Hr). simpl.
  do 3 (rewrite is_ok_bind; simpl).
  match goal with |- context [_ (set_f_optim ?fo ?s)] => set (st3 := set_f_optim fo s) end.
  assert (config st3 = config st) as Hc3 by exact Hc2.
  unfold logging_returns, data_longrun_returns.
  pose proof (sample_s_t_is_ok (num_longrun_steps (config st)) (longrun_init (config st))
                false st3) as Hlong.
  cbv zeta in Hlong. rewrite Hc3 in Hlong. clearbody st3.
  assert (∀ b : bool,
            is_ok ((if log_longrun (config st)
                    then due ← lift (divides (log_longrun_freq (config st)) (i + 1));
                         if due : bool
                         then sample_s_t (num_longrun_steps (config st))
                                (longrun_init (config st)) false ;; mret ()
                         else mret ()
                    else mret ()) st3)
            = (negb (log_longrun (config st))
               || negb (log_longrun_freq (config st) =? 0)
                  && (negb ((i + 1) mod log_longrun_freq (config st) =? 0)
                      || sampler_accepts (longrun_init (config st))
                           [batch_size (config st); im_ch (config st);
                            im_sz (config st); im_sz (config st)]))) as Hrest.
  { intros _. destruct (log_longrun (config st)); [|done]. simpl.
    rewrite is_ok_bind. unfold lift, divides.
    destruct (log_longrun_freq (config st) =? 0); [done|]. simpl.
    destruct ((i + 1) mod log_longrun_freq (config st) =? 0); [|done]. simpl.
    rewrite is_ok_bind, <-Hlong.
    by destruct (sample_s_t _ _ false st3) as [[? ?]|]. }
  destruct (i + 1 =? 1); simpl; [exact (Hrest true)|].
  unfold lift, divides. destruct (log_freq (config st) =? 0); [done|]. simpl.
  exact (Hrest true).
Qed.

Lemma training_returns_iff k i st :
  0 ≤ i →
  i + Z.of_nat k ≤ Z.of_nat (length (d_s_t_record st)) →
  i + Z.of_nat k ≤ Z.of_nat (length (r_s_t_record st)) →
  is_ok (for_range train_iter i k st)
  = forallb (data_iteration_returns (config st)) (seqZ i (Z.of_nat k)).
Proof.
  revert i st. induction k as [|k IH]; intros i st Hi Hd Hr; [done|].
  rewrite seqZ_cons by lia. simpl.
  rewrite <-(train_iter_returns_iff i st) by lia. rewrite is_ok_bind.
  destruct (train_iter i st) as [[[] st1]|e] eqn:Hiter; [|done]. simpl.
  destruct (train_iter_records _ _ _ _ Hiter) as (d & r & _ & _ & Hd1 & Hr1).
  rewrite <-(train_iter_preserves_config _ _ _ _ Hiter).
  replace (Z.pred (Z.of_nat (S k))) with (Z.of_nat k) by lia.
  apply IH; [lia|rewrite Hd1, length_insert; lia|rewrite Hr1, length_insert; lia].
Qed.

Lemma setup_state cfg data g0 st :
  setup cfg data g0 = Ok st →
  q st = data
  ∧ same_shape 4 data (s_t_0 st)
  ∧ d_s_t_record st = replicate (Z.to_nat (num_train_iters cfg)) szero
  ∧ r_s_t_record st = replicate (Z.to_nat (num_train_iters cfg)) szero
  ∧ 0 ≤ num_train_iters cfg.
Proof.
  unfold setup. destruct (net_bank _) as [make_net|]; [|done].
  destruct (make_net _ _) as [e g].
  destruct (py_prescale _ _ _ _) as [rates|]; [|done]. unfold make_optim. simpl.
  destruct (optim_bank _); [|done].
  pose proof (rand_like_shape data g) as Hsh.
  destruct (rand_like _ _) as [u g']. unfold torch_zeros.
  destruct (Z.ltb_spec (num_train_iters cfg) 0); [done|].
  intros [= <-]. simpl. split_and!; try done.
  eapply same_shape_trans; [exact Hsh|apply tmap_same_shape].
Qed.

Lemma setup_is_ok cfg data g0 :
  is_ok (setup cfg data g0)
  = (String.eqb (net_type cfg) "vanilla" || String.eqb (net_type cfg) "nonlocal")
    && prescale_returns (optimizer_type cfg) (epsilon cfg)
    && (String.eqb (optimizer_type cfg) "adam" || String.eqb (optimizer_type cfg) "sgd")
    && (0 <=? num_train_iters cfg).
Proof.
  rewrite <-(py_prescale_is_ok _ _ (lr_init cfg) (lr_min cfg)).
  unfold setup, net_bank.
  destruct (String.eqb (net_type cfg) "vanilla"); simpl;
    [destruct (VanillaNet _ _)
    |destruct (String.eqb (net_type cfg) "nonlocal"); simpl; [destruct (NonlocalNet _ _)|done]];
    (destruct (py_prescale _ _ _ _) as [rates|]; simpl; [|done]);
    unfold make_optim, optim_bank, torch_zeros; simpl; rewrite Z.ltb_antisym;
    (destruct (String.eqb (optimizer_type cfg) "adam"); simpl;
       [|destruct (String.eqb (optimizer_type cfg) "sgd"); simpl; [|done]]);
    destruct (rand_like _ _); by destruct (0 <=? num_train_iters cfg).
Qed.

Lemma main_is_ok cfg data g0 :
  is_ok (main cfg data g0)
  = is_ok (setup cfg data g0)
    && forallb (data_iteration_returns cfg) (seqZ 0 (num_train_iters cfg)).
Proof.
  unfold main. destruct (setup cfg data g0) as [st|e] eqn:Hsetup; [|done]. simpl.
  destruct (setup_state _ _ _ _ Hsetup) as (_ & _ & Hd & Hr & Hn).
  apply setup_inv in Hsetup as [Hcfg _].
  unfold training.
  rewrite training_returns_iff; rewrite ?Hd, ?Hr, ?length_replicate, ?Hcfg; simpl; try lia.
  by rewrite Z2Nat.id.
Qed.
End data_loop_returns.

(** * Further properties of the training loop of train_toy.py *)

Section toy_loop_more.
Context {R : Type} `{!Scalar R, !Torch R, !Nets R}.
Import TrainToy.
Implicit Types (st : Globals).

Lemma toy_setitem_inv (record : list R) i v record' :
  setitem record i v = Ok record' →
  0 ≤ i < Z.of_nat (length record) ∧ record' = <[Z.to_nat i := v]> record.
Proof.
  unfold setitem. destruct (Z.ltb_spec i 0); [done|].
  destruct (Z.leb_spec (Z.of_nat (length record)) i); [done|]. simpl.
  intros [= <-]. split; [lia|done].
Qed.

Lemma toy_setitem_ok (record : list R) i v :
  0 ≤ i < Z.of_nat (length record) →
  setitem record i v = Ok (<[Z.to_nat i := v]> record).
Proof.
  intros Hi. unfold setitem.
  rewrite (proj2 (Z.ltb_ge i 0)), (proj2 (Z.leb_gt _ i)) by lia. done.
Qed.

Lemma toy_train_iter_records i st u st' :
  train_iter i st = Ok (u, st') →
  ∃ d_s_t r_s_t,
    0 ≤ i < Z.of_nat (length (d_s_t_record st))
    ∧ 0 ≤ i < Z.of_nat (length (r_s_t_record st))
    ∧ d_s_t_record st' = <[Z.to_nat i := d_s_t]> (d_s_t_record st)
    ∧ r_s_t_record st' = <[Z.to_nat i := r_s_t]> (r_s_t_record st).
Proof.
  intros (x_q & st1 & x_s_t & r_s_t & st2 & d' & r' & Hq & Hs & Hd & Hr & Hend)
    %toy_train_iter_inv.
  assert (d_s_t_record st2 = d_s_t_record st ∧ r_s_t_record st2 = r_s_t_record st)
    as [Hd2 Hr2].
  { rewrite (toy_sample_s_t_preserves d_s_t_record (λ _ _, eq_refl) (λ _ _, eq_refl)
               _ _ _ _ (λ _ _ _, eq_refl) _ _ _ Hs),
            (toy_sample_s_t_preserves r_s_t_record (λ _ _, eq_refl) (λ _ _, eq_refl)
               _ _ _ _ (λ _ _ _, eq_refl) _ _ _ Hs).
    split;
      [apply (toy_sample_q_preserves d_s_t_record (λ _ _, eq_refl) _ _ _ _ Hq)
      |apply (toy_sample_q_preserves r_s_t_record (λ _ _, eq_refl) _ _ _ _ Hq)]. }
  rewrite Hd2 in Hd. rewrite Hr2 in Hr.
  apply toy_setitem_inv in Hd as [Hdi ->]. apply toy_setitem_inv in Hr as [Hri ->].
  eexists _, r_s_t. split_and!; try lia.
  - destruct Hend as [-> | [a Hlong]]; [done|].
    by rewrite (toy_sample_s_t_preserves d_s_t_record (λ _ _, eq_refl) (λ _ _, eq_refl)
                  _ _ _ _ (λ _ _ _, eq_refl) _ _ _ Hlong).
  - destruct Hend as [-> | [a Hlong]]; [done|].
    by rewrite (toy_sample_s_t_preserves r_s_t_record (λ _ _, eq_refl) (λ _ _, eq_refl)
                  _ _ _ _ (λ _ _ _, eq_refl) _ _ _ Hlong).
Qed.
End toy_loop_more.

(** * When the training loop of train_toy.py returns *)

Section toy_loop_returns.
Context {R : Type} `{!Scalar R, !Torch R, !Nets R}.
Context `{!TorchSpec R}.
Import TrainToy.
Implicit Types (st : Globals).

Lemma toy_train_iter_returns_iff i st :
  0 ≤ i < Z.of_nat (length (d_s_t_record st)) →
  0 ≤ i < Z.of_nat (length (r_s_t_record st)) →
  is_ok (train_iter i st) = toy_iteration_returns (config st) i.
Proof.
  intros Hd Hr.
  unfold train_iter, toy_iteration_returns.
  rewrite is_ok_bind. simpl. rewrite is_ok_bind.
  unfold sample_q at 1. destruct (sample_toy_data _ _) as [x_q toys].
  set (st1 := set_q toys st). rewrite is_ok_bind.
  pose proof (toy_sample_s_t_is_ok (batch_size (config st)) (num_mcmc_steps (config st))
                (init_type (config st)) true st1) as Hacc.
  destruct (sample_s_t _ _ _ true st1) as [[[x_s_t r_s_t] st2]|e] eqn:Hs;
    simpl in Hacc; rewrite <-Hacc; [|done]. simpl.
  assert (config st2 = config st ∧ d_s_t_record st2 = d_s_t_record st
          ∧ r_s_t_record st2 = r_s_t_record st) as (Hc2 & Hd2 & Hr2).
  { split_and!;
      match goal with
      | |- ?p st2 = ?p st =>
          by rewrite (toy_sample_s_t_preserves p (λ _ _, eq_refl) (λ _ _, eq_refl)
                        _ _ _ _ (λ _ _ _, eq_refl) _ _ _ Hs)
      end. }
  do 3 (rewrite is_ok_bind; simpl).
  rewrite <-(py_loss_is_ok (epsilon (config st)) x_q x_s_t).
  destruct (py_loss _ _ _) as [d_s_t|e]; simpl; [|done].
  do 3 (rewrite is_ok_bind; simpl).
  rewrite Hd2, (toy_setitem_ok _ _ _ Hd). simpl.
  rewrite is_ok_bind. simpl. rewrite Hr2, (toy_setitem_ok _ _ _ Hr). simpl.
  do 3 (rewrite is_ok_bind; simpl).
  match goal with |- context [_ (set_f_optim ?fo ?s)] => set (st3 := set_f_optim fo s) end.
  assert (config st3 = config st) as Hc3 by exact Hc2.
  unfold logging_returns, toy_viz_returns.
  pose proof (toy_sample_s_t_is_ok (batch_size_kde (config st)) (num_mcmc_steps (config st))
                (init_type (config st)) false st3) as Hlong.
  clearbody st3.
  assert (is_ok ((due ← lift (divides (log_viz_freq (config st)) (i + 1));
                  if due : bool
                  then sample_s_t (batch_size_kde (config st)) (num_mcmc_steps (config st))
                         (init_type (config st)) false ;; mret ()
                  else mret ()) st3)
          = negb (log_viz_freq (config st) =? 0)
            && (negb ((i + 1) mod log_viz_freq (config st) =? 0)
                || sampler_accepts (init_type (config st))
                     [batch_size_kde (config st); 2; 1; 1])) as Hrest.
  { rewrite is_ok_bind. unfold lift, divides.
    destruct (log_viz_freq (config st) =? 0); [done|]. simpl.
    destruct ((i + 1) mod log_viz_freq (config st) =? 0); [|done]. simpl.
    rewrite is_ok_bind, <-Hlong.
    by destruct (sample_s_t _ _ _ false st3) as [[? ?]|]. }
  destruct (i + 1 =? 1); simpl; [exact Hrest|].
  unfold lift, divides. destruct (log_info_freq (config st) =? 0); [done|]. simpl.
  exact Hrest.
Qed.

Lemma toy_training_returns_iff k i st :
  0 ≤ i →
  i + Z.of_nat k ≤ Z.of_nat (length (d_s_t_record st)) →
  i + Z.of_nat k ≤ Z.of_nat (length (r_s_t_record st)) →
  is_ok (for_range train_iter i k st)
  = forallb (toy_iteration_returns (config st)) (seqZ i (Z.of_nat k)).
Proof.
  revert i st. induction k as [|k IH]; intros i st Hi Hd Hr; [done|].
  rewrite seqZ_cons by lia. simpl.
  rewrite <-(toy_train_iter_returns_iff i st) by lia. rewrite is_ok_bind.
  destruct (train_iter i st) as [[[] st1]|e] eqn:Hiter; [|done]. simpl.
  destruct (toy_train_iter_records _ _ _ _ Hiter) as (d & r & _ & _ & Hd1 & Hr1).
  rewrite <-(toy_train_iter_preserves_config _ _ _ _ Hiter).
  replace (Z.pred (Z.of_nat (S k))) with (Z.of_nat k) by lia.
  apply IH; [lia|rewrite Hd1, length_insert; lia|rewrite Hr1, length_insert; lia].
Qed.

Lemma toy_setup_state cfg toys g0 st :
  setup cfg toys g0 = Ok st →
  q st = toys
  ∧ has_shape [Z.to_nat (s_t_0_size cfg); 2; 1; 1]%nat 4 (s_t_0 st)
  ∧ d_s_t_record st = replicate (Z.to_nat (num_train_iters cfg)) szero
  ∧ r_s_t_record st = replicate (Z.to_nat (num_train_iters cfg)) szero
  ∧ 0 ≤ num_train_iters cfg ∧ 0 ≤ s_t_0_size cfg.
Proof.
  unfold setup. destruct (net_bank _) as [make_net|]; [|done].
  destruct (make_net _) as [e g].
  destruct (py_prescale _ _ _ _) as [rates|]; [|done]. unfold make_optim. simpl.
  destruct (optim_bank _); [|done]. unfold torch_rand.
  destruct (Z.ltb_spec (s_t_0_size cfg) 0); [done|]. simpl.
  pose proof (rand_shape (Z.to_nat (s_t_0_size cfg)) 2 1 1 g) as Hsh.
  destruct (rand _ _ _ _ _) as [u g']. unfold torch_zeros.
  destruct (Z.ltb_spec (num_train_iters cfg) 0); [done|].
  intros [= <-]. simpl. split_and!; try done.
  apply (same_shape_has_shape _ 4 u); [exact Hsh|apply tmap_same_shape].
Qed.

Lemma toy_setup_is_ok cfg toys g0 :
  is_ok (setup cfg toys g0)
  = String.eqb (net_type cfg) "toy"
    && prescale_returns (optimizer_type cfg) (epsilon cfg)
    && (String.eqb (optimizer_type cfg) "adam" || String.eqb (optimizer_type cfg) "sgd")
    && (0 <=? s_t_0_size cfg) && (0 <=? num_train_iters cfg).
Proof.
  rewrite <-(py_prescale_is_ok _ _ (lr_init cfg) (lr_min cfg)).
  unfold setup, net_bank.
  destruct (String.eqb (net_type cfg) "toy"); simpl; [destruct (ToyNet _)|done].
  destruct (py_prescale _ _ _ _) as [rates|]; simpl; [|done].
  unfold make_optim, optim_bank, torch_rand, torch_zeros; simpl. rewrite !Z.ltb_antisym.
  (destruct (String.eqb (optimizer_type cfg) "adam"); simpl;
     [|destruct (String.eqb (optimizer_type cfg) "sgd"); simpl; [|done]]);
    (destruct (0 <=? s_t_0_size cfg); simpl; [|done]);
    destruct (rand _ _ _ _ _); by destruct (0 <=? num_train_iters cfg).
Qed.

Lemma toy_main_is_ok cfg toys g0 :
  is_ok (main cfg toys g0)
  = is_ok (setup cfg toys g0)
    && forallb (toy_iteration_returns cfg) (seqZ 0 (num_train_iters cfg)).
Proof.
  unfold main. destruct (setup cfg toys g0) as [st|e] eqn:Hsetup; [|done]. simpl.
  destruct (toy_setup_state _ _ _ _ Hsetup) as (_ & _ & Hd & Hr & Hn & _).
  apply toy_setup_inv in Hsetup as [Hcfg _]. unfold training.
  rewrite toy_training_returns_iff;
    rewrite ?Hd, ?Hr, ?length_replicate, ?Hcfg; simpl; try lia.
  by rewrite Z2Nat.id.
Qed.
End toy_loop_returns.

(** * Invariants of the training loops *)

Section loop_invariants.
Context {R : Type} `{!Scalar R, !Torch R, !Nets R}.

Lemma for_range_invariant {S} (P : S → Prop) (body : Z → M S unit) k i (s : S) u s' :
  (∀ j t v t', body j t = Ok (v, t') → P t → P t') →
  for_range body i k s = Ok (u, s') → P s → P s'.
Proof.
  intros Hbody. revert i s. induction k as [|k IH]; intros i s Hrun HP.
  - by injection Hrun as _ <-.
  - apply bind_ok in Hrun as (v & s1 & Hiter & Hrun). eauto.
Qed.

Lemma for_range_records {S} (d : S → list R) (body : Z → M S unit) k i (s : S) u s' :
  (∀ j t v t', body j t = Ok (v, t') → ∃ w, d t' = <[Z.to_nat j := w]> (d t)) →
  0 ≤ i →
  for_range body i k s = Ok (u, s') →
  length (d s') = length (d s)
  ∧ ∀ j, (j < Z.to_nat i ∨ Z.to_nat i + k ≤ j)%nat → d s' !! j = d s !! j.
Proof.
  intros Hbody. revert i s. induction k as [|k IH]; intros i s Hi Hrun.
  - by injection Hrun as _ <-.
  - apply bind_ok in Hrun as (v & s1 & Hiter & Hrun).
    destruct (Hbody _ _ _ _ Hiter) as [w Hw].
    destruct (IH (i + 1) s1 ltac:(lia) Hrun) as [Hlen Hrest].
    split; [by rewrite Hlen, Hw, length_insert|].
    intros j Hj. rewrite Hrest by lia. rewrite Hw.
    apply list_lookup_insert_ne. lia.
Qed.

Lemma langevin_step_forget (e : net) eps x r r' g :
  (langevin_step e eps (x, r, g)).1.1 = (langevin_step e eps (x, r', g)).1.1
  ∧ (langevin_step e eps (x, r, g)).2 = (langevin_step e eps (x, r', g)).2.
Proof. unfold langevin_step. by destruct (randn_like x g). Qed.

Lemma langevin_iter_forget (e : net) eps n x r r' g :
  (Nat.iter n (langevin_step e eps) (x, r, g)).1.1
  = (Nat.iter n (langevin_step e eps) (x, r', g)).1.1
  ∧ (Nat.iter n (langevin_step e eps) (x, r, g)).2
    = (Nat.iter n (langevin_step e eps) (x, r', g)).2.
Proof.
  induction n as [|n [IHx IHg]]; [done|]. rewrite !Nat.iter_succ.
  destruct (Nat.iter n _ (x, r, g)) as [[x1 r1] g1].
  destruct (Nat.iter n _ (x, r', g)) as [[x2 r2] g2]. simpl in *. subst.
  apply langevin_step_forget.
Qed.

Lemma langevin_nonpositive (e : net) eps L x0 g :
  L ≤ 0 → langevin e eps L x0 g = (x0, szero, g).
Proof. intros HL. unfold langevin. by replace (Z.to_nat L) with O by lia. Qed.
End loop_invariants.

Section data_loop_invariants.
Context {R : Type} `{!Scalar R, !Torch R, !Nets R}.
Import TrainData.
Implicit Types (st : Globals).

Lemma train_iter_keeps_dataset i : preserves q (train_iter i).
Proof.
  unfold train_iter.
  repeat first [apply (sample_q_preserves q (λ _ _, eq_refl))
               | apply (sample_s_t_preserves q (λ _ _, eq_refl)); done
               | preserves_step].
Qed.

Lemma train_iter_bank_untouched i st u st' :
  shortrun_init (config st) ≠ "persistent" →
  train_iter i st = Ok (u, st') → s_t_0 st' = s_t_0 st.
Proof.
  intros Hne%String.eqb_neq
    (x_q & st1 & x_s_t & r_s_t & st2 & d' & r' & Hq & Hs & _ & _ & Hend)%train_iter_inv.
  assert (s_t_0 st2 = s_t_0 st) as Hb2.
  { rewrite (sample_s_t_preserves s_t_0 (λ _ _, eq_refl) _ _ _
               ltac:(by rewrite Hne) _ _ _ Hs).
    apply (sample_q_preserves s_t_0 (λ _ _, eq_refl) _ _ _ Hq). }
  destruct Hend as [-> | [a Hlong]]; [done|].
  rewrite (sample_s_t_preserves s_t_0 (λ _ _, eq_refl) _ _ _
             ltac:(by rewrite andb_false_r) _ _ _ Hlong).
  exact Hb2.
Qed.

Lemma train_iter_optimizer_step i st u st' :
  train_iter i st = Ok (u, st') →
  ∃ x_q st1 x_s_t r_s_t st2,
    sample_q st = Ok (x_q, st1)
    ∧ sample_s_t (num_shortrun_steps (config st)) (shortrun_init (config st)) true st1
      = Ok ((x_s_t, r_s_t), st2)
    ∧ let step := optim_step (kind (optim st)) (lr <$> param_groups (optim st))
                    (state (optim st)) (loss (epsilon (config st)) x_q x_s_t) (f st) in
      f st' = step.1 ∧ state (optim st') = step.2 ∧ kind (optim st') = kind (optim st).
Proof.
  intros (x_q & st1 & x_s_t & r_s_t & st2 & d' & r' & Hq & Hs & _ & _ & Hend)
    %train_iter_inv.
  exists x_q, st1, x_s_t, r_s_t, st2. split_and!; [done|done|].
  assert (f st2 = f st ∧ optim st2 = optim st) as [Hf Ho].
  { split;
      match goal with
      | |- ?p st2 = ?p st =>
          rewrite (sample_s_t_preserves p (λ _ _, eq_refl) _ _ _ (λ _ _ _, eq_refl)
                     _ _ _ Hs);
          apply (sample_q_preserves p (λ _ _, eq_refl) _ _ _ Hq)
      end. }
  rewrite Hf, Ho in Hend. unfold backward_step in Hend.
  destruct (optim_step _ _ _ _ _) as [e s] eqn:Estep. simpl in *.
  destruct Hend as [-> | [a Hlong]]; [done|].
  rewrite (sample_s_t_preserves f (λ _ _, eq_refl) _ _ _ (λ _ _ _, eq_refl) _ _ _ Hlong),
          (sample_s_t_preserves optim (λ _ _, eq_refl) _ _ _ (λ _ _ _, eq_refl) _ _ _ Hlong).
  done.
Qed.

Context `{!TorchSpec R}.

Lemma train_iter_bank_shape i st u st' d sh :
  train_iter i st = Ok (u, st') →
  has_shape (d :: sh) 4 (s_t_0 st) → has_shape (d :: sh) 4 (s_t_0 st').
Proof.
  intros (x_q & st1 & x_s_t & r_s_t & st2 & d' & r' & Hq & Hs & _ & _ & Hend)
    %train_iter_inv Hbank.
  rewrite <-(sample_q_preserves s_t_0 (λ _ _, eq_refl) _ _ _ Hq) in Hbank.
  pose proof (sample_s_t_bank_shape _ _ _ _ _ _ _ _ Hs Hbank) as Hb2.
  destruct Hend as [-> | [a Hlong]]; [done|].
  by apply (sample_s_t_bank_shape _ _ _ _ _ _ _ _ Hlong).
Qed.
End data_loop_invariants.

Section toy_loop_invariants.
Context {R : Type} `{!Scalar R, !Torch R, !Nets R}.
Import TrainToy.
Implicit Types (st : Globals).

Lemma toy_train_iter_bank_untouched i st u st' :
  init_type (config st) ≠ "persistent" →
  train_iter i st = Ok (u, st') → s_t_0 st' = s_t_0 st.
Proof.
  intros Hne%String.eqb_neq
    (x_q & st1 & x_s_t & r_s_t & st2 & d' & r' & Hq & Hs & _ & _ & Hend)
    %toy_train_iter_inv.
  assert (s_t_0 st2 = s_t_0 st) as Hb2.
  { rewrite (toy_sample_s_t_preserves s_t_0 (λ _ _, eq_refl) (λ _ _, eq_refl) _ _ _ _
               ltac:(by rewrite Hne) _ _ _ Hs).
    apply (toy_sample_q_preserves s_t_0 (λ _ _, eq_refl) _ _ _ _ Hq). }
  destruct Hend as [-> | [a Hlong]]; [done|].
  rewrite (toy_sample_s_t_preserves s_t_0 (λ _ _, eq_refl) (λ _ _, eq_refl) _ _ _ _
             ltac:(by rewrite andb_false_r) _ _ _ Hlong).
  exact Hb2.
Qed.

Lemma toy_train_iter_optimizer_step i st u st' :
  train_iter i st = Ok (u, st') →
  ∃ x_q st1 x_s_t r_s_t st2,
    sample_q (batch_size (config st)) st = Ok (x_q, st1)
    ∧ sample_s_t (batch_size (config st)) (num_mcmc_steps (config st))
        (init_type (config st)) true st1 = Ok ((x_s_t, r_s_t), st2)
    ∧ let step := optim_step (kind (optim st)) (lr <$> param_groups (optim st))
                    (state (optim st)) (loss (epsilon (config st)) x_q x_s_t) (f st) in
      f st' = step.1 ∧ state (optim st') = step.2 ∧ kind (optim st') = kind (optim st).
Proof.
  intros (x_q & st1 & x_s_t & r_s_t & st2 & d' & r' & Hq & Hs & _ & _ & Hend)
    %toy_train_iter_inv.
  exists x_q, st1, x_s_t, r_s_t, st2. split_and!; [done|done|].
  assert (f st2 = f st ∧ optim st2 = optim st) as [Hf Ho].
  { split;
      match goal with
      | |- ?p st2 = ?p st =>
          rewrite (toy_sample_s_t_preserves p (λ _ _, eq_refl) (λ _ _, eq_refl) _ _ _ _
                     (λ _ _ _, eq_refl) _ _ _ Hs);
          apply (toy_sample_q_preserves p (λ _ _, eq_refl) _ _ _ _ Hq)
      end. }
  rewrite Hf, Ho in Hend. unfold backward_step in Hend.
  destruct (optim_step _ _ _ _ _) as [e s] eqn:Estep. simpl in *.
  destruct Hend as [-> | [a Hlong]]; [done|].
  rewrite (toy_sample_s_t_preserves f (λ _ _, eq_refl) (λ _ _, eq_refl) _ _ _ _
             (λ _ _ _, eq_refl) _ _ _ Hlong),
          (toy_sample_s_t_preserves optim (λ _ _, eq_refl) (λ _ _, eq_refl) _ _ _ _
             (λ _ _ _, eq_refl) _ _ _ Hlong).
  done.
Qed.

Context `{!TorchSpec R}.

Lemma toy_train_iter_bank_shape i st u st' d sh :
  train_iter i st = Ok (u, st') →
  has_shape (d :: sh) 4 (s_t_0 st) → has_shape (d :: sh) 4 (s_t_0 st').
Proof.
  intros (x_q & st1 & x_s_t & r_s_t & st2 & d' & r' & Hq & Hs & _ & _ & Hend)
    %toy_train_iter_inv Hbank.
  rewrite <-(toy_sample_q_preserves s_t_0 (λ _ _, eq_refl) _ _ _ _ Hq) in Hbank.
  pose proof (toy_sample_s_t_bank_shape _ _ _ _ _ _ _ _ _ Hs Hbank) as Hb2.
  destruct Hend as [-> | [a Hlong]]; [done|].
  by apply (toy_sample_s_t_bank_shape _ _ _ _ _ _ _ _ _ Hlong).
Qed.
End toy_loop_invariants.

(** * Further properties of the training loops, both scripts *)

Section loop_extras.
Context {R : Type} `{!Scalar R, !Torch R, !Nets R}.

(** X7.  A training iteration that returns has an index within the two
    records, writes the entries of the records at that index and leaves
    every other entry and the lengths of the records as they were.  Both
    scripts. *)
Theorem iteration_writes_its_own_entries :
  (∀ i (st : TrainData.Globals) u st',
     TrainData.train_iter i st = Ok (u, st') →
     0 ≤ i < Z.of_nat (length (TrainData.d_s_t_record st))
     ∧ length (TrainData.d_s_t_record st') = length (TrainData.d_s_t_record st)
     ∧ length (TrainData.r_s_t_record st') = length (TrainData.r_s_t_record st)
     ∧ ∀ j, j ≠ Z.to_nat i →
         TrainData.d_s_t_record st' !! j = TrainData.d_s_t_record st !! j
         ∧ TrainData.r_s_t_record st' !! j = TrainData.r_s_t_record st !! j)
  ∧ (∀ i (st : TrainToy.Globals) u st',
     TrainToy.train_iter i st = Ok (u, st') →
     0 ≤ i < Z.of_nat (length (TrainToy.d_s_t_record st))
     ∧ length (TrainToy.d_s_t_record st') = length (TrainToy.d_s_t_record st)
     ∧ length (TrainToy.r_s_t_record st') = length (TrainToy.r_s_t_record st)
     ∧ ∀ j, j ≠ Z.to_nat i →
         TrainToy.d_s_t_record st' !! j = TrainToy.d_s_t_record st !! j
         ∧ TrainToy.r_s_t_record st' !! j = TrainToy.r_s_t_record st !! j).
Proof.
  split; intros i st u st' Hrun.
  - destruct (train_iter_records _ _ _ _ Hrun) as (d & r & Hd & Hr & -> & ->).
    rewrite !length_insert. split_and!; try done; try lia.
    intros j Hj. by rewrite !list_lookup_insert_ne.
  - destruct (toy_train_iter_records _ _ _ _ Hrun) as (d & r & Hd & Hr & -> & ->).
    rewrite !length_insert. split_and!; try done; try lia.
    intros j Hj. by rewrite !list_lookup_insert_ne.
Qed.

(** X8.  Each training iteration that returns has taken exactly one step of
    the optimizer: on the loss of the two samples of this iteration, from
    the network and the optimizer state as the iteration found them, and
    with the learning rates as they were before the annealing of this
    iteration.  Neither the annealing nor the long-run sampling changes the
    network or the kind and state of the optimizer afterwards.  Both
    scripts. *)
Theorem iteration_takes_one_optimizer_step :
  (∀ i (st : TrainData.Globals) u st',
     TrainData.train_iter i st = Ok (u, st') →
     let cfg := TrainData.config st in
     let o := TrainData.optim st in
     ∃ x_q st1 x_s_t r_s_t st2,
       TrainData.sample_q st = Ok (x_q, st1)
       ∧ TrainData.sample_s_t (TrainData.num_shortrun_steps cfg)
           (TrainData.shortrun_init cfg) true st1 = Ok ((x_s_t, r_s_t), st2)
       ∧ let step := optim_step (kind o) (lr <$> param_groups o) (state o)
                       (loss (TrainData.epsilon cfg) x_q x_s_t) (TrainData.f st) in
         TrainData.f st' = step.1
         ∧ state (TrainData.optim st') = step.2
         ∧ kind (TrainData.optim st') = kind o)
  ∧ (∀ i (st : TrainToy.Globals) u st',
     TrainToy.train_iter i st = Ok (u, st') →
     let cfg := TrainToy.config st in
     let o := TrainToy.optim st in
     ∃ x_q st1 x_s_t r_s_t st2,
       TrainToy.sample_q (TrainToy.batch_size cfg) st = Ok (x_q, st1)
       ∧ TrainToy.sample_s_t (TrainToy.batch_size cfg) (TrainToy.num_mcmc_steps cfg)
           (TrainToy.init_type cfg) true st1 = Ok ((x_s_t, r_s_t), st2)
       ∧ let step := optim_step (kind o) (lr <$> param_groups o) (state o)
                       (loss (TrainToy.epsilon cfg) x_q x_s_t) (TrainToy.f st) in
         TrainToy.f st' = step.1
         ∧ state (TrainToy.optim st') = step.2
         ∧ kind (TrainToy.optim st') = kind o).
Proof.
  split; intros i st u st' Hrun cfg o.
  - exact (train_iter_optimizer_step _ _ _ _ Hrun).
  - exact (toy_train_iter_optimizer_step _ _ _ _ Hrun).
Qed.

(** X9.  A stretch of [k] training iterations from the index [i] writes
    the records at the indices [i .. i + k - 1] only: the entries that
    earlier iterations recorded, and the entries of the iterations still
    to come, are as before, and the records keep their lengths.  Both
    scripts. *)
Theorem training_keeps_the_other_entries :
  (∀ k i (st : TrainData.Globals) u st',
     0 ≤ i →
     for_range TrainData.train_iter i k st = Ok (u, st') →
     length (TrainData.d_s_t_record st') = length (TrainData.d_s_t_record st)
     ∧ length (TrainData.r_s_t_record st') = length (TrainData.r_s_t_record st)
     ∧ ∀ j, (j < Z.to_nat i ∨ Z.to_nat i + k ≤ j)%nat →
         TrainData.d_s_t_record st' !! j = TrainData.d_s_t_record st !! j
         ∧ TrainData.r_s_t_record st' !! j = TrainData.r_s_t_record st !! j)
  ∧ (∀ k i (st : TrainToy.Globals) u st',
     0 ≤ i →
     for_range TrainToy.train_iter i k st = Ok (u, st') →
     length (TrainToy.d_s_t_record st') = length (TrainToy.d_s_t_record st)
     ∧ length (TrainToy.r_s_t_record st') = length (TrainToy.r_s_t_record st)
     ∧ ∀ j, (j < Z.to_nat i ∨ Z.to_nat i + k ≤ j)%nat →
         TrainToy.d_s_t_record st' !! j = TrainToy.d_s_t_record st !! j
         ∧ TrainToy.r_s_t_record st' !! j = TrainToy.r_s_t_record st !! j).
Proof.
  split; intros k i st u st' Hi Hrun.
  - destruct (for_range_records TrainData.d_s_t_record _ _ _ _ _ _
                ltac:(intros j t v t' (d & r & _ & _ & Hd & _)%train_iter_records; eauto)
                Hi Hrun) as [Hdl Hd].
    destruct (for_range_records TrainData.r_s_t_record _ _ _ _ _ _
                ltac:(intros j t v t' (d & r & _ & _ & _ & Hr)%train_iter_records; eauto)
                Hi Hrun) as [Hrl Hr].
    split_and!; auto.
  - destruct (for_range_records TrainToy.d_s_t_record _ _ _ _ _ _
                ltac:(intros j t v t' (d & r & _ & _ & Hd & _)%toy_train_iter_records;
                      eauto)
                Hi Hrun) as [Hdl Hd].
    destruct (for_range_records TrainToy.r_s_t_record _ _ _ _ _ _
                ltac:(intros j t v t' (d & r & _ & _ & _ & Hr)%toy_train_iter_records;
                      eauto)
                Hi Hrun) as [Hrl Hr].
    split_and!; auto.
Qed.
End loop_extras.

Section setup_errors.
Context {R : Type} `{!Scalar R, !Torch R, !Nets R}.

Lemma optim_bank_known ot :
  ot = "adam" ∨ ot = "sgd" → ∃ k, optim_bank ot = Some k.
Proof. intros [-> | ->]; by eexists. Qed.

Lemma optim_bank_unknown ot : ot ≠ "adam" → ot ≠ "sgd" → optim_bank ot = None.
Proof.
  intros H1%String.eqb_neq H2%String.eqb_neq. unfold optim_bank. by rewrite H1, H2.
Qed.

Lemma main_inv cfg data g0 u st' :
  TrainData.main cfg data g0 = Ok (u, st') →
  ∃ st0, TrainData.setup cfg data g0 = Ok st0
         ∧ for_range TrainData.train_iter 0 (Z.to_nat (TrainData.num_train_iters cfg)) st0
           = Ok (u, st').
Proof.
  unfold TrainData.main, TrainData.training.
  destruct (TrainData.setup cfg data g0) as [st0|] eqn:Hsetup; [|done].
  intros Hrun. exists st0. split; [done|].
  apply setup_inv in Hsetup as [Hcfg _]. by rewrite Hcfg in Hrun.
Qed.

Lemma toy_main_inv cfg toys g0 u st' :
  TrainToy.main cfg toys g0 = Ok (u, st') →
  ∃ st0, TrainToy.setup cfg toys g0 = Ok st0
         ∧ for_range TrainToy.train_iter 0 (Z.to_nat (TrainToy.num_train_iters cfg)) st0
           = Ok (u, st').
Proof.
  unfold TrainToy.main, TrainToy.training.
  destruct (TrainToy.setup cfg toys g0) as [st0|] eqn:Hsetup; [|done].
  intros Hrun. exists st0. split; [done|].
  apply toy_setup_inv in Hsetup as [Hcfg _]. by rewrite Hcfg in Hrun.
Qed.

(** X10.  The setup raises a key error naming the offending value when the
    network type is not in [net_bank], and, the network type being known,
    when the optimizer type is not in [optim_bank]; with the optimizer
    type 'sgd' and a positive [epsilon] whose square is out of the range
    of the floats it raises OverflowError at the rescaling of the rates;
    with both types known and the rescaling done it raises when the
    number of training iterations (for train_toy.py, also the size of the
    bank) is negative, instead of running no iteration.  The lookup of
    the network comes first: an unknown network type is reported whatever
    the optimizer type.  Both scripts. *)
Theorem setup_refuses_unknown_keys :
  (∀ cfg data (g0 : rng),
     let nt := TrainData.net_type cfg in
     let ot := TrainData.optimizer_type cfg in
     let eps := TrainData.epsilon cfg in
     (nt ≠ "vanilla" → nt ≠ "nonlocal" →
      TrainData.setup cfg data g0 = Raise (KeyError nt))
     ∧ (nt = "vanilla" ∨ nt = "nonlocal" → ot ≠ "adam" → ot ≠ "sgd" →
        TrainData.setup cfg data g0 = Raise (KeyError ot))
     ∧ (nt = "vanilla" ∨ nt = "nonlocal" → ot = "sgd" →
        sgtb eps (sofZ 0) = true → spow_overflows eps 2 = true →
        TrainData.setup cfg data g0 = Raise OverflowError)
     ∧ (nt = "vanilla" ∨ nt = "nonlocal" → ot = "adam" ∨ ot = "sgd" →
        prescale_returns ot eps = true →
        TrainData.num_train_iters cfg < 0 →
        TrainData.setup cfg data g0 = Raise ShapeError))
  ∧ (∀ cfg toys (g0 : rng),
     let nt := TrainToy.net_type cfg in
     let ot := TrainToy.optimizer_type cfg in
     let eps := TrainToy.epsilon cfg in
     (nt ≠ "toy" → TrainToy.setup cfg toys g0 = Raise (KeyError nt))
     ∧ (nt = "toy" → ot ≠ "adam" → ot ≠ "sgd" →
        TrainToy.setup cfg toys g0 = Raise (KeyError ot))
     ∧ (nt = "toy" → ot = "sgd" →
        sgtb eps (sofZ 0) = true → spow_overflows eps 2 = true →
        TrainToy.setup cfg toys g0 = Raise OverflowError)
     ∧ (nt = "toy" → ot = "adam" ∨ ot = "sgd" →
        prescale_returns ot eps = true →
        TrainToy.s_t_0_size cfg < 0 ∨ TrainToy.num_train_iters cfg < 0 →
        TrainToy.setup cfg toys g0 = Raise ShapeError)).
Proof.
  split.
  - intros cfg data g0 nt ot eps. subst nt ot eps. split_and!.
    + intros H1%String.eqb_neq H2%String.eqb_neq.
      unfold TrainData.setup, TrainData.net_bank. by rewrite H1, H2.
    + intros Hnet Ho1 Ho2. pose proof (optim_bank_unknown _ Ho1 Ho2) as Hob.
      pose proof (py_prescale_other _ (TrainData.epsilon cfg) (TrainData.lr_init cfg)
                    (TrainData.lr_min cfg) Ho2) as Hps.
      unfold TrainData.setup, TrainData.net_bank, make_optim.
      destruct Hnet as [-> | ->]; simpl;
        [destruct (VanillaNet _ _)|destruct (NonlocalNet _ _)];
        rewrite Hps; simpl; by rewrite Hob.
    + intros Hnet Ho Heps Hover.
      pose proof (py_prescale_overflow _ (TrainData.lr_init cfg) (TrainData.lr_min cfg)
                    Heps Hover) as Hps.
      unfold TrainData.setup, TrainData.net_bank. rewrite Ho.
      destruct Hnet as [-> | ->]; simpl;
        [destruct (VanillaNet _ _)|destruct (NonlocalNet _ _)]; by rewrite Hps.
    + intros Hnet [k Hk]%optim_bank_known Hret Hn.
      pose proof (py_prescale_returns _ _ (TrainData.lr_init cfg) (TrainData.lr_min cfg)
                    Hret) as Hps.
      unfold TrainData.setup, TrainData.net_bank, make_optim, torch_zeros.
      destruct Hnet as [-> | ->]; simpl;
        [destruct (VanillaNet _ _)|destruct (NonlocalNet _ _)];
        rewrite Hps; simpl; rewrite Hk;
        destruct (rand_like _ _); by rewrite (proj2 (Z.ltb_lt _ 0) Hn).
  - intros cfg toys g0 nt ot eps. subst nt ot eps. split_and!.
    + intros H1%String.eqb_neq. unfold TrainToy.setup, TrainToy.net_bank. by rewrite H1.
    + intros Hnet Ho1 Ho2. pose proof (optim_bank_unknown _ Ho1 Ho2) as Hob.
      pose proof (py_prescale_other _ (TrainToy.epsilon cfg) (TrainToy.lr_init cfg)
                    (TrainToy.lr_min cfg) Ho2) as Hps.
      unfold TrainToy.setup, TrainToy.net_bank, make_optim. rewrite Hnet. simpl.
      destruct (ToyNet _). rewrite Hps. simpl. by rewrite Hob.
    + intros Hnet Ho Heps Hover.
      pose proof (py_prescale_overflow _ (TrainToy.lr_init cfg) (TrainToy.lr_min cfg)
                    Heps Hover) as Hps.
      unfold TrainToy.setup, TrainToy.net_bank. rewrite Ho, Hnet. simpl.
      destruct (ToyNet _). by rewrite Hps.
    + intros Hnet [k Hk]%optim_bank_known Hret Hneg.
      pose proof (py_prescale_returns _ _ (TrainToy.lr_init cfg) (TrainToy.lr_min cfg)
                    Hret) as Hps.
      unfold TrainToy.setup, TrainToy.net_bank, make_optim, torch_rand, torch_zeros.
      rewrite Hnet. simpl. destruct (ToyNet _). rewrite Hps. simpl. rewrite Hk.
      destruct (Z.ltb_spec (TrainToy.s_t_0_size cfg) 0); [done|]. simpl.
      destruct (rand _ _ _ _ _).
      destruct Hneg as [Hs | Hn]; [lia|]. by rewrite (proj2 (Z.ltb_lt _ 0) Hn).
Qed.
End setup_errors.

(** * Whole runs *)

Section run_extras.
Context {R : Type} `{!Scalar R, !Torch R, !Nets R}.

Lemma forallb_false_at {A} (p : A → bool) (l : list A) x :
  x ∈ l → p x = false → forallb p l = false.
Proof.
  intros Hx Hp. destruct (forallb p l) eqn:E; [|done].
  rewrite forallb_forall in E. rewrite (E x) in Hp; [done|]. by apply list_elem_of_In.
Qed.

(** X11.  As long as the short-run initialization is not 'persistent', no
    stretch of training iterations writes the bank, whatever the long-run
    initialization is (train_toy.py has one initialization for both).
    Both scripts. *)
Theorem bank_untouched_without_persistent_chains :
  (∀ k i (st : TrainData.Globals) u st',
     TrainData.shortrun_init (TrainData.config st) ≠ "persistent" →
     for_range TrainData.train_iter i k st = Ok (u, st') →
     TrainData.s_t_0 st' = TrainData.s_t_0 st)
  ∧ (∀ k i (st : TrainToy.Globals) u st',
     TrainToy.init_type (TrainToy.config st) ≠ "persistent" →
     for_range TrainToy.train_iter i k st = Ok (u, st') →
     TrainToy.s_t_0 st' = TrainToy.s_t_0 st).
Proof.
  split; intros k i st u st' Hne Hrun.
  - assert (TrainData.config st' = TrainData.config st
            ∧ TrainData.s_t_0 st' = TrainData.s_t_0 st) as [_ Hb]; [|done].
    eapply (for_range_invariant
              (λ t, TrainData.config t = TrainData.config st
                    ∧ TrainData.s_t_0 t = TrainData.s_t_0 st)); [|exact Hrun|done].
    intros j t v t' Hiter [Hc Hb]. split.
    + by rewrite (train_iter_preserves_config _ _ _ _ Hiter).
    + rewrite <-Hb. eapply train_iter_bank_untouched; [|exact Hiter]. by rewrite Hc.
  - assert (TrainToy.config st' = TrainToy.config st
            ∧ TrainToy.s_t_0 st' = TrainToy.s_t_0 st) as [_ Hb]; [|done].
    eapply (for_range_invariant
              (λ t, TrainToy.config t = TrainToy.config st
                    ∧ TrainToy.s_t_0 t = TrainToy.s_t_0 st)); [|exact Hrun|done].
    intros j t v t' Hiter [Hc Hb]. split.
    + by rewrite (toy_train_iter_preserves_config _ _ _ _ Hiter).
    + rewrite <-Hb. eapply toy_train_iter_bank_untouched; [|exact Hiter]. by rewrite Hc.
Qed.

Context `{!TorchSpec R}.

(** X12.  An iteration whose index lies within the records returns exactly
    when the configuration lets it: the short-run initialization is
    accepted by the sampler; the factor [2 / (epsilon ** 2)] of the loss,
    computed when [epsilon > 0], neither overflows nor divides by zero;
    the logging frequency is not zero, unless the iteration is the first;
    and, when long-run sampling is switched on (in train_toy.py the
    plotting is never off), its frequency is not zero and its
    initialization is accepted whenever the iteration is due for it.  The
    variables play no part.  The calls on the network and the optimizer
    are taken to return, as the model has them, and the printing, plotting
    and saving are left out.  Both scripts. *)
Theorem iteration_returns_iff_configured :
  (∀ i (st : TrainData.Globals),
     0 ≤ i < Z.of_nat (length (TrainData.d_s_t_record st)) →
     0 ≤ i < Z.of_nat (length (TrainData.r_s_t_record st)) →
     is_ok (TrainData.train_iter i st) = data_iteration_returns (TrainData.config st) i)
  ∧ (∀ i (st : TrainToy.Globals),
     0 ≤ i < Z.of_nat (length (TrainToy.d_s_t_record st)) →
     0 ≤ i < Z.of_nat (length (TrainToy.r_s_t_record st)) →
     is_ok (TrainToy.train_iter i st) = toy_iteration_returns (TrainToy.config st) i).
Proof.
  split; intros i st Hd Hr;
    [by apply train_iter_returns_iff|by apply toy_train_iter_returns_iff].
Qed.

(** X13.  A whole run returns exactly when the network type and the
    optimizer type are known, the factor [(epsilon ** 2) / 2] of the
    rescaling, computed for 'sgd' and [epsilon > 0], does not overflow,
    the number of iterations (and for train_toy.py the size of the bank)
    is not negative, and every iteration from 0 to the last is let through
    by the configuration; the dataset, the seed and the draws play no
    part.  The run starts at the seeding, with the dataset loaded; the
    calls on the network and the optimizer are taken to return, and the
    printing, plotting and saving are left out.  Both scripts. *)
Theorem run_returns_iff_configured :
  (∀ cfg data (g0 : rng),
     let nt := TrainData.net_type cfg in
     let ot := TrainData.optimizer_type cfg in
     is_ok (TrainData.main cfg data g0)
     = (String.eqb nt "vanilla" || String.eqb nt "nonlocal")
       && prescale_returns ot (TrainData.epsilon cfg)
       && (String.eqb ot "adam" || String.eqb ot "sgd")
       && (0 <=? TrainData.num_train_iters cfg)
       && forallb (data_iteration_returns cfg) (seqZ 0 (TrainData.num_train_iters cfg)))
  ∧ (∀ cfg toys (g0 : rng),
     let ot := TrainToy.optimizer_type cfg in
     is_ok (TrainToy.main cfg toys g0)
     = String.eqb (TrainToy.net_type cfg) "toy"
       && prescale_returns ot (TrainToy.epsilon cfg)
       && (String.eqb ot "adam" || String.eqb ot "sgd")
       && (0 <=? TrainToy.s_t_0_size cfg)
       && (0 <=? TrainToy.num_train_iters cfg)
       && forallb (toy_iteration_returns cfg) (seqZ 0 (TrainToy.num_train_iters cfg))).
Proof.
  split.
  - intros cfg data g0 nt ot. by rewrite main_is_ok, setup_is_ok.
  - intros cfg toys g0 ot. by rewrite toy_main_is_ok, toy_setup_is_ok.
Qed.

(** X14.  A logging frequency of zero lets the first iteration through,
    where [(i + 1) == 1] is tried first: the iteration returns exactly
    when its sampling, its loss and its long-run sampling do.  It lets no
    run of two iterations or more return, whose second iteration divides
    by it.  A zero frequency of the long-run sampling, when that is
    switched on (of the plotting, for train_toy.py), lets no run of one
    iteration or more return.  Both scripts. *)
Theorem zero_frequency_stops_the_run :
  ((∀ st : TrainData.Globals,
      let cfg := TrainData.config st in
      TrainData.log_freq cfg = 0 →
      (0 < length (TrainData.d_s_t_record st))%nat →
      (0 < length (TrainData.r_s_t_record st))%nat →
      is_ok (TrainData.train_iter 0 st)
      = sampler_accepts (TrainData.shortrun_init cfg)
          [TrainData.batch_size cfg; TrainData.im_ch cfg;
           TrainData.im_sz cfg; TrainData.im_sz cfg]
        && loss_returns (TrainData.epsilon cfg)
        && data_longrun_returns cfg 0)
   ∧ (∀ cfg data (g0 : rng),
      TrainData.log_freq cfg = 0 → 2 ≤ TrainData.num_train_iters cfg →
      is_ok (TrainData.main cfg data g0) = false)
   ∧ (∀ cfg data (g0 : rng),
      TrainData.log_longrun cfg = true → TrainData.log_longrun_freq cfg = 0 →
      1 ≤ TrainData.num_train_iters cfg →
      is_ok (TrainData.main cfg data g0) = false))
  ∧ ((∀ st : TrainToy.Globals,
      let cfg := TrainToy.config st in
      TrainToy.log_info_freq cfg = 0 →
      (0 < length (TrainToy.d_s_t_record st))%nat →
      (0 < length (TrainToy.r_s_t_record st))%nat →
      is_ok (TrainToy.train_iter 0 st)
      = sampler_accepts (TrainToy.init_type cfg) [TrainToy.batch_size cfg; 2; 1; 1]
        && loss_returns (TrainToy.epsilon cfg)
        && toy_viz_returns cfg 0)
   ∧ (∀ cfg toys (g0 : rng),
      TrainToy.log_info_freq cfg = 0 → 2 ≤ TrainToy.num_train_iters cfg →
      is_ok (TrainToy.main cfg toys g0) = false)
   ∧ (∀ cfg toys (g0 : rng),
      TrainToy.log_viz_freq cfg = 0 → 1 ≤ TrainToy.num_train_iters cfg →
      is_ok (TrainToy.main cfg toys g0) = false)).
Proof.
  split; split_and!.
  - intros st cfg Hf Hd Hr. rewrite train_iter_returns_iff by lia.
    unfold data_iteration_returns, logging_returns. simpl.
    by rewrite andb_true_r.
  - intros cfg data g0 Hf Hn. rewrite main_is_ok.
    rewrite (forallb_false_at _ _ 1); [apply andb_false_r|apply elem_of_seqZ; lia|].
    unfold data_iteration_returns, logging_returns. rewrite Hf. simpl.
    by rewrite andb_false_r.
  - intros cfg data g0 Hl Hf Hn. rewrite main_is_ok.
    rewrite (forallb_false_at _ _ 0); [apply andb_false_r|apply elem_of_seqZ; lia|].
    unfold data_iteration_returns, data_longrun_returns. rewrite Hl, Hf. simpl.
    by rewrite andb_false_r.
  - intros st cfg Hf Hd Hr. rewrite toy_train_iter_returns_iff by lia.
    unfold toy_iteration_returns, logging_returns. simpl.
    by rewrite andb_true_r.
  - intros cfg toys g0 Hf Hn. rewrite toy_main_is_ok.
    rewrite (forallb_false_at _ _ 1); [apply andb_false_r|apply elem_of_seqZ; lia|].
    unfold toy_iteration_returns, logging_returns. rewrite Hf. simpl.
    by rewrite andb_false_r.
  - intros cfg toys g0 Hf Hn. rewrite toy_main_is_ok.
    rewrite (forallb_false_at _ _ 0); [apply andb_false_r|apply elem_of_seqZ; lia|].
    unfold toy_iteration_returns, toy_viz_returns. rewrite Hf. simpl.
    by rewrite andb_false_r.
Qed.
End run_extras.

Section state_extras.
Context {R : Type} `{!Scalar R, !Torch R, !Nets R}.

(** X15.  Runs of the Langevin loop compose: [L1] steps followed by [L2]
    steps from the state and the generators they left reach the state and
    the generators of [L1 + L2] steps in one run.  A chain that is kept in
    the bank and taken up again is thus the same chain as one run without
    interruption. *)
Theorem langevin_steps_compose (e : net) (eps : R) (L1 L2 : Z) (x0 : batch R) (g0 : rng) :
  0 ≤ L1 → 0 ≤ L2 →
  let first := langevin e eps L1 x0 g0 in
  let second := langevin e eps L2 first.1.1 first.2 in
  (langevin e eps (L1 + L2) x0 g0).1.1 = second.1.1
  ∧ (langevin e eps (L1 + L2) x0 g0).2 = second.2.
Proof.
  intros H1 H2 first second. subst first second. unfold langevin.
  rewrite Z2Nat.inj_add by done.
  rewrite (Nat.add_comm (Z.to_nat L1)), Nat.iter_add.
  destruct (Nat.iter (Z.to_nat L1) _ _) as [[x1 r1] g1]. simpl.
  apply langevin_iter_forget.
Qed.

Context `{!TorchSpec R}.

(** X16.  What the setup leaves behind when it returns: the dataset as it
    was given; a bank of the shape of the dataset, one chain for each
    image (for train_toy.py, of the shape [s_t_0_size, 2, 1, 1]); and two
    records of [num_train_iters] zeros.  Both scripts. *)
Theorem setup_builds_bank_and_records :
  (∀ cfg data (g0 : rng) st,
     TrainData.setup cfg data g0 = Ok st →
     let n := Z.to_nat (TrainData.num_train_iters cfg) in
     TrainData.q st = data
     ∧ same_shape 4 data (TrainData.s_t_0 st)
     ∧ length (TrainData.s_t_0 st) = length data
     ∧ TrainData.d_s_t_record st = replicate n szero
     ∧ TrainData.r_s_t_record st = replicate n szero)
  ∧ (∀ cfg toys (g0 : rng) st,
     TrainToy.setup cfg toys g0 = Ok st →
     let n := Z.to_nat (TrainToy.num_train_iters cfg) in
     TrainToy.q st = toys
     ∧ has_shape [Z.to_nat (TrainToy.s_t_0_size cfg); 2; 1; 1]%nat 4 (TrainToy.s_t_0 st)
     ∧ TrainToy.d_s_t_record st = replicate n szero
     ∧ TrainToy.r_s_t_record st = replicate n szero).
Proof.
  split.
  - intros cfg data g0 st (Hq & Hsh & Hd & Hr & _)%setup_state n.
    split_and!; try done. symmetry. by apply same_shape_length in Hsh.
  - intros cfg toys g0 st (Hq & Hsh & Hd & Hr & _)%toy_setup_state n. done.
Qed.

(** X17.  What a run that returns leaves behind: the dataset is the one it
    was given (train_data.py), the two records have [num_train_iters]
    entries, and the bank has the shape it was set up with: that of the
    dataset, when the dataset is a tensor of some shape [d, c, h, w]
    (for train_toy.py, the shape [s_t_0_size, 2, 1, 1]).  Both scripts. *)
Theorem run_keeps_dataset_and_shapes :
  (∀ cfg data (g0 : rng) u st',
     TrainData.main cfg data g0 = Ok (u, st') →
     let n := Z.to_nat (TrainData.num_train_iters cfg) in
     TrainData.q st' = data
     ∧ length (TrainData.d_s_t_record st') = n
     ∧ length (TrainData.r_s_t_record st') = n
     ∧ ∀ d sh, has_shape (d :: sh) 4 data → has_shape (d :: sh) 4 (TrainData.s_t_0 st'))
  ∧ (∀ cfg toys (g0 : rng) u st',
     TrainToy.main cfg toys g0 = Ok (u, st') →
     let n := Z.to_nat (TrainToy.num_train_iters cfg) in
     length (TrainToy.d_s_t_record st') = n
     ∧ length (TrainToy.r_s_t_record st') = n
     ∧ has_shape [Z.to_nat (TrainToy.s_t_0_size cfg); 2; 1; 1]%nat 4 (TrainToy.s_t_0 st')).
Proof.
  split.
  - intros cfg data g0 u st' (st0 & Hsetup & Hrun)%main_inv n.
    destruct (setup_state _ _ _ _ Hsetup) as (Hq & Hsh & Hd & Hr & _).
    destruct (for_range_records TrainData.d_s_t_record _ _ _ _ _ _
                ltac:(intros j t v t' (d & r & _ & _ & Hd' & _)%train_iter_records; eauto)
                ltac:(done) Hrun) as [Hdl _].
    destruct (for_range_records TrainData.r_s_t_record _ _ _ _ _ _
                ltac:(intros j t v t' (d & r & _ & _ & _ & Hr')%train_iter_records; eauto)
                ltac:(done) Hrun) as [Hrl _].
    split_and!.
    + rewrite <-Hq. by apply (preserves_for_range TrainData.q _ _ _
                                train_iter_keeps_dataset _ _ _ Hrun).
    + by rewrite Hdl, Hd, length_replicate.
    + by rewrite Hrl, Hr, length_replicate.
    + intros d sh Hdata.
      eapply (for_range_invariant (λ t, has_shape (d :: sh) 4 (TrainData.s_t_0 t)));
        [|exact Hrun|by eapply same_shape_has_shape].
      intros j t v t' Hiter. by apply (train_iter_bank_shape _ _ _ _ _ _ Hiter).
  - intros cfg toys g0 u st' (st0 & Hsetup & Hrun)%toy_main_inv n.
    destruct (toy_setup_state _ _ _ _ Hsetup) as (Hq & Hsh & Hd & Hr & _).
    destruct (for_range_records TrainToy.d_s_t_record _ _ _ _ _ _
                ltac:(intros j t v t' (d & r & _ & _ & Hd' & _)%toy_train_iter_records;
                      eauto)
                ltac:(done) Hrun) as [Hdl _].
    destruct (for_range_records TrainToy.r_s_t_record _ _ _ _ _ _
                ltac:(intros j t v t' (d & r & _ & _ & _ & Hr')%toy_train_iter_records;
                      eauto)
                ltac:(done) Hrun) as [Hrl _].
    split_and!.
    + by rewrite Hdl, Hd, length_replicate.
    + by rewrite Hrl, Hr, length_replicate.
    + eapply (for_range_invariant
                (λ t, has_shape [Z.to_nat (TrainToy.s_t_0_size cfg); 2; 1; 1]%nat 4
                        (TrainToy.s_t_0 t))); [|exact Hrun|done].
      intros j t v t' Hiter. by apply (toy_train_iter_bank_shape _ _ _ _ _ _ Hiter).
Qed.

(** X18.  A step count that is negative runs the loop body no time, like
    zero: once the initialization has returned the state [x0], the call
    raises nothing, returns [x0] and the zero accumulator divided by [L],
    and leaves the variables as the initialization left them.  Both
    scripts. *)
Theorem negative_step_count_runs_no_step :
  (∀ L init upd (st : TrainData.Globals) x0 s_t_0_inds st0,
     L < 0 →
     TrainData.sample_s_t_0 init st = Ok ((x0, s_t_0_inds), st0) →
     TrainData.sample_s_t L init upd st = Ok ((x0, sdiv szero (sofZ L)), st0))
  ∧ (∀ bs L init upd (st : TrainToy.Globals) x0 s_t_0_inds st0,
     L < 0 →
     TrainToy.sample_s_t_0 bs init st = Ok ((x0, s_t_0_inds), st0) →
     TrainToy.sample_s_t bs L init upd st = Ok ((x0, sdiv szero (sofZ L)), st0)).
Proof.
  split.
  - intros L init upd st x0 s_t_0_inds st0 HL H0.
    assert (TrainData.set_generator (TrainData.generator st0) st0 = st0) as Hst0
      by by destruct st0.
    destruct (sample_s_t_after_init L init upd st x0 s_t_0_inds st0
                x0 szero (TrainData.generator st0) H0
                (langevin_nonpositive _ _ L _ _ (Z.lt_le_incl _ _ HL)))
      as (st' & Hrun & [-> | (inds & -> & Hrows & _ & ->)]).
    + by rewrite Hst0 in Hrun.
    + rewrite (scatter_same _ _ _ Hrows), Hst0 in Hrun.
      assert (TrainData.set_s_t_0 (TrainData.s_t_0 st0) st0 = st0) as Hb
        by by destruct st0.
      by rewrite Hb in Hrun.
  - intros bs L init upd st x0 s_t_0_inds st0 HL H0.
    assert (TrainToy.set_generator (TrainToy.generator st0) st0 = st0) as Hst0
      by by destruct st0.
    destruct (toy_sample_s_t_after_init bs L init upd st x0 s_t_0_inds st0
                x0 szero (TrainToy.generator st0) H0
                (langevin_nonpositive _ _ L _ _ (Z.lt_le_incl _ _ HL)))
      as (st' & Hrun & [-> | (inds & -> & Hrows & _ & ->)]).
    + by rewrite Hst0 in Hrun.
    + rewrite (scatter_same _ _ _ Hrows), Hst0 in Hrun.
      assert (TrainToy.set_s_t_0 (TrainToy.s_t_0 st0) st0 = st0) as Hb
        by by destruct st0.
      by rewrite Hb in Hrun.
Qed.
End state_extras.

Section update_flag.
Context {R : Type} `{!Scalar R, !Torch R, !Nets R}.
Context `{!TorchSpec R}.

(** X19.  The update flag decides nothing but the bank: a call that
    returns with the flag unset returns, with the flag set and all else
    equal, the same state and the same diagnostic, and leaves the same
    variables but for the bank.  Both scripts. *)
Theorem update_flag_changes_only_the_bank :
  (∀ L init (st : TrainData.Globals) a st1,
     TrainData.sample_s_t L init false st = Ok (a, st1) →
     ∃ bank, TrainData.sample_s_t L init true st = Ok (a, TrainData.set_s_t_0 bank st1))
  ∧ (∀ bs L init (st : TrainToy.Globals) a st1,
     TrainToy.sample_s_t bs L init false st = Ok (a, st1) →
     ∃ bank, TrainToy.sample_s_t bs L init true st = Ok (a, TrainToy.set_s_t_0 bank st1)).
Proof.
  split.
  - intros L init st a st1 Hoff. pose proof Hoff as Hoff'.
    unfold TrainData.sample_s_t in Hoff'.
    apply bind_ok in Hoff' as ([x0 inds] & st0 & H0 & _).
    destruct (langevin (TrainData.f st0) (TrainData.epsilon (TrainData.config st0))
                L x0 (TrainData.generator st0)) as [[x r] g] eqn:El.
    destruct (sample_s_t_after_init L init false st x0 inds st0 x r g H0 El)
      as (st1' & Hoff1 & Hst1).
    rewrite Hoff in Hoff1. injection Hoff1 as -> <-.
    assert (st1 = TrainData.set_generator g st0) as ->.
    { rewrite (sample_s_t_unfold _ _ _ _ _ _ _ H0), El, andb_false_r in Hoff.
      by injection Hoff as <-. }
    destruct (sample_s_t_after_init L init true st x0 inds st0 x r g H0 El)
      as (st2 & Hon & [-> | (sel & _ & _ & _ & ->)]).
    + exists (TrainData.s_t_0 (TrainData.set_generator g st0)). rewrite Hon.
      by destruct st0.
    + by eexists.
  - intros bs L init st a st1 Hoff. pose proof Hoff as Hoff'.
    unfold TrainToy.sample_s_t in Hoff'.
    apply bind_ok in Hoff' as ([x0 inds] & st0 & H0 & _).
    destruct (langevin (TrainToy.f st0) (TrainToy.epsilon (TrainToy.config st0))
                L x0 (TrainToy.generator st0)) as [[x r] g] eqn:El.
    destruct (toy_sample_s_t_after_init bs L init false st x0 inds st0 x r g H0 El)
      as (st1' & Hoff1 & Hst1).
    rewrite Hoff in Hoff1. injection Hoff1 as -> <-.
    assert (st1 = TrainToy.set_generator g st0) as ->.
    { rewrite (toy_sample_s_t_unfold _ _ _ _ _ _ _ _ H0), El, andb_false_r in Hoff.
      by injection Hoff as <-. }
    destruct (toy_sample_s_t_after_init bs L init true st x0 inds st0 x r g H0 El)
      as (st2 & Hon & [-> | (sel & _ & _ & _ & ->)]).
    + exists (TrainToy.s_t_0 (TrainToy.set_generator g st0)). rewrite Hon.
      by destruct st0.
    + by eexists.
Qed.
End update_flag.


(** * The further properties on the example instance *)

(** X1 on the example: the method 'noise' is not one of the four. *)
Lemma unknown_init_type_is_refused_witness :
  TrainData.sample_s_t 1 "noise" true (Example.globals 2) = Raise InvalidInitType.
Proof.
  apply (proj1 (unknown_init_type_is_refused "noise"
                  ltac:(done) ltac:(done) ltac:(done) ltac:(done))).
Defined.

(** X2 on the example: a uniform call with the dimensions [2, 1, 2, 2]. *)
Lemma sampler_returns_iff_accepted_witness :
  TorchSpec Z
  ∧ is_ok (TrainData.sample_s_t 1 "uniform" true (Example.globals 2))
    = sampler_accepts "uniform" [2; 1; 2; 2].
Proof.
  split; [exact counter_torch_spec|].
  exact (proj1 (sampler_returns_iff_accepted (TorchSpec0 := counter_torch_spec))
           1 "uniform" true (Example.globals 2)).
Defined.

(** X3 on the example: a positive batch of two of the three images. *)
Lemma positive_batch_from_dataset_witness :
  TorchSpec Z
  ∧ ∃ inds rows noise g,
      TrainData.sample_q (Example.globals 2)
      = Ok (tadd rows (tscale 1 noise), TrainData.set_generator g (Example.globals 2))
      ∧ NoDup inds
      ∧ Forall2 (λ i row, Example.images !! i = Some row) inds rows
      ∧ same_shape 4 rows noise
      ∧ same_shape 4 rows (tadd rows (tscale 1 noise))
      ∧ (0 ≤ 2 → length rows = (Z.to_nat 2 `min` 3)%nat).
Proof.
  split; [exact counter_torch_spec|].
  exact (positive_batch_from_dataset (TorchSpec0 := counter_torch_spec) (Example.globals 2)).
Defined.

(** X5 on the example: batch size -1 with a bank of three chains. *)
Lemma negative_batch_size_shortens_the_batch_witness :
  TorchSpec Z
  ∧ ∃ x r st',
      TrainData.sample_s_t 1 "persistent" true (Example.globals (-1)) = Ok ((x, r), st')
      ∧ Z.of_nat (length x) = 3 + -1.
Proof.
  split; [exact counter_torch_spec|].
  apply (proj1 (negative_batch_size_shortens_the_batch (TorchSpec0 := counter_torch_spec))
           1 true (Example.globals (-1))); simpl; lia.
Defined.

(** X4 on the example: a persistent call with the update flag set. *)
Lemma sampler_leaves_the_rest_witness :
  ∃ a st',
    TrainData.sample_s_t 1 "persistent" true (Example.globals 2) = Ok (a, st')
    ∧ TrainData.config st' = Example.cfg 2
    ∧ TrainData.f st' = 1
    ∧ TrainData.optim st' = TrainData.optim (Example.globals 2)
    ∧ TrainData.q st' = Example.images
    ∧ TrainData.d_s_t_record st' = [0; 0]
    ∧ TrainData.r_s_t_record st' = [0; 0].
Proof.
  destruct (TrainData.sample_s_t 1 "persistent" true (Example.globals 2))
    as [[a st']|e] eqn:Hrun; [|by vm_compute in Hrun].
  exists a, st'. split; [done|].
  exact (proj1 sampler_leaves_the_rest 1 "persistent" true (Example.globals 2) a st' Hrun).
Defined.

(** X6 on the example: the bank of shape [3, 1, 2, 2]. *)
Lemma bank_keeps_its_shape_witness :
  TorchSpec Z
  ∧ has_shape [3; 1; 2; 2]%nat 4 Example.bank
  ∧ ∃ a st',
      TrainData.sample_s_t 1 "persistent" true (Example.globals 2) = Ok (a, st')
      ∧ has_shape [3; 1; 2; 2]%nat 4 (TrainData.s_t_0 st')
      ∧ length (TrainData.s_t_0 st') = 3%nat.
Proof.
  assert (has_shape [3; 1; 2; 2]%nat 4 Example.bank) as Hbank
    by (repeat (vm_compute; first [split | constructor])).
  split; [exact counter_torch_spec|]. split; [exact Hbank|].
  destruct (TrainData.sample_s_t 1 "persistent" true (Example.globals 2))
    as [[a st']|e] eqn:Hrun; [|by vm_compute in Hrun].
  exists a, st'. split; [done|].
  exact (proj1 (bank_keeps_its_shape (TorchSpec0 := counter_torch_spec) 3 [1; 2; 2]%nat)
           1 "persistent" true (Example.globals 2) a st' Hbank Hrun).
Defined.

(** X7 on the example: the first iteration leaves the second entries. *)
Lemma iteration_writes_its_own_entries_witness :
  ∃ u st',
    TrainData.train_iter 0 (Example.globals 2) = Ok (u, st')
    ∧ length (TrainData.d_s_t_record st') = 2%nat
    ∧ length (TrainData.r_s_t_record st') = 2%nat
    ∧ TrainData.d_s_t_record st' !! 1%nat = Some 0
    ∧ TrainData.r_s_t_record st' !! 1%nat = Some 0.
Proof.
  destruct (TrainData.train_iter 0 (Example.globals 2)) as [[u st']|e] eqn:Hrun;
    [|by vm_compute in Hrun].
  destruct (proj1 iteration_writes_its_own_entries 0 (Example.globals 2) u st' Hrun)
    as (_ & Hd & Hr & Hrest).
  exists u, st'. split; [done|]. split; [exact Hd|]. split; [exact Hr|].
  apply (Hrest 1%nat). simpl. lia.
Defined.

(** X8 on the example: the optimizer step of the first iteration. *)
Lemma iteration_takes_one_optimizer_step_witness :
  ∃ u st',
    TrainData.train_iter 0 (Example.globals 2) = Ok (u, st')
    ∧ ∃ x_q st1 x_s_t r_s_t st2,
        TrainData.sample_q (Example.globals 2) = Ok (x_q, st1)
        ∧ TrainData.sample_s_t 2 "persistent" true st1 = Ok ((x_s_t, r_s_t), st2)
        ∧ TrainData.f st' = (optim_step SGD [16] O (loss 2 x_q x_s_t) 1).1
        ∧ state (TrainData.optim st') = (optim_step SGD [16] O (loss 2 x_q x_s_t) 1).2
        ∧ kind (TrainData.optim st') = SGD.
Proof.
  destruct (TrainData.train_iter 0 (Example.globals 2)) as [[u st']|e] eqn:Hrun;
    [|by vm_compute in Hrun].
  exists u, st'. split; [done|].
  exact (proj1 iteration_takes_one_optimizer_step 0 (Example.globals 2) u st' Hrun).
Defined.

(** X9 on the example: the second iteration keeps the first entries. *)
Lemma training_keeps_the_other_entries_witness :
  ∃ u st',
    for_range TrainData.train_iter 1 1 (Example.globals 2) = Ok (u, st')
    ∧ TrainData.d_s_t_record st' !! 0%nat = Some 0
    ∧ TrainData.r_s_t_record st' !! 0%nat = Some 0.
Proof.
  destruct (for_range TrainData.train_iter 1 1 (Example.globals 2))
    as [[u st']|e] eqn:Hrun; [|by vm_compute in Hrun].
  destruct (proj1 training_keeps_the_other_entries 1%nat 1 (Example.globals 2) u st'
              ltac:(lia) Hrun) as (_ & _ & Hrest).
  exists u, st'. split; [done|].
  apply (Hrest 0%nat). left. simpl. lia.
Defined.

(** X10 on the example: the network type 'resnet' is not in the bank; an
    [epsilon] of 2000 is out of the range of the example scalars; and
    the number of iterations -1 is negative. *)
Lemma setup_refuses_unknown_keys_witness :
  TrainData.setup (Cases.cfg "resnet" "persistent" 1) Example.images Example.fresh
  = Raise (KeyError "resnet")
  ∧ TrainData.setup (Cases.sgd_cfg 2000 2) Example.images Example.fresh
    = Raise OverflowError
  ∧ TrainData.setup (Cases.sgd_cfg 2 (-1)) Example.images Example.fresh
    = Raise ShapeError.
Proof.
  split_and!.
  - apply (proj1 (proj1 setup_refuses_unknown_keys
                    (Cases.cfg "resnet" "persistent" 1) Example.images Example.fresh));
      by vm_compute.
  - apply (proj1 (proj2 (proj2 (proj1 setup_refuses_unknown_keys
                                  (Cases.sgd_cfg 2000 2) Example.images Example.fresh))));
      [by left|reflexivity..].
  - apply (proj2 (proj2 (proj2 (proj1 setup_refuses_unknown_keys
                                  (Cases.sgd_cfg 2 (-1)) Example.images Example.fresh))));
      [by left|by right|reflexivity|simpl; lia].
Defined.

(** X12 on the example: the first iteration. *)
Lemma iteration_returns_iff_configured_witness :
  TorchSpec Z
  ∧ is_ok (TrainData.train_iter 0 (Example.globals 2))
    = data_iteration_returns (Example.cfg 2) 0.
Proof.
  split; [exact counter_torch_spec|].
  apply (proj1 (iteration_returns_iff_configured (TorchSpec0 := counter_torch_spec))
           0 (Example.globals 2)); simpl; lia.
Defined.

(** X13 on the example: the run of the example configuration returns. *)
Lemma run_returns_iff_configured_witness :
  TorchSpec Z
  ∧ is_ok (TrainData.main (Example.cfg 2) Example.images Example.fresh) = true.
Proof.
  split; [exact counter_torch_spec|].
  exact (proj1 (run_returns_iff_configured (TorchSpec0 := counter_torch_spec))
           (Example.cfg 2) Example.images Example.fresh).
Defined.

(** X14 on the example: the first iteration, and the run of two
    iterations, with the logging frequency zero. *)
Lemma zero_frequency_stops_the_run_witness :
  TorchSpec Z
  ∧ is_ok (TrainData.train_iter 0 (Cases.globals "persistent" 0)) = true
  ∧ is_ok (TrainData.main (Cases.cfg "vanilla" "persistent" 0)
             Example.images Example.fresh) = false.
Proof.
  split; [exact counter_torch_spec|]. split.
  - etrans.
    + apply (proj1 (proj1 (zero_frequency_stops_the_run (TorchSpec0 := counter_torch_spec)))
               (Cases.globals "persistent" 0)); [reflexivity|simpl; lia..].
    + vm_compute. reflexivity.
  - apply (proj1 (proj2 (proj1 (zero_frequency_stops_the_run
                                  (TorchSpec0 := counter_torch_spec))))
             (Cases.cfg "vanilla" "persistent" 0) Example.images Example.fresh);
      [reflexivity|simpl; lia].
Defined.

(** X16 on the example: the setup of the example configuration. *)
Lemma setup_builds_bank_and_records_witness :
  TorchSpec Z
  ∧ ∃ st,
      TrainData.setup (Example.cfg 2) Example.images Example.fresh = Ok st
      ∧ TrainData.q st = Example.images
      ∧ same_shape 4 Example.images (TrainData.s_t_0 st)
      ∧ length (TrainData.s_t_0 st) = 3%nat
      ∧ TrainData.d_s_t_record st = [0; 0]
      ∧ TrainData.r_s_t_record st = [0; 0].
Proof.
  split; [exact counter_torch_spec|].
  destruct (TrainData.setup (Example.cfg 2) Example.images Example.fresh)
    as [st|e] eqn:Hrun; [|by vm_compute in Hrun].
  exists st. split; [done|].
  exact (proj1 (setup_builds_bank_and_records (TorchSpec0 := counter_torch_spec))
           (Example.cfg 2) Example.images Example.fresh st Hrun).
Defined.

(** X17 on the example: the run of the example configuration. *)
Lemma run_keeps_dataset_and_shapes_witness :
  TorchSpec Z
  ∧ ∃ u st',
      TrainData.main (Example.cfg 2) Example.images Example.fresh = Ok (u, st')
      ∧ TrainData.q st' = Example.images
      ∧ length (TrainData.d_s_t_record st') = 2%nat
      ∧ length (TrainData.r_s_t_record st') = 2%nat
      ∧ has_shape [3; 1; 2; 2]%nat 4 (TrainData.s_t_0 st').
Proof.
  assert (has_shape [3; 1; 2; 2]%nat 4 Example.images) as Himages
    by (repeat (vm_compute; first [split | constructor])).
  split; [exact counter_torch_spec|].
  destruct (TrainData.main (Example.cfg 2) Example.images Example.fresh)
    as [[u st']|e] eqn:Hrun; [|by vm_compute in Hrun].
  destruct (proj1 (run_keeps_dataset_and_shapes (TorchSpec0 := counter_torch_spec))
              (Example.cfg 2) Example.images Example.fresh u st' Hrun)
    as (Hq & Hd & Hr & Hshape).
  exists u, st'. split; [done|]. split; [exact Hq|]. split; [exact Hd|].
  split; [exact Hr|]. exact (Hshape _ _ Himages).
Defined.

(** X11 on the example: two iterations with a uniform short-run
    initialization and a persistent long-run initialization. *)
Lemma bank_untouched_without_persistent_chains_witness :
  ∃ u st',
    for_range TrainData.train_iter 0 2 (Cases.globals "uniform" 1) = Ok (u, st')
    ∧ TrainData.s_t_0 st' = Example.bank.
Proof.
  destruct (for_range TrainData.train_iter 0 2 (Cases.globals "uniform" 1))
    as [[u st']|e] eqn:Hrun; [|by vm_compute in Hrun].
  exists u, st'. split; [done|].
  apply (proj1 bank_untouched_without_persistent_chains 2%nat 0
           (Cases.globals "uniform" 1) u st'); [by vm_compute|exact Hrun].
Defined.

(** X15 on the example: one step and then two, against three at once. *)
Lemma langevin_steps_compose_witness :
  let w := TrainData.f (Example.globals 2) in
  let first := langevin w 2 1 Example.bank Example.fresh in
  let second := langevin w 2 2 first.1.1 first.2 in
  (langevin w 2 (1 + 2) Example.bank Example.fresh).1.1 = second.1.1
  ∧ (langevin w 2 (1 + 2) Example.bank Example.fresh).2 = second.2.
Proof.
  apply (langevin_steps_compose (TrainData.f (Example.globals 2)) 2 1 2 Example.bank Example.fresh); lia.
Defined.

(** X18 on the example: a persistent call with the step count -1. *)
Lemma negative_step_count_runs_no_step_witness :
  TorchSpec Z
  ∧ ∃ x0 inds st0,
      TrainData.sample_s_t_0 "persistent" (Example.globals 2) = Ok ((x0, inds), st0)
      ∧ TrainData.sample_s_t (-1) "persistent" true (Example.globals 2)
        = Ok ((x0, sdiv szero (sofZ (-1))), st0).
Proof.
  split; [exact counter_torch_spec|].
  destruct (TrainData.sample_s_t_0 "persistent" (Example.globals 2))
    as [[[x0 inds] st0]|e] eqn:Hrun; [|by vm_compute in Hrun].
  exists x0, inds, st0. split; [done|].
  apply (proj1 (negative_step_count_runs_no_step (TorchSpec0 := counter_torch_spec))
           (-1) "persistent" true (Example.globals 2) x0 inds st0); [lia|exact Hrun].
Defined.

(** X19 on the example: a persistent call with the flag unset and set. *)
Lemma update_flag_changes_only_the_bank_witness :
  TorchSpec Z
  ∧ ∃ a st1,
      TrainData.sample_s_t 1 "persistent" false (Example.globals 2) = Ok (a, st1)
      ∧ ∃ bank,
          TrainData.sample_s_t 1 "persistent" true (Example.globals 2)
          = Ok (a, TrainData.set_s_t_0 bank st1).
Proof.
  split; [exact counter_torch_spec|].
  destruct (TrainData.sample_s_t 1 "persistent" false (Example.globals 2))
    as [[a st1]|e] eqn:Hrun; [|by vm_compute in Hrun].
  exists a, st1. split; [done|].
  exact (proj1 (update_flag_changes_only_the_bank (TorchSpec0 := counter_torch_spec))
           1 "persistent" (Example.globals 2) a st1 Hrun).
Defined.
